(** * Cloth shop back end: authentication core and cart-to-order checkout

    A shallow embedding of the Express handlers of
    [server/middleware/auth.js], [server/routes/authRoutes.js] and
    [server/routes/orderRoutes.js], with the properties of the
    specification stated over them; then of the catalog routes
    ([server/routes/productRoutes.js]) and of the client code that calls
    the server ([src/services/api.js], [src/utils/imageHelper.js], the
    shop context, the login and signup form, the checkout button), with
    properties read off the code.

    Conventions of the embedding:
    - a JSON value is a [JSValue]; a JS [Number] is an IEEE-754 binary64
      ([PrimFloat.float]), with the primitive addition and multiplication;
    - a JS string is a [string] whose characters are the code units below
      256 (Latin-1); [toLowerCase] and [trim] are exact on that range;
    - a MongoDB collection is the list of its documents in natural order;
    - an [async] handler is a function in the monad [M]: it threads the
      database and may throw; the [try]/[catch] of each handler is
      [run_handler];
    - what the repository takes from libraries or from the process
      environment (jsonwebtoken, bcrypt, the clock, the ObjectId
      generator, store and schema-validation failures) is gathered in the
      record [Env]. *)

From Stdlib Require Import ZArith String Ascii List Bool Lia PrimFloat Btauto.
From stdpp Require Import gmap strings list.
Import ListNotations.

Local Open Scope string_scope.
Local Open Scope Z_scope.

(** ** JavaScript values *)

#[local] Unset Elimination Schemes.

Inductive JSValue : Type :=
| JUndefined
| JNull
| JBool (b : bool)
| JNum (x : float)
| JStr (s : string)
| JObj (fields : list (string * JSValue))
| JArr (elems : list JSValue).
#[local] Set Elimination Schemes.

(** [!!v] of JavaScript: every value is truthy but [undefined], [null],
    [false], [0], [-0], [NaN] and the empty string. *)
Definition truthy (v : JSValue) : bool :=
  match v with
  | JUndefined | JNull => false
  | JBool b => b
  | JNum x => negb (PrimFloat.eqb x 0%float || PrimFloat.is_nan x)
  | JStr s => negb (String.eqb s "")
  | JObj _ | JArr _ => true
  end.

(** [o[k]] on an object given by its own enumerable properties. *)
Fixpoint get_field (k : string) (o : list (string * JSValue)) : JSValue :=
  match o with
  | [] => JUndefined
  | (k', v) :: o' => if String.eqb k' k then v else get_field k o'
  end.

(** [Object.keys(o)] *)
Definition keys (o : list (string * JSValue)) : list string := map fst o.

(** [a || b] *)
Definition js_or (a b : JSValue) : JSValue := if truthy a then a else b.

(** ** Strings *)

(** [String.prototype.toLowerCase] on one Latin-1 code unit: the letters
    A-Z and U+00C0-U+00DE (U+00D7, the multiplication sign, excepted) move
    up by 32. *)
Definition lower_char (c : ascii) : ascii :=
  let n := nat_of_ascii c in
  if ((65 <=? n)%nat && (n <=? 90)%nat)
     || ((192 <=? n)%nat && (n <=? 222)%nat && negb (n =? 215)%nat)
  then ascii_of_nat (n + 32) else c.

Fixpoint toLowerCase (s : string) : string :=
  match s with
  | EmptyString => EmptyString
  | String c s' => String (lower_char c) (toLowerCase s')
  end.

(** White space of [trim] below U+0100: TAB, LF, VT, FF, CR, SP, NBSP. *)
Definition is_space (c : ascii) : bool :=
  let n := nat_of_ascii c in
  ((9 <=? n)%nat && (n <=? 13)%nat) || (n =? 32)%nat || (n =? 160)%nat.

Fixpoint trimStart (s : string) : string :=
  match s with
  | EmptyString => EmptyString
  | String c s' => if is_space c then trimStart s' else s
  end.

Fixpoint trimEnd (s : string) : string :=
  match s with
  | EmptyString => EmptyString
  | String c s' =>
      match trimEnd s' with
      | EmptyString => if is_space c then EmptyString else String c EmptyString
      | t => String c t
      end
  end.

Definition trim (s : string) : string := trimEnd (trimStart s).

(** [s.split(sep)] for a one-character separator. *)
Fixpoint split (sep : ascii) (s : string) : list string :=
  match s with
  | EmptyString => [EmptyString]
  | String c s' =>
      if Ascii.eqb c sep then EmptyString :: split sep s'
      else match split sep s' with
           | w :: ws => String c w :: ws
           | [] => [String c EmptyString]
           end
  end.

(** ** Exceptions *)

Inductive result (A : Type) : Type :=
| Ok (a : A)
| Throw (message : string).
Arguments Ok {A} a.
Arguments Throw {A} message.

(** ** Documents *)

Definition ObjectId : Type := string.

(** A user document. Mongoose documents are assigned to by field name
    (see [set_field]), so the fields hold JSON values. *)
Record User : Type := mkUser {
  u_id : ObjectId;
  u_name : JSValue;
  u_email : JSValue;
  u_password : JSValue;
  u_role : JSValue;
  u_phone : JSValue;
  u_address : JSValue;
}.

(** [server/models/Product.js] *)
Record Product : Type := mkProduct {
  p_id : ObjectId;
  p_name : string;
  p_category : string;
  p_image : string;
  new_price : float;
  old_price : float;
  p_description : string;
  inStock : bool;
  stockQuantity : float;
}.

Record CartItem : Type := mkCartItem {
  ci_product : ObjectId;
  ci_quantity : float;
}.

Record Cart : Type := mkCart {
  c_id : ObjectId;
  c_user : ObjectId;
  c_items : list CartItem;
}.

(** A cart item after [populate('items.product')]: the reference is
    replaced by the product document, or by [null] when it is gone. *)
Record PopCartItem : Type := mkPopCartItem {
  pci_product : option Product;
  pci_quantity : float;
}.

Record OrderItem : Type := mkOrderItem {
  oi_product : ObjectId;
  oi_name : string;
  oi_image : string;
  oi_price : float;
  oi_quantity : float;
}.

Record Order : Type := mkOrder {
  o_id : ObjectId;
  o_user : ObjectId;
  o_items : list OrderItem;
  totalAmount : float;
  shippingAddress : JSValue;
  paymentMethod : JSValue;
  paymentStatus : JSValue;
  orderStatus : JSValue;
  createdAt : Z;
}.

(** An order after [populate('items.product')]: the order and, item by
    item, the product document its reference resolves to. *)
Definition PopOrder : Type := (Order * list (option Product))%type.

Record Db : Type := mkDb {
  users : list User;
  products : list Product;
  carts : list Cart;
  orders : list Order;
}.

Inductive Collection : Type := Users | Products | Carts | Orders.

(** ** Environment *)

Record JwtPayload : Type := mkJwtPayload { userId : ObjectId }.

Record Env : Type := mkEnv {
  (** [process.env.JWT_SECRET] *)
  JWT_SECRET : option string;
  (** [jwt.sign(payload, secret, { expiresIn: '7d' })] *)
  jwt_sign : JwtPayload -> string -> string;
  (** [jwt.verify(token, secret)]: throws on a bad signature or an
      expired token *)
  jwt_verify : string -> string -> result JwtPayload;
  (** the salted hash of the pre-save hook of the user model *)
  hash_password : JSValue -> string;
  (** [user.comparePassword(candidate)] *)
  comparePassword : JSValue -> User -> result bool;
  (** the ObjectId given to a new document *)
  fresh_id : Db -> ObjectId;
  (** [Date.now()] *)
  now : Z;
  (** a query on the collection rejects with this message *)
  read_fault : Collection -> option string;
  (** [save()] rejects the document with this message (schema validation
      or a failure of the store) *)
  user_save_fault : User -> option string;
  cart_save_fault : Cart -> option string;
  order_save_fault : Order -> option string;
}.

Definition reads_ok (E : Env) : Prop := forall c, read_fault E c = None.

(** ** The handler monad *)

Definition M (A : Type) : Type := Db -> Db * result A.

Definition ret {A} (a : A) : M A := fun db => (db, Ok a).

Definition throw {A} (message : string) : M A := fun db => (db, Throw message).

Definition bind {A B} (m : M A) (k : A -> M B) : M B :=
  fun db =>
    match m db with
    | (db', Ok a) => k a db'
    | (db', Throw e) => (db', Throw e)
    end.

Notation "'let!' x ':=' m 'in' k" := (bind m (fun x => k))
  (at level 10, x name, m at level 100, k at level 200).
Notation "'do!' m 'in' k" := (bind m (fun _ => k))
  (at level 10, m at level 100, k at level 200).

Definition lift {A} (r : result A) : M A := fun db => (db, r).

(** ** Responses *)

Record PublicUser : Type := mkPublicUser {
  pu_id : ObjectId;
  pu_name : JSValue;
  pu_email : JSValue;
  pu_role : JSValue;
}.

Inductive Body : Type :=
| BMessage (message : string)
| BAuth (message token : string) (user : PublicUser)
| BUser (u : User)
| BOrder (o : Order)
| BPopOrder (o : PopOrder)
| BOrders (os : list PopOrder).

Record Response : Type := mkResponse {
  status : Z;
  json : Body;
}.

(** [try { ... } catch (error) { res.status(code).json({ message:
    error.message }) }] *)
Definition run_handler (code : Z) (m : M Response) (db : Db) : Db * Response :=
  match m db with
  | (db', Ok r) => (db', r)
  | (db', Throw e) => (db', mkResponse code (BMessage e))
  end.

Record Request : Type := mkRequest {
  authorization : option string;   (* req.headers.authorization *)
  params_id : string;              (* req.params.id *)
  body : list (string * JSValue);  (* req.body *)
}.

(** ** The store *)

(** A query: it rejects when the environment says so, and otherwise
    answers from the current state of the database. *)
Definition query {A} (E : Env) (c : Collection) (f : Db -> A) : M A :=
  fun db =>
    match read_fault E c with
    | Some e => (db, Throw e)
    | None => (db, Ok (f db))
    end.

Definition has_id (id : ObjectId) (u : User) : bool := String.eqb (u_id u) id.

Definition has_email (email : string) (u : User) : bool :=
  match u_email u with
  | JStr s => String.eqb s email
  | _ => false
  end.

(** [User.findById(id)] *)
Definition User_findById (E : Env) (id : ObjectId) : M (option User) :=
  query E Users (fun db => List.find (has_id id) (users db)).

(** [User.findOne({ email })] *)
Definition User_findOne (E : Env) (email : string) : M (option User) :=
  query E Users (fun db => List.find (has_email email) (users db)).

(** [doc.save()] on a collection. A new document is inserted, and the
    unique index on [_id] refuses an identifier already taken; a document
    that came from a query is written over the stored one of the same
    [_id]. *)
Fixpoint replace_first {A} (same : A -> bool) (x : A) (l : list A)
  : option (list A) :=
  match l with
  | [] => None
  | y :: l' =>
      if same y then Some (x :: l')
      else match replace_first same x l' with
           | Some r => Some (y :: r)
           | None => None
           end
  end.

Definition store {A} (same : A -> bool) (isNew : bool) (x : A) (l : list A)
  : result (list A) :=
  if isNew then
    if existsb same l then Throw "E11000 duplicate key error"
    else Ok (l ++ [x])%list
  else
    match replace_first same x l with
    | Some l' => Ok l'
    | None => Throw "No document found for query"
    end.

Definition set_users (db : Db) (l : list User) : Db :=
  mkDb l (products db) (carts db) (orders db).
Definition set_carts (db : Db) (l : list Cart) : Db :=
  mkDb (users db) (products db) l (orders db).
Definition set_orders (db : Db) (l : list Order) : Db :=
  mkDb (users db) (products db) (carts db) l.

Definition set_password (u : User) (v : JSValue) : User :=
  mkUser (u_id u) (u_name u) (u_email u) v (u_role u) (u_phone u) (u_address u).

(** [user.save()]. The document is validated as it was handed over; the
    pre-save hook of the user model then replaces the password of a new
    user by its salted hash. *)
Definition User_save (E : Env) (isNew : bool) (u : User) : M User :=
  fun db =>
    match user_save_fault E u with
    | Some e => (db, Throw e)
    | None =>
        let u' := if isNew
                  then set_password u (JStr (hash_password E (u_password u)))
                  else u in
        match store (has_id (u_id u)) isNew u' (users db) with
        | Ok l => (set_users db l, Ok u')
        | Throw e => (db, Throw e)
        end
    end.

Definition same_cart (c c' : Cart) : bool := String.eqb (c_id c') (c_id c).
Definition same_order (o o' : Order) : bool := String.eqb (o_id o') (o_id o).

(** [cart.save()] *)
Definition Cart_save (E : Env) (isNew : bool) (c : Cart) : M unit :=
  fun db =>
    match cart_save_fault E c with
    | Some e => (db, Throw e)
    | None =>
        match store (same_cart c) isNew c (carts db) with
        | Ok l => (set_carts db l, Ok tt)
        | Throw e => (db, Throw e)
        end
    end.

(** [order.save()] *)
Definition Order_save (E : Env) (isNew : bool) (o : Order) : M unit :=
  fun db =>
    match order_save_fault E o with
    | Some e => (db, Throw e)
    | None =>
        match store (same_order o) isNew o (orders db) with
        | Ok l => (set_orders db l, Ok tt)
        | Throw e => (db, Throw e)
        end
    end.

Definition find_product (db : Db) (id : ObjectId) : option Product :=
  List.find (fun p => String.eqb (p_id p) id) (products db).

(** ** Authentication middleware ([server/middleware/auth.js]) *)

Definition default_jwt_secret : string :=
  "default-jwt-secret-for-development-change-in-production".

(** [process.env.JWT_SECRET || '...'] *)
Definition jwtSecret (E : Env) : string :=
  match JWT_SECRET E with
  | Some s => if String.eqb s "" then default_jwt_secret else s
  | None => default_jwt_secret
  end.

(** [req.headers.authorization?.split(' ')[1]] *)
Definition bearer_token (req : Request) : option string :=
  match authorization req with
  | None => None
  | Some h => nth_error (split " " h) 1
  end.

Definition unauthenticated (message : string) : Response :=
  mkResponse 401 (BMessage message).

(** [authenticate]: the middleware either answers itself ([inl]) or sets
    [req.user] and calls [next()] ([inr]). *)
Definition authenticate (E : Env) (req : Request) (db : Db)
  : Db * (Response + User) :=
  let attempt : M (Response + User) :=
    match bearer_token req with
    | None | Some "" => ret (inl (unauthenticated "Authentication required"))
    | Some token =>
        let! decoded := lift (jwt_verify E token (jwtSecret E)) in
        let! user := User_findById E (userId decoded) in
        match user with
        | None => ret (inl (unauthenticated "User not found"))
        | Some u => ret (inr u)
        end
    end in
  match attempt db with
  | (db', Ok r) => (db', r)
  | (db', Throw _) => (db', inl (unauthenticated "Invalid or expired token"))
  end.

(** [isAdmin]'s and the status route's test [req.user.role === 'admin'] *)
Definition is_admin (u : User) : bool :=
  match u_role u with
  | JStr r => String.eqb r "admin"
  | _ => false
  end.

(** A route behind [authenticate]. *)
Definition protected (E : Env) (handler : User -> Request -> Db -> Db * Response)
  (req : Request) (db : Db) : Db * Response :=
  match authenticate E req db with
  | (db', inl r) => (db', r)
  | (db', inr u) => handler u req db'
  end.

(** ** Account routes ([server/routes/authRoutes.js]) *)

Definition generateToken (E : Env) (uid : ObjectId) : string :=
  jwt_sign E (mkJwtPayload uid) (jwtSecret E).

(** [email.toLowerCase().trim()]; only a string has [toLowerCase]. *)
Definition normalize (email : string) : string := trim (toLowerCase email).

Definition normalizedEmail (email : JSValue) : result string :=
  match email with
  | JStr s => Ok (normalize s)
  | _ => Throw "email.toLowerCase is not a function"
  end.

Definition public (u : User) : PublicUser :=
  mkPublicUser (u_id u) (u_name u) (u_email u) (u_role u).

(** [new User({ name, email, password })]: the schema gives the role its
    default, ['user']; phone and address are left unset. *)
Definition new_User (E : Env) (db : Db) (name : JSValue) (email : string)
  (password : JSValue) : User :=
  mkUser (fresh_id E db) name (JStr email) password (JStr "user")
         JUndefined JUndefined.

Definition conflict : Response :=
  mkResponse 400 (BMessage "User already exists with this email").

(** [POST /signup] *)
Definition signup (E : Env) (req : Request) : Db -> Db * Response :=
  let name := get_field "name" (body req) in
  let email := get_field "email" (body req) in
  let password := get_field "password" (body req) in
  run_handler 400
    (if negb (truthy name) || negb (truthy email) || negb (truthy password)
     then ret (mkResponse 400 (BMessage "Please provide all required fields"))
     else
       let! normalized := lift (normalizedEmail email) in
       let! existingUser := User_findOne E normalized in
       match existingUser with
       | Some _ => ret conflict
       | None =>
           fun db =>
             (let! user := User_save E true (new_User E db name normalized password) in
              let token := generateToken E (u_id user) in
              ret (mkResponse 201
                     (BAuth "User created successfully" token (public user)))) db
       end).

Definition invalid_credentials : Response :=
  mkResponse 401 (BMessage "Invalid credentials").

(** [POST /login] *)
Definition login (E : Env) (req : Request) : Db -> Db * Response :=
  let email := get_field "email" (body req) in
  let password := get_field "password" (body req) in
  run_handler 500
    (if negb (truthy email) || negb (truthy password)
     then ret (mkResponse 400 (BMessage "Please provide email and password"))
     else
       let! normalized := lift (normalizedEmail email) in
       let! user := User_findOne E normalized in
       match user with
       | None => ret invalid_credentials
       | Some u =>
           let! isPasswordValid := lift (comparePassword E password u) in
           if negb isPasswordValid then ret invalid_credentials
           else
             let token := generateToken E (u_id u) in
             ret (mkResponse 200 (BAuth "Login successful" token (public u)))
       end).

Definition allowedUpdates : list string := ["name"; "phone"; "address"].

(** [allowedUpdates.includes(update)] *)
Definition includes (l : list string) (k : string) : bool :=
  existsb (String.eqb k) l.

(** [req.user[update] = value]: an assignment to a path of the user
    schema; any other property does not reach the stored document. *)
Definition set_field (u : User) (k : string) (v : JSValue) : User :=
  if String.eqb k "name" then
    mkUser (u_id u) v (u_email u) (u_password u) (u_role u) (u_phone u) (u_address u)
  else if String.eqb k "email" then
    mkUser (u_id u) (u_name u) v (u_password u) (u_role u) (u_phone u) (u_address u)
  else if String.eqb k "password" then
    mkUser (u_id u) (u_name u) (u_email u) v (u_role u) (u_phone u) (u_address u)
  else if String.eqb k "role" then
    mkUser (u_id u) (u_name u) (u_email u) (u_password u) v (u_phone u) (u_address u)
  else if String.eqb k "phone" then
    mkUser (u_id u) (u_name u) (u_email u) (u_password u) (u_role u) v (u_address u)
  else if String.eqb k "address" then
    mkUser (u_id u) (u_name u) (u_email u) (u_password u) (u_role u) (u_phone u) v
  else u.

(** [updates.forEach((update) => (req.user[update] = req.body[update]))] *)
Definition apply_updates (u : User) (b : list (string * JSValue))
  (updates : list string) : User :=
  fold_left (fun acc update => set_field acc update (get_field update b)) updates u.

(** [PUT /profile], behind [authenticate] *)
Definition profile_handler (E : Env) (user : User) (req : Request)
  : Db -> Db * Response :=
  let updates := keys (body req) in
  let isValidOperation := forallb (includes allowedUpdates) updates in
  run_handler 400
    (if negb isValidOperation
     then ret (mkResponse 400 (BMessage "Invalid updates"))
     else
       let user' := apply_updates user (body req) updates in
       let! saved := User_save E false user' in
       ret (mkResponse 200 (BUser saved))).

Definition put_profile (E : Env) : Request -> Db -> Db * Response :=
  protected E (profile_handler E).

(** ** Order routes ([server/routes/orderRoutes.js]) *)

Definition owned_by (uid : ObjectId) (o : Order) : bool := String.eqb (o_user o) uid.

(** [.sort({ createdAt: -1 })]: newest first, ties in natural order. *)
Fixpoint insert_desc (o : Order) (l : list Order) : list Order :=
  match l with
  | [] => [o]
  | o' :: l' =>
      if createdAt o' <=? createdAt o then o :: l else o' :: insert_desc o l'
  end.

Definition sort_desc (l : list Order) : list Order := fold_right insert_desc [] l.

(** [.populate('items.product')] on an order *)
Definition populate_order (db : Db) (o : Order) : PopOrder :=
  (o, map (fun it => find_product db (oi_product it)) (o_items o)).

(** [Order.find({ user }).populate('items.product').sort({ createdAt: -1 })] *)
Definition Order_find (E : Env) (uid : ObjectId) : M (list PopOrder) :=
  let! found := query E Orders
                  (fun db => sort_desc (List.filter (owned_by uid) (orders db))) in
  query E Products (fun db => map (populate_order db) found).

(** [Order.findOne({ _id, user }).populate('items.product')] *)
Definition Order_findOne (E : Env) (id uid : ObjectId) : M (option PopOrder) :=
  let! found := query E Orders
                  (fun db => List.find (fun o => String.eqb (o_id o) id && owned_by uid o)
                               (orders db)) in
  match found with
  | None => ret None
  | Some o => query E Products (fun db => Some (populate_order db o))
  end.

(** [Order.findById(id)] *)
Definition Order_findById (E : Env) (id : ObjectId) : M (option Order) :=
  query E Orders (fun db => List.find (fun o => String.eqb (o_id o) id) (orders db)).

(** The cart as [Cart.findOne({ user }).populate('items.product')] hands
    it over. *)
Record PopCart : Type := mkPopCart {
  pc_id : ObjectId;
  pc_user : ObjectId;
  pc_items : list PopCartItem;
}.

Definition populate_item (db : Db) (it : CartItem) : PopCartItem :=
  mkPopCartItem (find_product db (ci_product it)) (ci_quantity it).

Definition populate_cart (db : Db) (c : Cart) : PopCart :=
  mkPopCart (c_id c) (c_user c) (map (populate_item db) (c_items c)).

Definition find_cart (db : Db) (uid : ObjectId) : option Cart :=
  List.find (fun c => String.eqb (c_user c) uid) (carts db).

Definition Cart_findOne (E : Env) (uid : ObjectId) : M (option PopCart) :=
  let! found := query E Carts (fun db => find_cart db uid) in
  match found with
  | None => ret None
  | Some c => query E Products (fun db => Some (populate_cart db c))
  end.

(** [GET /] *)
Definition list_orders (E : Env) (user : User) (req : Request)
  : Db -> Db * Response :=
  run_handler 500
    (let! orders := Order_find E (u_id user) in
     ret (mkResponse 200 (BOrders orders))).

Definition not_found : Response := mkResponse 404 (BMessage "Order not found").

(** [GET /:id] *)
Definition get_order (E : Env) (user : User) (req : Request)
  : Db -> Db * Response :=
  run_handler 500
    (let! order := Order_findOne E (params_id req) (u_id user) in
     match order with
     | None => ret not_found
     | Some o => ret (mkResponse 200 (BPopOrder o))
     end).

(** The line item the checkout copies from a product and a quantity. *)
Definition snapshot (product : Product) (quantity : float) : OrderItem :=
  mkOrderItem (p_id product) (p_name product) (p_image product)
              (new_price product) quantity.

(** [cart.items.map((cartItem) => { ... totalAmount += itemTotal; ... })]:
    the items built and the running total; reading [new_price] of a
    [null] product throws. *)
Fixpoint orderItems (items : list PopCartItem) (total : float)
  : result (list OrderItem * float) :=
  match items with
  | [] => Ok ([], total)
  | cartItem :: rest =>
      match pci_product cartItem with
      | None => Throw "Cannot read properties of null (reading 'new_price')"
      | Some product =>
          let itemTotal := PrimFloat.mul (new_price product) (pci_quantity cartItem) in
          match orderItems rest (PrimFloat.add total itemTotal) with
          | Ok (built, total') =>
              Ok (snapshot product (pci_quantity cartItem) :: built, total')
          | Throw e => Throw e
          end
      end
  end.

(** [new Order({ ... })] *)
Definition new_Order (E : Env) (db : Db) (user : User) (items : list OrderItem)
  (total : float) (address method : JSValue) : Order :=
  mkOrder (fresh_id E db) (u_id user) items total address
          (js_or method (JStr "cash_on_delivery"))
          (JStr "pending") (JStr "pending") (now E).

Definition missing_address : Response :=
  mkResponse 400 (BMessage "Shipping address is required").

Definition empty_cart : Response := mkResponse 400 (BMessage "Cart is empty").

(** [cart.items = []] on the cart document *)
Definition emptied (cart : PopCart) : Cart := mkCart (pc_id cart) (pc_user cart) [].

(** The end of the checkout, once the order is built:
    [await order.save(); cart.items = []; await cart.save();
     res.status(201).json(order)] *)
Definition writes (E : Env) (order : Order) (cart : PopCart) : M Response :=
  do! Order_save E true order in
  do! Cart_save E false (emptied cart) in
  ret (mkResponse 201 (BOrder order)).

(** [POST /]: create the order from the cart *)
Definition create_order (E : Env) (user : User) (req : Request)
  : Db -> Db * Response :=
  let address := get_field "shippingAddress" (body req) in
  let method := get_field "paymentMethod" (body req) in
  run_handler 400
    (if negb (truthy address) then ret missing_address
     else
       let! found := Cart_findOne E (u_id user) in
       match found with
       | None => ret empty_cart
       | Some cart =>
           if (length (pc_items cart) =? 0)%nat then ret empty_cart
           else
             let! built := lift (orderItems (pc_items cart) 0%float) in
             fun db =>
               writes E (new_Order E db user (fst built) (snd built)
                                   address method) cart db
       end).

Definition set_orderStatus (o : Order) (v : JSValue) : Order :=
  mkOrder (o_id o) (o_user o) (o_items o) (totalAmount o) (shippingAddress o)
          (paymentMethod o) (paymentStatus o) v (createdAt o).

Definition set_paymentStatus (o : Order) (v : JSValue) : Order :=
  mkOrder (o_id o) (o_user o) (o_items o) (totalAmount o) (shippingAddress o)
          (paymentMethod o) v (orderStatus o) (createdAt o).

Definition forbidden : Response := mkResponse 403 (BMessage "Not authorized").

(** [PUT /:id/status] *)
Definition update_status (E : Env) (user : User) (req : Request)
  : Db -> Db * Response :=
  let newOrderStatus := get_field "orderStatus" (body req) in
  let newPaymentStatus := get_field "paymentStatus" (body req) in
  run_handler 400
    (let! found := Order_findById E (params_id req) in
     match found with
     | None => ret not_found
     | Some order =>
         if negb (is_admin user) && negb (String.eqb (o_user order) (u_id user))
         then ret forbidden
         else
           let order1 := if truthy newOrderStatus
                         then set_orderStatus order newOrderStatus else order in
           let order2 := if truthy newPaymentStatus
                         then set_paymentStatus order1 newPaymentStatus else order1 in
           do! Order_save E false order2 in
           ret (mkResponse 200 (BOrder order2))
     end).

(** The router: [router.use(authenticate)] guards every route, and the
    status route names [authenticate] once more. *)
Definition get_orders (E : Env) : Request -> Db -> Db * Response :=
  protected E (list_orders E).

Definition get_order_by_id (E : Env) : Request -> Db -> Db * Response :=
  protected E (get_order E).

Definition post_orders (E : Env) : Request -> Db -> Db * Response :=
  protected E (create_order E).

Definition put_order_status (E : Env) : Request -> Db -> Db * Response :=
  protected E (fun _ => protected E (update_status E)).

(** ** Cart aggregate *)

Module CartAggregate.

(** Modelled from the spec: the cart routes ([server/routes/cartRoutes.js])
    and the cart model ([server/models/Cart.js]) are not among the
    sources. The operations below follow section 4.4 of the
    specification: the carts are a map from a user to that user's cart,
    a cart a map from a product reference to a quantity. *)
Abbreviation CartMap := (gmap ObjectId Z).
Abbreviation Carts := (gmap ObjectId (gmap ObjectId Z)).

(** Modelled from the spec: the cart of a user, an empty one when none
    was created yet. *)
Definition cart_of (cs : Carts) (user : ObjectId) : CartMap :=
  default ∅ (cs !! user).

(** Modelled from the spec: [read] returns the current mapping, lazily
    creating an empty cart if none exists. *)
Definition read (cs : Carts) (user : ObjectId) : Carts * CartMap :=
  (<[user := cart_of cs user]> cs, cart_of cs user).

(** Modelled from the spec: [addItem] increments the quantity of an
    existing entry by [qty], or inserts a new entry with quantity [qty];
    [qty] is 1 when not given. *)
Definition addItem (cs : Carts) (user product : ObjectId) (qty : option Z)
  : Carts :=
  let q := default 1 qty in
  let c := cart_of cs user in
  match c !! product with
  | Some n => <[user := <[product := n + q]> c]> cs
  | None => <[user := <[product := q]> c]> cs
  end.

(** Modelled from the spec: [updateItem] sets the entry's quantity to
    [qty] if [qty >= 1] and removes the entry if [qty <= 0]. Without an
    entry for the product there is no quantity to set. *)
Definition updateItem (cs : Carts) (user product : ObjectId) (qty : Z)
  : Carts :=
  let c := cart_of cs user in
  if 1 <=? qty
  then <[user := alter (fun _ => qty) product c]> cs
  else <[user := delete product c]> cs.

(** Modelled from the spec: [removeItem] deletes the entry if present
    and does nothing if absent. *)
Definition removeItem (cs : Carts) (user product : ObjectId) : Carts :=
  <[user := delete product (cart_of cs user)]> cs.

(** Modelled from the spec: [clear] empties all entries. *)
Definition clear (cs : Carts) (user : ObjectId) : Carts :=
  <[user := ∅]> cs.

Inductive Op : Type :=
| AddItem (product : ObjectId) (qty : option Z)
| UpdateItem (product : ObjectId) (qty : Z)
| RemoveItem (product : ObjectId)
| Clear
| Read.

(** Modelled from the spec: [addItem] requires [qty >= 1]. *)
Definition requires (op : Op) : Prop :=
  match op with
  | AddItem _ qty => 1 <= default 1 qty
  | _ => True
  end.

Definition apply (cs : Carts) (user : ObjectId) (op : Op) : Carts :=
  match op with
  | AddItem product qty => addItem cs user product qty
  | UpdateItem product qty => updateItem cs user product qty
  | RemoveItem product => removeItem cs user product
  | Clear => clear cs user
  | Read => fst (read cs user)
  end.

(** A run of operations, each by some user, from the carts [cs]. *)
Definition run (cs : Carts) (ops : list (ObjectId * Op)) : Carts :=
  fold_left (fun acc uo => apply acc (fst uo) (snd uo)) ops cs.

(** The invariant of the data model: all quantities are at least 1. *)
Definition quantities_positive (cs : Carts) : Prop :=
  forall user (c : CartMap) product q,
    cs !! user = Some c -> c !! product = Some q -> 1 <= q.

End CartAggregate.

(** ** What the specification reads off a checkout *)

(** The unit price the catalog currently has for a product reference. *)
Definition catalog_price (db : Db) (id : ObjectId) : float :=
  match find_product db id with
  | Some p => new_price p
  | None => PrimFloat.nan
  end.

(** The sum over the entries of unit price times quantity, taken in the
    order of the entries. *)
Definition cart_total (db : Db) (items : list CartItem) : float :=
  fold_left
    (fun acc it =>
       PrimFloat.add acc (PrimFloat.mul (catalog_price db (ci_product it))
                                        (ci_quantity it)))
    items 0%float.

(** The line item that snapshots a cart entry against the catalog. *)
Definition snapshot_of (db : Db) (it : CartItem) (oi : OrderItem) : Prop :=
  exists p, find_product db (ci_product it) = Some p
            /\ oi = snapshot p (ci_quantity it).

Definition with_body (req : Request) (b : list (string * JSValue)) : Request :=
  mkRequest (authorization req) (params_id req) b.



(** The e-mail a signup request registers, once normalized. *)
Definition registers (n : string) (req : Request) : bool :=
  match get_field "email" (body req) with
  | JStr e => String.eqb (normalize e) n
  | _ => false
  end.

(** A run of signup requests, one after the other. *)
Fixpoint signups (E : Env) (reqs : list Request) (db : Db) : list Response :=
  match reqs with
  | [] => []
  | req :: rest =>
      let (db', resp) := signup E req db in resp :: signups E rest db'
  end.

(** How many requests of the run registered the normalized e-mail [n]
    with success. *)
Definition registrations (n : string) (reqs : list Request)
  (resps : list Response) : nat :=
  length (List.filter (fun rr => registers n (fst rr) && (status (snd rr) =? 201))
                      (combine reqs resps)).

(** The ownership gate: the principal is an admin or owns the order. *)
Definition passes_gate (user : User) (order : Order) : bool :=
  is_admin user || String.eqb (o_user order) (u_id user).

(** What the profile route must leave alone. *)
Definition identity (u : User) : ObjectId * JSValue * JSValue :=
  (u_id u, u_email u, u_role u).

(** ** A sample shop *)

Module Sample.

Fixpoint tally (n : nat) : string :=
  match n with
  | O => ""
  | S n' => String "i" (tally n')
  end.

(** A toy token format: ["jwt." ++ userId]. *)
Definition verify (token secret : string) : result JwtPayload :=
  match token with
  | String "j" (String "w" (String "t" (String "." id))) => Ok (mkJwtPayload id)
  | _ => Throw "jwt malformed"
  end.

Definition hash (v : JSValue) : string :=
  match v with
  | JStr s => "$2b$" ++ s
  | _ => "$2b$"
  end.

Definition compare (candidate : JSValue) (u : User) : result bool :=
  match candidate, u_password u with
  | JStr c, JStr h => Ok (String.eqb ("$2b$" ++ c) h)
  | _, _ => Throw "Illegal arguments"
  end.

Definition fresh (db : Db) : ObjectId :=
  "n" ++ tally (length (users db) + length (carts db) + length (orders db)).

Definition no_fault {A} (_ : A) : option string := None.

Definition env : Env :=
  mkEnv None (fun p _ => "jwt." ++ userId p) verify hash compare fresh 1000
        no_fault no_fault no_fault no_fault.

(** The order write is refused. *)
Definition env_order_fails : Env :=
  mkEnv None (fun p _ => "jwt." ++ userId p) verify hash compare fresh 1000
        no_fault no_fault no_fault (fun _ => Some "Order validation failed").

(** The cart write is refused. *)
Definition env_cart_fails : Env :=
  mkEnv None (fun p _ => "jwt." ++ userId p) verify hash compare fresh 1000
        no_fault no_fault (fun _ => Some "cart write failed") no_fault.

Definition alice : User :=
  mkUser "u1" (JStr "Alice") (JStr "alice@example.com") (JStr "$2b$secret1")
         (JStr "user") JUndefined JUndefined.
Definition bob : User :=
  mkUser "u2" (JStr "Bob") (JStr "bob@example.com") (JStr "$2b$hunter2")
         (JStr "user") JUndefined JUndefined.
Definition root : User :=
  mkUser "u3" (JStr "Root") (JStr "root@example.com") (JStr "$2b$toor")
         (JStr "admin") JUndefined JUndefined.

Definition P1 : Product :=
  mkProduct "p1" "Kurti" "women" "/assets/women1.jfif" 10 80.5 "" true 50.
Definition P2 : Product :=
  mkProduct "p2" "Jeans" "men" "/assets/men1.webp" 5 90.5 "" true 30.

Definition alice_cart : Cart :=
  mkCart "c1" "u1" [mkCartItem "p1" 2; mkCartItem "p2" 1].
Definition bob_cart : Cart := mkCart "c2" "u2" [].

Definition bob_order : Order :=
  mkOrder "o1" "u2" [mkOrderItem "p2" "Jeans" "/assets/men1.webp" 5 3] 15
          (JStr "1 Main St") (JStr "cash_on_delivery") (JStr "pending")
          (JStr "pending") 900.

Definition db : Db :=
  mkDb [alice; bob; root] [P1; P2] [alice_cart; bob_cart] [bob_order].

Definition address : JSValue :=
  JObj [("street", JStr "1 Main St"); ("city", JStr "Patna")].

(** A checkout request that also carries a total of the client's own. *)
Definition checkout : Request :=
  mkRequest (Some "Bearer jwt.u1") ""
            [("shippingAddress", address); ("totalAmount", JNum 1)].

(** A checkout request of bob, whose cart is empty. *)
Definition checkout_bob : Request :=
  mkRequest (Some "Bearer jwt.u2") "" [("shippingAddress", address)].


(** Two failing logins: an unknown e-mail, and a wrong password. *)
Definition login_unknown : Request :=
  mkRequest None "" [("email", JStr "nobody@example.com"); ("password", JStr "x")].
Definition login_wrong : Request :=
  mkRequest None "" [("email", JStr " ALICE@Example.com"); ("password", JStr "wrong")].

(** A signup with a differently written e-mail of alice. *)
Definition signup_variant : Request :=
  mkRequest None "" [("name", JStr "Al"); ("email", JStr "Alice@EXAMPLE.com  ");
                     ("password", JStr "secret2")].

(** A profile update that tries to take the admin role. *)
Definition promote : Request :=
  mkRequest (Some "Bearer jwt.u1") "" [("name", JStr "Al"); ("role", JStr "admin")].

(** alice sets the status of bob's order; so does the admin. *)
Definition ship : Request :=
  mkRequest (Some "Bearer jwt.u1") "o1" [("orderStatus", JStr "shipped")].
Definition ship_as_admin : Request :=
  mkRequest (Some "Bearer jwt.u3") "o1" [("orderStatus", JStr "shipped")].

(** A well-signed token whose subject is in no collection. *)
Definition stale : Request := mkRequest (Some "Bearer jwt.u9") "" [].

Definition alice_order : Order :=
  mkOrder "niiiiii" "u1"
          [mkOrderItem "p1" "Kurti" "/assets/women1.jfif" 10 2;
           mkOrderItem "p2" "Jeans" "/assets/men1.webp" 5 1]
          25 address (JStr "cash_on_delivery") (JStr "pending")
          (JStr "pending") 1000.

End Sample.

(** ** The role gate and the catalog routes
       ([server/middleware/auth.js], [server/routes/productRoutes.js]) *)

(** [isAdmin]: the middleware lets the request through ([None]) when
    [req.user] is set and has the admin role, and answers 403 otherwise. *)
Definition isAdmin (user : option User) : option Response :=
  match user with
  | Some u =>
      if is_admin u then None
      else Some (mkResponse 403 (BMessage "Admin access required"))
  | None => Some (mkResponse 403 (BMessage "Admin access required"))
  end.

(** What a catalog route answers: a message (or the answer of a
    middleware), or a product document with a status. *)
Inductive Reply : Type :=
| Plain (r : Response)
| Doc (status : Z) (product : Product).

Definition reply_status (r : Reply) : Z :=
  match r with
  | Plain r' => status r'
  | Doc s _ => s
  end.

(** What the catalog routes take from mongoose: the document that
    [new Product(req.body)] builds (casting, setters and defaults of the
    schema), the refusal of [save()], and the document that
    [findByIdAndUpdate(id, req.body, { new: true, runValidators: true })]
    turns a stored one into, or its refusal. *)
Record CatalogEnv : Type := mkCatalogEnv {
  new_Product : ObjectId -> list (string * JSValue) -> Product;
  product_save_fault : Product -> option string;
  updated_Product : Product -> list (string * JSValue) -> result Product;
}.

Definition set_products (db : Db) (l : list Product) : Db :=
  mkDb (users db) l (carts db) (orders db).

Definition has_product_id (id : ObjectId) (p : Product) : bool :=
  String.eqb (p_id p) id.

(** [try { ... } catch (error) { res.status(code).json(...) }] for a
    catalog route *)
Definition run_catalog (code : Z) (m : M Reply) (db : Db) : Db * Reply :=
  match m db with
  | (db', Ok r) => (db', r)
  | (db', Throw e) => (db', Plain (mkResponse code (BMessage e)))
  end.

Definition product_not_found : Reply :=
  Plain (mkResponse 404 (BMessage "Product not found")).

(** [Product.findById(id)] *)
Definition Product_findById (E : Env) (id : ObjectId) : M (option Product) :=
  query E Products (fun db => List.find (has_product_id id) (products db)).

(** [GET /:id] *)
Definition get_product (E : Env) (req : Request) : Db -> Db * Reply :=
  run_catalog 500
    (let! product := Product_findById E (params_id req) in
     match product with
     | None => ret product_not_found
     | Some p => ret (Doc 200 p)
     end).

(** [product.save()] of a new product *)
Definition Product_save (C : CatalogEnv) (p : Product) : M unit :=
  fun db =>
    match product_save_fault C p with
    | Some e => (db, Throw e)
    | None =>
        match store (has_product_id (p_id p)) true p (products db) with
        | Ok l => (set_products db l, Ok tt)
        | Throw e => (db, Throw e)
        end
    end.

(** [POST /], behind [authenticate] and [isAdmin] *)
Definition create_product (E : Env) (C : CatalogEnv) (user : User) (req : Request)
  : Db -> Db * Reply :=
  run_catalog 400
    (fun db =>
       (let product := new_Product C (fresh_id E db) (body req) in
        do! Product_save C product in
        ret (Doc 201 product)) db).

(** [Product.findByIdAndUpdate(id, update, { new: true, runValidators: true })]:
    the first product with the id is replaced by its update and handed
    back; [null] when there is none. *)
Definition Product_findByIdAndUpdate (E : Env) (C : CatalogEnv) (id : ObjectId)
  (update : list (string * JSValue)) : M (option Product) :=
  fun db =>
    match read_fault E Products with
    | Some e => (db, Throw e)
    | None =>
        match List.find (has_product_id id) (products db) with
        | None => (db, Ok None)
        | Some p =>
            match updated_Product C p update with
            | Throw e => (db, Throw e)
            | Ok p' =>
                match replace_first (has_product_id id) p' (products db) with
                | Some l => (set_products db l, Ok (Some p'))
                | None => (db, Ok None)
                end
            end
        end
    end.

(** [PUT /:id], behind [authenticate] and [isAdmin] *)
Definition update_product (E : Env) (C : CatalogEnv) (user : User) (req : Request)
  : Db -> Db * Reply :=
  run_catalog 400
    (let! product := Product_findByIdAndUpdate E C (params_id req) (body req) in
     match product with
     | None => ret product_not_found
     | Some p => ret (Doc 200 p)
     end).

(** Taking the first document that passes the test out of a collection. *)
Fixpoint remove_first {A} (same : A -> bool) (l : list A) : list A :=
  match l with
  | [] => []
  | y :: l' => if same y then l' else y :: remove_first same l'
  end.

(** [Product.findByIdAndDelete(id)] *)
Definition Product_findByIdAndDelete (E : Env) (id : ObjectId)
  : M (option Product) :=
  fun db =>
    match read_fault E Products with
    | Some e => (db, Throw e)
    | None =>
        match List.find (has_product_id id) (products db) with
        | None => (db, Ok None)
        | Some p =>
            (set_products db (remove_first (has_product_id id) (products db)),
             Ok (Some p))
        end
    end.

(** [DELETE /:id], behind [authenticate] and [isAdmin] *)
Definition delete_product (E : Env) (user : User) (req : Request)
  : Db -> Db * Reply :=
  run_catalog 500
    (let! product := Product_findByIdAndDelete E (params_id req) in
     match product with
     | None => ret product_not_found
     | Some _ =>
         ret (Plain (mkResponse 200 (BMessage "Product deleted successfully")))
     end).

(** A catalog route behind [authenticate, isAdmin]. *)
Definition admin_only (E : Env) (handler : User -> Request -> Db -> Db * Reply)
  (req : Request) (db : Db) : Db * Reply :=
  match authenticate E req db with
  | (db', inl r) => (db', Plain r)
  | (db', inr u) =>
      match isAdmin (Some u) with
      | Some r => (db', Plain r)
      | None => handler u req db'
      end
  end.

Definition post_product (E : Env) (C : CatalogEnv) : Request -> Db -> Db * Reply :=
  admin_only E (create_product E C).

Definition put_product (E : Env) (C : CatalogEnv) : Request -> Db -> Db * Reply :=
  admin_only E (update_product E C).

Definition delete_product_route (E : Env) : Request -> Db -> Db * Reply :=
  admin_only E (delete_product E).

(** ** The client's authorization header ([src/services/api.js]) *)

(** [apiRequest]: the headers of the request,
    [{ 'Content-Type': 'application/json',
       ...(token && { Authorization: `Bearer ${token}` }),
       ...options.headers }],
    for the token [localStorage.getItem('token')] hands over ([None] for
    [null]). *)
Definition apiRequest_headers (token : option string)
  (custom : gmap string string) : gmap string string :=
  let base : gmap string string := {[ "Content-Type" := "application/json" ]} in
  let auth : gmap string string :=
    match token with
    | None | Some "" => ∅
    | Some t => {[ "Authorization" := "Bearer " ++ t ]}
    end in
  custom ∪ (auth ∪ base).

(** The request as the server sees it when the caller passes no headers
    of its own, as every function of [api.js] does: Express hands the
    Authorization header over as [req.headers.authorization]. *)
Definition sent (token : option string) (id : string)
  (b : list (string * JSValue)) : Request :=
  mkRequest (apiRequest_headers token ∅ !! "Authorization") id b.

(** A string without a space. *)
Fixpoint space_free (s : string) : bool :=
  match s with
  | EmptyString => true
  | String c s' => negb (Ascii.eqb c " ") && space_free s'
  end.

Definition with_authorization (req : Request) (h : option string) : Request :=
  mkRequest h (params_id req) (body req).

(** ** What the extra properties read off orders and profiles *)

(** Everything of an order but its two status fields. *)
Definition order_frame (o : Order)
  : ObjectId * ObjectId * list OrderItem * float * JSValue * JSValue * Z :=
  (o_id o, o_user o, o_items o, totalAmount o, shippingAddress o,
   paymentMethod o, createdAt o).

(** The order after
    [if (orderStatus) order.orderStatus = orderStatus;
     if (paymentStatus) order.paymentStatus = paymentStatus]. *)
Definition with_statuses (o : Order) (b : list (string * JSValue)) : Order :=
  let o1 := if truthy (get_field "orderStatus" b)
            then set_orderStatus o (get_field "orderStatus" b) else o in
  if truthy (get_field "paymentStatus" b)
  then set_paymentStatus o1 (get_field "paymentStatus" b) else o1.

(** A profile field after an update with body [b]: the value of the body
    when the body has the key, the old value otherwise. *)
Definition field_after (k : string) (old : JSValue) (b : list (string * JSValue))
  : JSValue :=
  if includes (keys b) k then get_field k b else old.

(** Newest first: no order is followed by a newer one. *)
Fixpoint newest_first (l : list Order) : Prop :=
  match l with
  | [] => True
  | o :: l' => (forall o', In o' l' -> createdAt o' <= createdAt o) /\ newest_first l'
  end.

(** The order documents of an answer of the list route. *)
Definition order_documents (resp : Response) : list Order :=
  match json resp with
  | BOrders os => map fst os
  | _ => []
  end.

(** ** The client: image paths ([src/utils/imageHelper.js]) *)

(** [getImageSrc(image)] *)
Definition getImageSrc (image : JSValue) : JSValue :=
  if negb (truthy image) then JStr ""
  else
    match image with
    | JObj fields =>
        js_or (get_field "default" fields) (js_or (get_field "src" fields) (JStr ""))
    | JArr _ => js_or JUndefined (js_or JUndefined (JStr ""))
    | JStr s =>
        if String.prefix "http://" s || String.prefix "https://" s then JStr s
        else if String.prefix "/" s then JStr s
        else JStr ("/" ++ s)
    | _ => JStr ""
    end.

(** [s.substring(1)] *)
Definition substring1 (s : string) : string :=
  match s with
  | EmptyString => EmptyString
  | String _ s' => s'
  end.

(** [getProductImage(imagePath)]; a truthy number or boolean has no
    [startsWith]. *)
Definition getProductImage (imagePath : JSValue) : result JSValue :=
  if negb (truthy imagePath) then Ok (JStr "")
  else
    match imagePath with
    | JObj _ | JArr _ => Ok (getImageSrc imagePath)
    | JStr s =>
        if String.prefix "http" s then Ok (getImageSrc imagePath)
        else if String.prefix "/" s then Ok (JStr (substring1 s))
        else Ok imagePath
    | _ => Throw "imagePath.startsWith is not a function"
    end.

(** ** The client: the login and signup form (the [LoginSignup] page) *)

(** The states of the matcher of
    [/^[^\s@]+@[^\s@]+\.[^\s@]+$/]: nothing read; in the part before the
    [@]; the [@] just read; in the part after it; the dot just read; in
    the part after the dot. *)
Record EmailStates : Type := mkEmailStates {
  at_start : bool;
  in_local : bool;
  after_at : bool;
  in_domain : bool;
  after_dot : bool;
  in_tail : bool;
}.

(** [[^\s@]] *)
Definition plain_char (c : ascii) : bool :=
  negb (is_space c) && negb (Ascii.eqb c "@").

Definition email_step (q : EmailStates) (c : ascii) : EmailStates :=
  mkEmailStates
    false
    (plain_char c && (at_start q || in_local q))
    (Ascii.eqb c "@" && in_local q)
    (plain_char c && (after_at q || in_domain q))
    (Ascii.eqb c "." && in_domain q)
    (plain_char c && (after_dot q || in_tail q)).

Fixpoint email_run (q : EmailStates) (s : string) : EmailStates :=
  match s with
  | EmptyString => q
  | String c s' => email_run (email_step q c) s'
  end.

(** [emailRegex.test(s)] *)
Definition emailRegex_test (s : string) : bool :=
  in_tail (email_run (mkEmailStates true false false false false false) s).

(** What the form does on submit: it shows an error, or calls [login] or
    [signup] of the shop context with these arguments. *)
Inductive Submission : Type :=
| ShowError (message : string)
| CallLogin (email password : string)
| CallSignup (name email password : string).

(** [handleSubmit] of the form, on the fields as typed. *)
Definition handleSubmit (isLogin : bool) (name email password : string)
  : Submission :=
  let trimmedEmail := trim email in
  let trimmedPassword := trim password in
  let trimmedName := trim name in
  if isLogin then
    if String.eqb trimmedEmail "" || String.eqb trimmedPassword ""
    then ShowError "Please fill in all fields"
    else if negb (emailRegex_test trimmedEmail)
    then ShowError "Please enter a valid email address"
    else CallLogin (toLowerCase trimmedEmail) trimmedPassword
  else
    if String.eqb trimmedName "" || String.eqb trimmedEmail ""
       || String.eqb trimmedPassword ""
    then ShowError "Please fill in all fields"
    else if negb (emailRegex_test trimmedEmail)
    then ShowError "Please enter a valid email address"
    else if (String.length trimmedPassword <? 6)%nat
    then ShowError "Password must be at least 6 characters"
    else CallSignup trimmedName (toLowerCase trimmedEmail) trimmedPassword.

(** The body [authAPI.signup] sends,
    [JSON.stringify({ name, email, password })], as the server parses it;
    and that of [authAPI.login]. *)
Definition signup_body (name email password : string) : list (string * JSValue) :=
  [("name", JStr name); ("email", JStr email); ("password", JStr password)].

Definition login_body (email password : string) : list (string * JSValue) :=
  [("email", JStr email); ("password", JStr password)].

(** A string of characters that are neither white space nor [@]. *)
Fixpoint plain (s : string) : bool :=
  match s with
  | EmptyString => true
  | String c s' => plain_char c && plain s'
  end.

(** The strings the expression stands for: [a ++ "@" ++ b ++ "." ++ c]
    with [a], [b], [c] non-empty and plain. *)
Definition email_shaped (s : string) : Prop :=
  exists a b c,
    s = a ++ String "@" (b ++ String "." c)
    /\ a <> "" /\ b <> "" /\ c <> ""
    /\ plain a = true /\ plain b = true /\ plain c = true.

(** What is left to read for the matcher to accept, state by state: after
    the dot, a non-empty plain string; in the part after the [@], a plain
    string, a dot and a non-empty plain string; and so on back to the
    start. *)
Definition left_after_dot (s : string) : bool :=
  match s with
  | EmptyString => false
  | String c s' => plain_char c && plain s'
  end.

Fixpoint left_in_domain (s : string) : bool :=
  match s with
  | EmptyString => false
  | String c s' =>
      (Ascii.eqb c "." && left_after_dot s') || (plain_char c && left_in_domain s')
  end.

Definition left_after_at (s : string) : bool :=
  match s with
  | EmptyString => false
  | String c s' => plain_char c && left_in_domain s'
  end.

Fixpoint left_in_local (s : string) : bool :=
  match s with
  | EmptyString => false
  | String c s' =>
      (Ascii.eqb c "@" && left_after_at s') || (plain_char c && left_in_local s')
  end.

Definition left_at_start (s : string) : bool :=
  match s with
  | EmptyString => false
  | String c s' => plain_char c && left_in_local s'
  end.

(** ** The client: the checkout button ([CartItems.jsx]) *)

Record Address : Type := mkAddress {
  street : string;
  city : string;
  state : string;
  zipCode : string;
  country : string;
}.

(** What [handleCheckout] does: it sends the visitor to the login page,
    tells that the cart is empty, opens the address form, asks for the
    missing address fields, or calls [orderAPI.create] with this body. *)
Inductive CheckoutStep : Type :=
| GoToLogin
| CartIsEmpty
| OpenAddressForm
| AddressIncomplete
| PlaceOrder (orderData : list (string * JSValue)).

(** [Object.values(cartItems).reduce((sum, qty) => sum + (qty > 0 ? 1 : 0), 0)];
    the count is a whole number, kept as one. *)
Definition cartItemCount (cartItems : list (string * float)) : N :=
  fold_left (fun sum entry => (sum + (if PrimFloat.ltb 0 (snd entry) then 1 else 0))%N)
            cartItems 0%N.

Definition address_value (a : Address) : JSValue :=
  JObj [("street", JStr (street a)); ("city", JStr (city a));
        ("state", JStr (state a)); ("zipCode", JStr (zipCode a));
        ("country", JStr (country a))].

(** [handleCheckout], on whether a token is stored, the user of the
    context, the cart of the context, whether the address form is open,
    and the address typed so far. *)
Definition handleCheckout (isAuthenticated : bool) (user : option PublicUser)
  (cartItems : list (string * float)) (showAddressForm : bool)
  (shippingAddress : Address) : CheckoutStep :=
  if negb isAuthenticated || negb (match user with Some _ => true | None => false end)
  then GoToLogin
  else if (cartItemCount cartItems =? 0)%N then CartIsEmpty
  else if negb showAddressForm then OpenAddressForm
  else if String.eqb (street shippingAddress) ""
          || String.eqb (city shippingAddress) ""
          || String.eqb (state shippingAddress) ""
          || String.eqb (zipCode shippingAddress) ""
          || String.eqb (country shippingAddress) ""
  then AddressIncomplete
  else PlaceOrder [("shippingAddress", address_value shippingAddress);
                   ("paymentMethod", JStr "cash_on_delivery")].

(** ** The client: the cart of the shop context
       ([src/Context/ShopContext.jsx]) *)

(** The state [cartItems] is an object used as a map from product ids to
    quantities; it is kept as the list of its entries in the order in
    which [for ... in] and [Object.values] go through them: the keys that
    are array indices first, in ascending order, then the other keys in
    the order in which they were created. *)

(** The decimal digit a character stands for. *)
Definition digit (c : ascii) : option N :=
  let n := N_of_ascii c in
  if ((48 <=? n) && (n <=? 57))%N then Some (n - 48)%N else None.

(** The number a string of decimal digits stands for, after the digits
    read so far. *)
Fixpoint numeral (s : string) (acc : N) : option N :=
  match s with
  | EmptyString => Some acc
  | String c s' =>
      match digit c with
      | Some d => numeral s' (10 * acc + d)%N
      | None => None
      end
  end.

(** The array index a property key is, if it is one: the key is the
    canonical decimal numeral (no sign, no leading zero) of a whole number
    from 0 to 2^32 - 2. *)
Definition array_index (key : string) : option N :=
  match key with
  | EmptyString => None
  | String c rest =>
      if Ascii.eqb c "0" then
        match rest with
        | EmptyString => Some 0%N
        | String _ _ => None
        end
      else
        match numeral key 0 with
        | Some n => if (n <? 4294967295)%N then Some n else None
        | None => None
        end
  end.

(** [obj[key] = value] for a key the object has: the value is replaced
    where the key stands. *)
Fixpoint set_own (key : string) (value : float) (obj : list (string * float))
  : list (string * float) :=
  match obj with
  | [] => []
  | (k, v) :: rest =>
      if String.eqb k key then (k, value) :: rest
      else (k, v) :: set_own key value rest
  end.

(** A new key that is the array index [i] goes after the smaller indices
    and before everything else. *)
Fixpoint add_index (i : N) (key : string) (value : float)
  (obj : list (string * float)) : list (string * float) :=
  match obj with
  | [] => [(key, value)]
  | (k, v) :: rest =>
      match array_index k with
      | Some j =>
          if (j <? i)%N then (k, v) :: add_index i key value rest
          else (key, value) :: (k, v) :: rest
      | None => (key, value) :: (k, v) :: rest
      end
  end.

(** [obj[key] = value], for a number: the value of a key the object has
    is replaced where it stands; a new key takes its place among the array
    indices when it is one, and comes last otherwise. The key [__proto__]
    is not stored: it goes to the setter of [Object.prototype], which
    ignores a number. *)
Definition assign (key : string) (value : float) (obj : list (string * float))
  : list (string * float) :=
  if String.eqb key "__proto__" then obj
  else if existsb (fun entry => String.eqb (fst entry) key) obj
  then set_own key value obj
  else
    match array_index key with
    | Some i => add_index i key value obj
    | None => (obj ++ [(key, value)])%list
    end.

(** The keys that an object keeps in the order in which they were
    assigned: neither an array index nor [__proto__]. *)
Definition ordinary_key (key : string) : bool :=
  match array_index key with
  | Some _ => false
  | None => negb (String.eqb key "__proto__")
  end.

(** A value used as a property key: a string is its own key, any other
    value goes through [ToString], taken as a parameter. *)
Definition property_key (toString : JSValue -> string) (v : JSValue) : string :=
  match v with
  | JStr s => s
  | _ => toString v
  end.

(** [item.product._id || item.product], as the key it is used for;
    reading [_id] off [null] or [undefined] throws. *)
Definition productId (toString : JSValue -> string) (product : JSValue)
  : result string :=
  match product with
  | JNull => Throw "Cannot read properties of null (reading '_id')"
  | JUndefined => Throw "Cannot read properties of undefined (reading '_id')"
  | JObj fields =>
      Ok (property_key toString (js_or (get_field "_id" fields) product))
  | _ => Ok (property_key toString (js_or JUndefined product))
  end.

(** [cartData.items.forEach((item) => { cartItemsObj[productId] =
    item.quantity })], from the object built so far. *)
Fixpoint cartItemsObj (toString : JSValue -> string)
  (items : list (JSValue * float)) (obj : list (string * float))
  : result (list (string * float)) :=
  match items with
  | [] => Ok obj
  | (product, quantity) :: rest =>
      match productId toString product with
      | Throw e => Throw e
      | Ok key => cartItemsObj toString rest (assign key quantity obj)
      end
  end.

(** [fetchCart]: the [cartItems] it leaves in the state, for what
    [cartAPI.get()] answered: [Throw] when the request failed, and
    otherwise the [items] of the cart data, [None] when it has none. Any
    error ends in the empty cart. *)
Definition fetchCart (toString : JSValue -> string)
  (cartData : result (option (list (JSValue * float)))) : list (string * float) :=
  match cartData with
  | Throw _ => []
  | Ok None => []
  | Ok (Some items) =>
      match cartItemsObj toString items [] with
      | Ok obj => obj
      | Throw _ => []
      end
  end.

(** The sum of [getTotalCartAmount], before [toFixed(2)]: over the keys of
    [cartItems], for a quantity above 0 and a product that [all_product]
    has under the key, [totalAmount += itemInfo.new_price * cartItems[itemId]]. *)
Definition cartAmount (all_product : list Product) (cartItems : list (string * float))
  : float :=
  fold_left
    (fun totalAmount entry =>
       if PrimFloat.ltb 0 (snd entry) then
         match List.find (fun product => String.eqb (p_id product) (fst entry))
                         all_product with
         | Some itemInfo =>
             PrimFloat.add totalAmount
                           (PrimFloat.mul (new_price itemInfo) (snd entry))
         | None => totalAmount
         end
       else totalAmount)
    cartItems 0%float.

(** [getTotalCartAmount]; [toFixed] is [Number.prototype.toFixed]. *)
Definition getTotalCartAmount (toFixed : float -> nat -> string)
  (all_product : list Product) (cartItems : list (string * float)) : string :=
  toFixed (cartAmount all_product cartItems) 2%nat.

(** [getTotalCartItems] *)
Definition getTotalCartItems (cartItems : list (string * float)) : float :=
  fold_left
    (fun totalItems entry =>
       if PrimFloat.ltb 0 (snd entry) then PrimFloat.add totalItems (snd entry)
       else totalItems)
    cartItems 0%float.

(** A cart item as the client gets it for a stored one: the quantity, and
    a product, populated or not, whose key is the stored reference. *)
Definition sent_item (toString : JSValue -> string) (it : CartItem)
  (item : JSValue * float) : Prop :=
  productId toString (fst item) = Ok (ci_product it) /\ snd item = ci_quantity it.

(** ** More sample data *)

Module Demo.

(** The signup and the later login of the repository's notes on the
    login fix. *)
Definition signup_upper : Request :=
  mkRequest None "" [("name", JStr "Sadique"); ("email", JStr "MDSAD6385@GMAIL.COM");
                     ("password", JStr "secret1")].
Definition login_lower : Request :=
  mkRequest None "" [("email", JStr "mdsad6385@gmail.com");
                     ("password", JStr "secret1")].

(** A signup whose e-mail is a number. *)
Definition signup_number : Request :=
  mkRequest None "" [("name", JStr "N"); ("email", JNum 7); ("password", JStr "pw")].

(** The sample shop after the product [p2] left the catalog. *)
Definition db_without_p2 : Db :=
  mkDb (users Sample.db) [Sample.P1] (carts Sample.db) (orders Sample.db).

(** A second order of bob, older than the first, and one of alice in
    between. *)
Definition bob_old_order : Order :=
  mkOrder "o0" "u2" [mkOrderItem "p1" "Kurti" "/assets/women1.jfif" 10 1] 10
          (JStr "1 Main St") (JStr "cash_on_delivery") (JStr "paid")
          (JStr "delivered") 100.
Definition db_three_orders : Db :=
  mkDb (users Sample.db) (products Sample.db) (carts Sample.db)
       [bob_old_order; Sample.alice_order; Sample.bob_order].

(** A profile update with a name and a phone number, and an empty one. *)
Definition rename : Request :=
  mkRequest (Some "Bearer jwt.u1") "" [("name", JStr "Al"); ("phone", JStr "123")].
Definition no_update : Request := mkRequest (Some "Bearer jwt.u1") "" [].

(** A catalog environment: the new product takes its fields from the
    strings and numbers of the body as they are. *)
Definition text (v : JSValue) : string :=
  match v with
  | JStr s => s
  | _ => ""
  end.
Definition number (v : JSValue) : float :=
  match v with
  | JNum x => x
  | _ => 0%float
  end.
Definition catalog : CatalogEnv :=
  mkCatalogEnv
    (fun id b => mkProduct id (text (get_field "name" b)) (text (get_field "category" b))
                           (text (get_field "image" b)) (number (get_field "new_price" b))
                           (number (get_field "old_price" b)) "" true 0)
    (fun p => if String.eqb (p_name p) "" then Some "Path `name` is required." else None)
    (fun p b => Ok (mkProduct (p_id p) (p_name p) (p_category p) (p_image p)
                              (number (get_field "new_price" b)) (old_price p)
                              (p_description p) (inStock p) (stockQuantity p))).

(** A new product, sent by alice and by the admin. *)
Definition shirt : list (string * JSValue) :=
  [("name", JStr "Shirt"); ("category", JStr "men"); ("image", JStr "/assets/men5.webp");
   ("new_price", JNum 70); ("old_price", JNum 110)].
Definition add_shirt_as_alice : Request := mkRequest (Some "Bearer jwt.u1") "" shirt.
Definition add_shirt_as_admin : Request := mkRequest (Some "Bearer jwt.u3") "" shirt.

(** The admin takes [p2] out of the catalog. *)
Definition drop_p2 : Request := mkRequest (Some "Bearer jwt.u3") "p2" [].

(** An address with every field filled in, and one without a city. *)
Definition home : Address := mkAddress "1 Main St" "Patna" "Bihar" "800001" "India".
Definition no_city : Address := mkAddress "1 Main St" "" "Bihar" "800001" "India".
Definition visitor : PublicUser := public Sample.bob.

(** The cart of alice as the client gets it, the first product populated;
    and a cart with an item whose product is gone. *)
Definition alice_cart_data : list (JSValue * float) :=
  [(JObj [("_id", JStr "p1"); ("name", JStr "Kurti"); ("new_price", JNum 10)], 2%float);
   (JStr "p2", 1%float)].
Definition dangling_cart_data : list (JSValue * float) :=
  [(JStr "p1", 2%float); (JNull, 1%float)].
Definition show (v : JSValue) : string := "[object Object]".

(** A cart whose product ids are the numerals of the old static catalog. *)
Definition numbered_cart_data : list (JSValue * float) :=
  [(JStr "10", 2%float); (JStr "9", 1%float); (JStr "p1", 3%float);
   (JStr "__proto__", 5%float); (JStr "10", 4%float)].

End Demo.

(** * Properties *)

(** ** Lists and strings *)

Lemma find_In_first {A} (p : A -> bool) (l : list A) (x : A) :
  In x l -> p x = true -> exists y, List.find p l = Some y.
Proof.
  induction l as [|y l IH]; simpl; [tauto|].
  intros [->|Hin] Hp.
  - rewrite Hp. eauto.
  - destruct (p y); eauto.
Qed.

Lemma find_none_all {A} (p : A -> bool) (l : list A) (x : A) :
  List.find p l = None -> In x l -> p x = false.
Proof.
  induction l as [|y l IH]; simpl; [tauto|].
  destruct (p y) eqn:Hy; [discriminate|].
  intros Hf [<-|Hin]; auto.
Qed.

(** ** The monad and the store *)

Section Store.

Variable E : Env.

(** A failed write leaves the database as it was. *)
Lemma Order_save_throw isNew o db db' e :
  Order_save E isNew o db = (db', Throw e) -> db' = db.
Proof.
  unfold Order_save. destruct (order_save_fault E o); [now inversion 1|].
  destruct (store _ _ _ _); now inversion 1.
Qed.

Lemma Cart_save_throw isNew c db db' e :
  Cart_save E isNew c db = (db', Throw e) -> db' = db.
Proof.
  unfold Cart_save. destruct (cart_save_fault E c); [now inversion 1|].
  destruct (store _ _ _ _); now inversion 1.
Qed.

(** A new order that is written is the last of the collection, and
    nothing else moves. *)
Lemma Order_save_new o db db' :
  Order_save E true o db = (db', Ok tt) ->
  db' = set_orders db (orders db ++ [o]).
Proof.
  unfold Order_save. destruct (order_save_fault E o); [discriminate|].
  unfold store. destruct (existsb _ _); [discriminate|]. now inversion 1.
Qed.

Lemma Cart_save_old c db db' :
  Cart_save E false c db = (db', Ok tt) ->
  exists l, replace_first (same_cart c) c (carts db) = Some l
            /\ db' = set_carts db l.
Proof.
  unfold Cart_save. destruct (cart_save_fault E c); [discriminate|].
  unfold store. destruct (replace_first _ _ _) as [l|]; [|discriminate].
  inversion 1. eauto.
Qed.

(** ** The authentication middleware *)

Lemma authenticate_inl req db db' r :
  authenticate E req db = (db', inl r) -> status r = 401 /\ db' = db.
Proof.
  unfold authenticate, bind, lift, ret, User_findById, query.
  destruct (bearer_token req) as [[|c t]|]; try (inversion 1; now subst).
  destruct (jwt_verify E _ _); [|inversion 1; now subst].
  destruct (read_fault E Users); [inversion 1; now subst|].
  destruct (List.find _ _); inversion 1; now subst.
Qed.

Lemma authenticate_inr req db db' u :
  authenticate E req db = (db', inr u) ->
  db' = db /\
  exists token payload,
    bearer_token req = Some token /\ token <> ""
    /\ jwt_verify E token (jwtSecret E) = Ok payload
    /\ List.find (has_id (userId payload)) (users db) = Some u.
Proof.
  unfold authenticate, bind, lift, ret, User_findById, query.
  destruct (bearer_token req) as [[|c t]|]; try discriminate.
  destruct (jwt_verify E _ _) as [payload|] eqn:Hv; [|discriminate].
  destruct (read_fault E Users); [discriminate|].
  destruct (List.find _ _) as [u'|] eqn:Hf; [|discriminate].
  inversion 1; subst. split; [reflexivity|].
  exists (String c t), payload. repeat split; auto; discriminate.
Qed.

End Store.

(** C4. A token that [jwt.verify] accepts (signature valid, not expired)
    but whose subject is no longer among the users is answered 401
    ("User not found"). Every answer of the middleware itself, whatever the
    cause (no token, a token that [jwt.verify] refuses, a failing lookup,
    a missing subject), has status 401 and writes nothing. When the
    middleware calls [next()], the principal attached to the request is the
    user document currently stored under the subject id of the token, so it
    carries the role stored now. *)
Theorem authenticate_unauthenticated_or_resolved (E : Env) (req : Request) (db : Db) :
  (forall token payload,
      bearer_token req = Some token -> token <> "" ->
      jwt_verify E token (jwtSecret E) = Ok payload ->
      read_fault E Users = None ->
      List.find (has_id (userId payload)) (users db) = None ->
      authenticate E req db = (db, inl (unauthenticated "User not found")))
  /\ (bearer_token req = None \/ bearer_token req = Some "" ->
      authenticate E req db = (db, inl (unauthenticated "Authentication required")))
  /\ (forall token e,
         bearer_token req = Some token -> token <> "" ->
         jwt_verify E token (jwtSecret E) = Throw e ->
         authenticate E req db = (db, inl (unauthenticated "Invalid or expired token")))
  /\ (forall db' r,
         authenticate E req db = (db', inl r) -> status r = 401 /\ db' = db)
  /\ (forall token payload u,
         bearer_token req = Some token -> token <> "" ->
         jwt_verify E token (jwtSecret E) = Ok payload ->
         read_fault E Users = None ->
         List.find (has_id (userId payload)) (users db) = Some u ->
         authenticate E req db = (db, inr u))
  /\ (forall db' u,
         authenticate E req db = (db', inr u) ->
         db' = db /\ In u (users db) /\
         exists token payload,
           bearer_token req = Some token
           /\ jwt_verify E token (jwtSecret E) = Ok payload
           /\ u_id u = userId payload).
Proof.
  split; [|split; [|split; [|split; [|split]]]].
  - intros token payload Ht Hne Hv Hr Hf.
    unfold authenticate, bind, lift, ret, User_findById, query.
    rewrite Ht. destruct token; [congruence|]. now rewrite Hv, Hr, Hf.
  - intros [Ht|Ht]; unfold authenticate; now rewrite Ht.
  - intros token e Ht Hne Hv.
    unfold authenticate, bind, lift. rewrite Ht.
    destruct token; [congruence|]. now rewrite Hv.
  - intros db' r H. eapply authenticate_inl; eauto.
  - intros token payload u Ht Hne Hv Hr Hf.
    unfold authenticate, bind, lift, ret, User_findById, query.
    rewrite Ht. destruct token; [congruence|]. now rewrite Hv, Hr, Hf.
  - intros db' u H.
    apply authenticate_inr in H as (-> & token & payload & Ht & _ & Hv & Hf).
    apply find_some in Hf as [Hin Hid]. apply String.eqb_eq in Hid.
    split; [reflexivity|]. split; [assumption|].
    exists token, payload. auto.
Qed.

Lemma authenticate_unauthenticated_or_resolved_witness :
  bearer_token Sample.stale = Some "jwt.u9"
  /\ jwt_verify Sample.env "jwt.u9" (jwtSecret Sample.env) = Ok (mkJwtPayload "u9")
  /\ List.find (has_id "u9") (users Sample.db) = None
  /\ authenticate Sample.env Sample.stale Sample.db
     = (Sample.db, inl (unauthenticated "User not found")).
Proof.
  split; [reflexivity|split; [reflexivity|split; [reflexivity|]]].
  apply (proj1 (authenticate_unauthenticated_or_resolved
                  Sample.env Sample.stale Sample.db))
    with (token := "jwt.u9") (payload := mkJwtPayload "u9");
    try reflexivity.
  discriminate.
Defined.

(** ** Login *)

(** C5. A login with an e-mail that matches no user and a login with a
    wrong password for the e-mail of an existing user get the same
    response: status 401 and the message "Invalid credentials"; neither
    writes anything. *)
Theorem login_failures_indistinguishable (E : Env) (db : Db)
  (req1 req2 : Request) (e1 e2 : string) (u : User) :
  read_fault E Users = None ->
  get_field "email" (body req1) = JStr e1 -> e1 <> "" ->
  truthy (get_field "password" (body req1)) = true ->
  List.find (has_email (normalize e1)) (users db) = None ->
  get_field "email" (body req2) = JStr e2 -> e2 <> "" ->
  truthy (get_field "password" (body req2)) = true ->
  List.find (has_email (normalize e2)) (users db) = Some u ->
  comparePassword E (get_field "password" (body req2)) u = Ok false ->
  login E req1 db = (db, invalid_credentials)
  /\ login E req2 db = (db, invalid_credentials)
  /\ snd (login E req1 db) = snd (login E req2 db)
  /\ status invalid_credentials = 401
  /\ json invalid_credentials = BMessage "Invalid credentials".
Proof.
  intros Hr He1 Hn1 Hp1 Hf1 He2 Hn2 Hp2 Hf2 Hc.
  assert (H1 : login E req1 db = (db, invalid_credentials)).
  { unfold login, run_handler, bind, lift, ret, User_findOne, query.
    rewrite He1, Hp1. simpl.
    apply String.eqb_neq in Hn1. rewrite Hn1. simpl.
    now rewrite Hr, Hf1. }
  assert (H2 : login E req2 db = (db, invalid_credentials)).
  { unfold login, run_handler, bind, lift, ret, User_findOne, query.
    rewrite He2, Hp2. simpl.
    apply String.eqb_neq in Hn2. rewrite Hn2. simpl.
    now rewrite Hr, Hf2, Hc. }
  rewrite H1, H2. repeat split.
Qed.

Lemma login_failures_indistinguishable_witness :
  List.find (has_email (normalize "nobody@example.com")) (users Sample.db) = None
  /\ List.find (has_email (normalize " ALICE@Example.com")) (users Sample.db)
     = Some Sample.alice
  /\ comparePassword Sample.env (JStr "wrong") Sample.alice = Ok false
  /\ login Sample.env Sample.login_unknown Sample.db
     = login Sample.env Sample.login_wrong Sample.db.
Proof.
  split; [reflexivity|split; [reflexivity|split; [reflexivity|]]].
  pose proof (login_failures_indistinguishable Sample.env Sample.db
                Sample.login_unknown Sample.login_wrong
                "nobody@example.com" " ALICE@Example.com" Sample.alice
                eq_refl eq_refl ltac:(discriminate) eq_refl eq_refl
                eq_refl ltac:(discriminate) eq_refl eq_refl eq_refl)
    as (H1 & H2 & _).
  rewrite H1, H2. reflexivity.
Defined.

(** ** Signup *)

Lemma signup_outcome (E : Env) (req : Request) (db : Db) :
  (exists m, signup E req db = (db, mkResponse 400 (BMessage m)))
  \/ (exists e u,
        get_field "email" (body req) = JStr e
        /\ List.find (has_email (normalize e)) (users db) = None
        /\ u_email u = JStr (normalize e)
        /\ signup E req db
           = (set_users db (users db ++ [u]),
              mkResponse 201 (BAuth "User created successfully"
                                    (generateToken E (u_id u)) (public u)))).
Proof.
  unfold signup, run_handler, bind, lift, ret, User_findOne, query.
  destruct (negb (truthy (get_field "name" (body req))) || _ || _);
    [left; eauto|].
  destruct (get_field "email" (body req)) as [| | | |e| |] eqn:He; simpl;
    try (left; eauto; fail).
  destruct (read_fault E Users); [left; eauto|].
  destruct (List.find _ _) eqn:Hf; [left; eauto|].
  unfold User_save.
  destruct (user_save_fault E _); [left; eauto|].
  unfold store. destruct (existsb _ _); [left; eauto|].
  right. eexists e, _. repeat split; eauto.
Qed.

(** While a user holds the e-mail [n], no signup registers it. *)
Lemma registrations_taken (E : Env) (n : string) (reqs : list Request) :
  forall db,
    (exists u, In u (users db) /\ has_email n u = true) ->
    registrations n reqs (signups E reqs db) = O.
Proof.
  induction reqs as [|req rest IH]; intros db (u & Hin & Hu); [reflexivity|].
  unfold registrations in *. simpl.
  destruct (signup_outcome E req db) as [(m & ->)|(e & u' & He & Hf & _ & ->)].
  - simpl. rewrite andb_false_r. apply IH. eauto.
  - simpl. unfold registers at 1. rewrite He.
    destruct (String.eqb (normalize e) n) eqn:Hn; simpl.
    + apply String.eqb_eq in Hn. subst n.
      rewrite (find_none_all _ _ _ Hf Hin) in Hu. discriminate.
    + apply IH. exists u. split; [|assumption].
      simpl. apply in_or_app. now left.
Qed.

(** ** Normalized e-mails *)

Lemma lower_char_idem (c : ascii) : lower_char (lower_char c) = lower_char c.
Proof. destruct c as [[] [] [] [] [] [] [] []]; reflexivity. Qed.

Lemma is_space_lower_char (c : ascii) : is_space (lower_char c) = is_space c.
Proof. destruct c as [[] [] [] [] [] [] [] []]; reflexivity. Qed.

Lemma toLowerCase_idem (s : string) : toLowerCase (toLowerCase s) = toLowerCase s.
Proof.
  induction s as [|c s IH]; simpl; [reflexivity|].
  now rewrite lower_char_idem, IH.
Qed.

Lemma trimStart_toLowerCase (s : string) :
  trimStart (toLowerCase s) = toLowerCase (trimStart s).
Proof.
  induction s as [|c s IH]; simpl; [reflexivity|].
  rewrite is_space_lower_char. now destruct (is_space c).
Qed.

Lemma trimEnd_toLowerCase (s : string) :
  trimEnd (toLowerCase s) = toLowerCase (trimEnd s).
Proof.
  induction s as [|c s IH]; simpl; [reflexivity|].
  rewrite IH, is_space_lower_char.
  destruct (trimEnd s); simpl; [now destruct (is_space c)|reflexivity].
Qed.

Lemma trimEnd_cons (c : ascii) (s : string) :
  is_space c = false -> trimEnd (String c s) = String c (trimEnd s).
Proof. intros H. simpl. rewrite H. now destruct (trimEnd s). Qed.

Lemma trimEnd_idem (s : string) : trimEnd (trimEnd s) = trimEnd s.
Proof.
  induction s as [|c s IH]; simpl; [reflexivity|].
  destruct (trimEnd s) as [|d r] eqn:Hr.
  - destruct (is_space c) eqn:Hc; simpl; [reflexivity|now rewrite Hc].
  - change (trimEnd (String c (String d r))) with
      (match trimEnd (String d r) with
       | EmptyString => if is_space c then EmptyString else String c EmptyString
       | t => String c t
       end).
    now rewrite IH.
Qed.

Lemma trimStart_trimEnd_trimStart (s : string) :
  trimStart (trimEnd (trimStart s)) = trimEnd (trimStart s).
Proof.
  induction s as [|c s IH]; simpl; [reflexivity|].
  destruct (is_space c) eqn:Hc; [assumption|].
  rewrite trimEnd_cons by assumption. simpl. now rewrite Hc.
Qed.

Lemma trim_idem (s : string) : trim (trim s) = trim s.
Proof. unfold trim. now rewrite trimStart_trimEnd_trimStart, trimEnd_idem. Qed.

Lemma normalize_idem (s : string) : normalize (normalize s) = normalize s.
Proof.
  unfold normalize, trim.
  rewrite <- trimEnd_toLowerCase, <- trimStart_toLowerCase, toLowerCase_idem.
  apply (trim_idem (toLowerCase s)).
Qed.

Lemma signup_taken (E : Env) (req : Request) (db : Db) (e : string) (u : User) :
  read_fault E Users = None ->
  truthy (get_field "name" (body req)) = true ->
  get_field "email" (body req) = JStr e -> e <> "" ->
  truthy (get_field "password" (body req)) = true ->
  In u (users db) -> u_email u = JStr (normalize e) ->
  signup E req db = (db, conflict).
Proof.
  intros Hr Hname He Hne Hpw Hin Hu.
  destruct (find_In_first (has_email (normalize e)) (users db) u Hin)
    as [y Hy].
  { unfold has_email. rewrite Hu. apply String.eqb_refl. }
  unfold signup, run_handler, bind, lift, ret, User_findOne, query.
  rewrite Hname, He, Hpw. simpl.
  apply String.eqb_neq in Hne. rewrite Hne. simpl.
  now rewrite Hr, Hy.
Qed.

(** C6. Signup looks up and stores [email.toLowerCase().trim()]. When a
    user whose stored e-mail is that normalized form exists, signup answers
    400 "User already exists with this email" and writes nothing. A signup
    that succeeds stores the normalized e-mail, which no user held before;
    after it, a signup with any e-mail of the same normalized form fails
    and writes nothing (with the conflict answer when it gets as far as the
    lookup); and in any run of signups at most one registers a given
    normalized e-mail with success. Normalizing is idempotent, so an e-mail
    as stored is its own normalized form. *)
Theorem signup_conflict_on_normalized_email (E : Env) :
  (forall req db e u,
      read_fault E Users = None ->
      truthy (get_field "name" (body req)) = true ->
      get_field "email" (body req) = JStr e -> e <> "" ->
      truthy (get_field "password" (body req)) = true ->
      In u (users db) -> u_email u = JStr (normalize e) ->
      signup E req db = (db, conflict))
  /\ (forall req db db' resp,
         signup E req db = (db', resp) -> status resp = 201 ->
         exists e u,
           get_field "email" (body req) = JStr e
           /\ List.find (has_email (normalize e)) (users db) = None
           /\ users db' = (users db ++ [u])%list
           /\ u_email u = JStr (normalize e))
  /\ (forall req1 req2 db db1 resp1 e1 e2,
         signup E req1 db = (db1, resp1) -> status resp1 = 201 ->
         get_field "email" (body req1) = JStr e1 ->
         get_field "email" (body req2) = JStr e2 ->
         normalize e2 = normalize e1 ->
         (exists m, signup E req2 db1 = (db1, mkResponse 400 (BMessage m)))
         /\ (read_fault E Users = None ->
             truthy (get_field "name" (body req2)) = true -> e2 <> "" ->
             truthy (get_field "password" (body req2)) = true ->
             signup E req2 db1 = (db1, conflict)))
  /\ (forall n reqs db, (registrations n reqs (signups E reqs db) <= 1)%nat)
  /\ (forall e, normalize (normalize e) = normalize e).
Proof.
  split; [|split; [|split; [|split]]].
  - intros req db e u. apply signup_taken.
  - intros req db db' resp H H201.
    destruct (signup_outcome E req db) as [(m & Hm)|(e & u & He & Hf & Hu & Hs)];
      rewrite H in *.
    + inversion Hm; subst. discriminate.
    + inversion Hs; subst. exists e, u. auto.
  - intros req1 req2 db db1 resp1 e1 e2 H1 H201 He1 He2 Hn.
    destruct (signup_outcome E req1 db) as [(m & Hm)|(e & u & He & Hf & Hu & Hs)];
      rewrite H1 in *.
    { inversion Hm; subst. discriminate. }
    inversion Hs; subst db1 resp1. clear Hs.
    rewrite He1 in He. inversion He; subst e. clear He.
    assert (Hin : In u (users (set_users db (users db ++ [u])))).
    { simpl. apply in_or_app. right. now left. }
    split.
    + destruct (signup_outcome E req2 (set_users db (users db ++ [u])))
        as [Hm|(e & u' & He & Hf' & _)]; [assumption|exfalso].
      rewrite He2 in He. inversion He; subst e. rewrite Hn in Hf'.
      pose proof (find_none_all _ _ _ Hf' Hin) as Hno.
      unfold has_email in Hno. rewrite Hu, String.eqb_refl in Hno. discriminate.
    + intros Hr Hname Hne Hpw.
      apply (signup_taken E req2 _ e2 u); auto. now rewrite Hn.
  - intros n reqs. induction reqs as [|req rest IH]; intros db;
      [unfold registrations; simpl; lia|].
    unfold registrations in *. simpl.
    destruct (signup_outcome E req db) as [(m & ->)|(e & u & He & Hf & Hu & ->)].
    + simpl. rewrite andb_false_r. apply IH.
    + simpl. unfold registers at 1. rewrite He.
      destruct (String.eqb (normalize e) n) eqn:Hn; simpl; [|apply IH].
      apply String.eqb_eq in Hn. subst n.
      pose proof (registrations_taken E (normalize e) rest
                    (set_users db (users db ++ [u]))) as Hz.
      unfold registrations in Hz. rewrite Hz; [lia|].
      exists u. split; [simpl; apply in_or_app; right; now left|].
      unfold has_email. rewrite Hu. apply String.eqb_refl.
  - apply normalize_idem.
Qed.

Lemma signup_conflict_on_normalized_email_witness :
  In Sample.alice (users Sample.db)
  /\ u_email Sample.alice = JStr (normalize "Alice@EXAMPLE.com  ")
  /\ signup Sample.env Sample.signup_variant Sample.db = (Sample.db, conflict).
Proof.
  split; [now left|split; [reflexivity|]].
  apply (proj1 (signup_conflict_on_normalized_email Sample.env))
    with (e := "Alice@EXAMPLE.com  ") (u := Sample.alice).
  - reflexivity.
  - reflexivity.
  - reflexivity.
  - discriminate.
  - reflexivity.
  - now left.
  - reflexivity.
Defined.

(** ** Profile update *)

Lemma set_field_identity (u : User) (k : string) (v : JSValue) :
  includes allowedUpdates k = true -> identity (set_field u k v) = identity u.
Proof.
  unfold includes, allowedUpdates, set_field. simpl.
  destruct (String.eqb k "name") eqn:H1; [reflexivity|].
  destruct (String.eqb k "phone") eqn:H2;
    [apply String.eqb_eq in H2; subst k; reflexivity|].
  destruct (String.eqb k "address") eqn:H3;
    [apply String.eqb_eq in H3; subst k; reflexivity|].
  discriminate.
Qed.

Lemma apply_updates_identity (b : list (string * JSValue)) (updates : list string) :
  forall u,
    forallb (includes allowedUpdates) updates = true ->
    identity (apply_updates u b updates) = identity u.
Proof.
  unfold apply_updates.
  induction updates as [|k ks IH]; intros u H; simpl in *; [reflexivity|].
  apply andb_true_iff in H as [Hk Hks].
  rewrite IH by assumption. now apply set_field_identity.
Qed.

Lemma replace_first_map {A B} (f : A -> B) (p : A -> bool) (x x' : A) (l : list A) :
  List.find p l = Some x -> f x' = f x ->
  exists l', replace_first p x' l = Some l' /\ map f l' = map f l.
Proof.
  intros Hf Hx. induction l as [|y l IH]; simpl in *; [discriminate|].
  destruct (p y).
  - inversion Hf; subst y. eexists; split; [reflexivity|]. simpl. now rewrite Hx.
  - destruct (IH Hf) as (l' & -> & Hm). eexists; split; [reflexivity|].
    simpl. now rewrite Hm.
Qed.

Lemma includes_false (l : list string) (k : string) :
  ~ In k l -> includes l k = false.
Proof.
  intros H. unfold includes. destruct (existsb _ l) eqn:He; [|reflexivity].
  apply existsb_exists in He as (x & Hin & Hx).
  apply String.eqb_eq in Hx. now subst x.
Qed.

Lemma forallb_false {A} (p : A -> bool) (l : list A) (x : A) :
  In x l -> p x = false -> forallb p l = false.
Proof.
  intros Hin Hp. destruct (forallb p l) eqn:H; [|reflexivity].
  rewrite forallb_forall in H. now rewrite (H x Hin) in Hp.
Qed.

(** C9. The profile route writes only [name], [phone] and [address]. A
    body with any other field name is answered 400 "Invalid updates" and
    nothing is written. For every request to the route, whatever its body
    and whatever the outcome, every stored user keeps its id, e-mail and
    role, and the other collections are as before. *)
Theorem profile_update_allow_list (E : Env) (req : Request) (db : Db) :
  (forall user k,
      In k (keys (body req)) -> ~ In k allowedUpdates ->
      profile_handler E user req db
      = (db, mkResponse 400 (BMessage "Invalid updates")))
  /\ map identity (users (fst (put_profile E req db))) = map identity (users db)
  /\ products (fst (put_profile E req db)) = products db
  /\ carts (fst (put_profile E req db)) = carts db
  /\ orders (fst (put_profile E req db)) = orders db.
Proof.
  split.
  { intros user k Hin Hk. unfold profile_handler, run_handler, ret.
    rewrite (forallb_false _ _ k Hin (includes_false _ _ Hk)). reflexivity. }
  unfold put_profile, protected.
  destruct (authenticate E req db) as [db' [r|u]] eqn:Ha.
  { apply authenticate_inl in Ha as [_ ->]. auto. }
  apply authenticate_inr in Ha as (-> & token & payload & _ & _ & _ & Hf).
  unfold profile_handler, run_handler, bind, ret.
  destruct (forallb _ _) eqn:Hall; simpl; [|auto].
  unfold User_save. destruct (user_save_fault E _); [auto|].
  pose proof (apply_updates_identity (body req) (keys (body req)) u Hall) as Hid.
  assert (Hsame : u_id (apply_updates u (body req) (keys (body req))) = userId payload).
  { unfold identity in Hid. inversion Hid as [[H1 H2 H3]]. rewrite H1.
    apply find_some in Hf as [_ Hu]. now apply String.eqb_eq in Hu. }
  rewrite Hsame. unfold store.
  destruct (replace_first_map identity (has_id (userId payload)) u
              (apply_updates u (body req) (keys (body req))) (users db) Hf Hid)
    as (l' & -> & Hm).
  simpl. auto.
Qed.

Lemma profile_update_allow_list_witness :
  In "role" (keys (body Sample.promote))
  /\ ~ In "role" allowedUpdates
  /\ profile_handler Sample.env Sample.alice Sample.promote Sample.db
     = (Sample.db, mkResponse 400 (BMessage "Invalid updates")).
Proof.
  assert (Hin : In "role" (keys (body Sample.promote))) by (simpl; auto).
  assert (Hout : ~ In "role" allowedUpdates).
  { simpl. intros [H|[H|[H|[]]]]; discriminate. }
  split; [exact Hin|split; [exact Hout|]].
  exact (proj1 (profile_update_allow_list Sample.env Sample.promote Sample.db)
           Sample.alice "role" Hin Hout).
Defined.

(** ** Order status *)

Lemma update_status_gate (E : Env) (user : User) (req : Request) (db : Db)
  (order : Order) :
  read_fault E Orders = None ->
  List.find (fun o => String.eqb (o_id o) (params_id req)) (orders db) = Some order ->
  (passes_gate user order = false -> update_status E user req db = (db, forbidden))
  /\ (passes_gate user order = true ->
      status (snd (update_status E user req db)) = 200
      \/ status (snd (update_status E user req db)) = 400).
Proof.
  intros Hr Hf. unfold passes_gate.
  unfold update_status, run_handler, bind, ret, Order_findById, query.
  rewrite Hr, Hf. rewrite <- negb_orb.
  destruct (is_admin user || String.eqb (o_user order) (u_id user)); simpl.
  - split; [discriminate|]. intros _.
    destruct (Order_save E false _ db) as [db' [[]|e]]; simpl; auto.
  - split; [reflexivity|discriminate].
Qed.

(** C7. For an existing order, a principal who is neither an admin nor the
    owner gets 403 "Not authorized" from the status route and nothing is
    written; the answer is 403 exactly when the principal is neither admin
    nor owner, and otherwise the route goes on to the write (200, or 400
    when the write is refused). A request that fails authentication is
    answered 401 by the middleware, never 403. *)
Theorem status_update_forbidden_unless_admin_or_owner (E : Env) (user : User)
  (req : Request) (db : Db) (order : Order) :
  read_fault E Orders = None ->
  List.find (fun o => String.eqb (o_id o) (params_id req)) (orders db) = Some order ->
  (is_admin user = false -> o_user order <> u_id user ->
   update_status E user req db = (db, forbidden))
  /\ (status (snd (update_status E user req db)) = 403
      <-> ~ (is_admin user = true \/ o_user order = u_id user))
  /\ status forbidden = 403
  /\ (forall db' r, authenticate E req db = (db', inl r) ->
                   put_order_status E req db = (db, r) /\ status r = 401).
Proof.
  intros Hr Hf.
  destruct (update_status_gate E user req db order Hr Hf) as [Hno Hyes].
  split; [|split; [|split]].
  - intros Ha Ho. apply Hno. unfold passes_gate. rewrite Ha.
    apply String.eqb_neq in Ho. now rewrite Ho.
  - unfold passes_gate in *. split.
    + intros H403 [Ha|Ho].
      * rewrite Ha in Hyes. destruct (Hyes eq_refl) as [H|H];
          rewrite H in H403; discriminate.
      * apply String.eqb_eq in Ho. rewrite Ho, orb_true_r in Hyes.
        destruct (Hyes eq_refl) as [H|H]; rewrite H in H403; discriminate.
    + intros Hn. rewrite Hno; [reflexivity|].
      destruct (is_admin user); [exfalso; auto|].
      destruct (String.eqb (o_user order) (u_id user)) eqn:Ho; [|reflexivity].
      apply String.eqb_eq in Ho. exfalso; auto.
  - reflexivity.
  - intros db' r Ha. unfold put_order_status, protected. rewrite Ha.
    apply authenticate_inl in Ha as [H401 ->]. auto.
Qed.

Lemma status_update_forbidden_unless_admin_or_owner_witness :
  is_admin Sample.alice = false
  /\ o_user Sample.bob_order <> u_id Sample.alice
  /\ update_status Sample.env Sample.alice Sample.ship Sample.db
     = (Sample.db, forbidden).
Proof.
  assert (Ho : o_user Sample.bob_order <> u_id Sample.alice) by discriminate.
  split; [reflexivity|split; [exact Ho|]].
  exact (proj1 (status_update_forbidden_unless_admin_or_owner
                  Sample.env Sample.alice Sample.ship Sample.db Sample.bob_order
                  eq_refl eq_refl) eq_refl Ho).
Defined.

(** ** Reading orders *)

Lemma In_insert_desc (x o : Order) (l : list Order) :
  In x (insert_desc o l) <-> x = o \/ In x l.
Proof.
  induction l as [|y l IH]; simpl; [intuition|].
  destruct (createdAt y <=? createdAt o); simpl; [intuition|].
  rewrite IH. intuition.
Qed.

Lemma In_sort_desc (x : Order) (l : list Order) : In x (sort_desc l) <-> In x l.
Proof.
  induction l as [|y l IH]; simpl; [tauto|].
  rewrite In_insert_desc, IH. intuition.
Qed.

(** C10. The list route answers with orders of the requester only: when
    its queries go through, the orders returned are exactly the stored
    orders whose [user] is the requester's id (newest first, populated).
    The single-order route answers 404 "Order not found" for an order id
    whose order belongs to another user, whatever the requester's role;
    for the same order an admin passes the gate of the status route. Behind
    the middleware, the list route answers 401, 500, or the orders of the
    principal the token resolves to. *)
Theorem order_reads_are_owner_only (E : Env) (user : User) (req : Request) (db : Db) :
  (forall db' resp,
      list_orders E user req db = (db', resp) ->
      db' = db /\
      ((exists m, resp = mkResponse 500 (BMessage m))
       \/ exists os, resp = mkResponse 200 (BOrders os)
                     /\ Forall (fun po => o_user (fst po) = u_id user) os))
  /\ (read_fault E Orders = None -> read_fault E Products = None ->
      exists os,
        list_orders E user req db = (db, mkResponse 200 (BOrders os))
        /\ forall o, In o (map fst os) <-> In o (orders db) /\ o_user o = u_id user)
  /\ (read_fault E Orders = None ->
      forall order,
        In order (orders db) -> o_id order = params_id req ->
        (forall o, In o (orders db) -> o_id o = params_id req ->
                   o_user o <> u_id user) ->
        get_order E user req db = (db, not_found)
        /\ status not_found = 404
        /\ (is_admin user = true ->
            status (snd (update_status E user req db)) <> 403))
  /\ (forall db' resp,
         get_orders E req db = (db', resp) ->
         status resp = 401
         \/ (exists m, resp = mkResponse 500 (BMessage m))
         \/ exists requester os,
              authenticate E req db = (db, inr requester)
              /\ resp = mkResponse 200 (BOrders os)
              /\ Forall (fun po => o_user (fst po) = u_id requester) os).
Proof.
  assert (Hfst : forall l, map fst (map (populate_order db) l) = l).
  { intros l. rewrite map_map. simpl. apply map_id. }
  assert (Hown : forall o, In o (sort_desc (List.filter (owned_by (u_id user)) (orders db)))
                           <-> In o (orders db) /\ o_user o = u_id user).
  { intros o. rewrite In_sort_desc, filter_In. unfold owned_by.
    now rewrite String.eqb_eq. }
  assert (Hlist : forall who db' resp,
             list_orders E who req db = (db', resp) ->
             db' = db /\
             ((exists m, resp = mkResponse 500 (BMessage m))
              \/ exists os, resp = mkResponse 200 (BOrders os)
                            /\ Forall (fun po => o_user (fst po) = u_id who) os)).
  { intros who db' resp.
    unfold list_orders, Order_find, run_handler, bind, ret, query.
    destruct (read_fault E Orders); [inversion 1; eauto|].
    destruct (read_fault E Products); [inversion 1; eauto|].
    inversion 1; subst. split; [reflexivity|]. right. eexists; split; [reflexivity|].
    apply List.Forall_forall. intros po Hin.
    apply in_map_iff in Hin as (o & <- & Hin). simpl.
    apply In_sort_desc, filter_In in Hin as [_ Hin].
    now apply String.eqb_eq in Hin. }
  split; [apply Hlist|split; [|split]].
  - intros Ho Hp. unfold list_orders, Order_find, run_handler, bind, ret, query.
    rewrite Ho, Hp. eexists; split; [reflexivity|].
    intros o. rewrite Hfst. apply Hown.
  - intros Ho order Hin Hid Hother.
    split; [|split; [reflexivity|]].
    + unfold get_order, Order_findOne, run_handler, bind, ret, query. rewrite Ho.
      destruct (List.find _ (orders db)) as [o|] eqn:Hf; [exfalso|reflexivity].
      apply find_some in Hf as [Hino Hb].
      apply andb_true_iff in Hb as [Hb1 Hb2].
      apply String.eqb_eq in Hb1. apply String.eqb_eq in Hb2.
      exact (Hother o Hino Hb1 Hb2).
    + intros Ha.
      destruct (find_In_first (fun o => String.eqb (o_id o) (params_id req))
                  (orders db) order Hin) as [o Hf].
      { now apply String.eqb_eq. }
      destruct (update_status_gate E user req db o Ho Hf) as [_ Hyes].
      unfold passes_gate in Hyes. rewrite Ha in Hyes.
      destruct (Hyes eq_refl) as [H|H]; rewrite H; discriminate.
  - intros db' resp. unfold get_orders, protected.
    destruct (authenticate E req db) as [db1 [r|u]] eqn:Ha.
    + apply authenticate_inl in Ha as [H401 ->]. inversion 1; subst. auto.
    + apply authenticate_inr in Ha as Hu. destruct Hu as [-> _].
      intros H. apply Hlist in H as [-> [Hm|(os & -> & Hall)]]; [auto|].
      right. right. exists u, os. auto.
Qed.

Lemma order_reads_are_owner_only_witness :
  is_admin Sample.root = true
  /\ In Sample.bob_order (orders Sample.db)
  /\ o_user Sample.bob_order <> u_id Sample.root
  /\ get_order Sample.env Sample.root Sample.ship_as_admin Sample.db
     = (Sample.db, not_found).
Proof.
  assert (Hin : In Sample.bob_order (orders Sample.db)) by (now left).
  split; [reflexivity|split; [exact Hin|split; [discriminate|]]].
  refine (proj1 (proj1 (proj2 (proj2 (order_reads_are_owner_only
                                        Sample.env Sample.root
                                        Sample.ship_as_admin Sample.db)))
                   eq_refl Sample.bob_order Hin eq_refl _)).
  intros o [<-|[]] _. discriminate.
Defined.

(** ** Checkout *)

Lemma orderItems_spec (db : Db) (items : list CartItem) :
  forall total built total',
    orderItems (map (populate_item db) items) total = Ok (built, total') ->
    Forall2 (snapshot_of db) items built
    /\ total' = fold_left
                  (fun acc it =>
                     PrimFloat.add acc
                       (PrimFloat.mul (catalog_price db (ci_product it))
                                      (ci_quantity it)))
                  items total.
Proof.
  induction items as [|it items IH]; intros total built total' H; simpl in H.
  - inversion H; subst. split; [constructor|reflexivity].
  - destruct (find_product db (ci_product it)) as [p|] eqn:Hp; [|discriminate].
    destruct (orderItems _ _) as [[b t]|] eqn:Hrest; [|discriminate].
    inversion H; subst. apply IH in Hrest as [Hall Ht].
    split.
    + constructor; [|assumption]. exists p. auto.
    + simpl. unfold catalog_price at 2. now rewrite Hp.
Qed.

Lemma create_order_ready (E : Env) (user : User) (req : Request) (db : Db)
  (cart : Cart) (built : list OrderItem * float) :
  truthy (get_field "shippingAddress" (body req)) = true ->
  reads_ok E ->
  find_cart db (u_id user) = Some cart ->
  c_items cart <> [] ->
  orderItems (map (populate_item db) (c_items cart)) 0%float = Ok built ->
  create_order E user req db
  = run_handler 400
      (writes E (new_Order E db user (fst built) (snd built)
                   (get_field "shippingAddress" (body req))
                   (get_field "paymentMethod" (body req)))
              (populate_cart db cart)) db.
Proof.
  intros Ha Hr Hc Hne Hb.
  unfold create_order, Cart_findOne, writes, run_handler, bind, lift, ret, query.
  rewrite Ha, (Hr Carts). simpl. rewrite Hc, (Hr Products). simpl.
  rewrite length_map. destruct (c_items cart) as [|it items]; [congruence|].
  change (length (it :: items) =? 0)%nat with false. cbv beta iota.
  rewrite Hb. reflexivity.
Qed.

Lemma create_order_created (E : Env) (user : User) (req : Request)
  (db db' : Db) (resp : Response) :
  create_order E user req db = (db', resp) -> status resp = 201 ->
  exists cart built l,
    find_cart db (u_id user) = Some cart
    /\ orderItems (map (populate_item db) (c_items cart)) 0%float = Ok built
    /\ replace_first (same_cart (emptied (populate_cart db cart)))
                     (emptied (populate_cart db cart)) (carts db) = Some l
    /\ db' = mkDb (users db) (products db) l
                  (orders db ++ [new_Order E db user (fst built) (snd built)
                                   (get_field "shippingAddress" (body req))
                                   (get_field "paymentMethod" (body req))])
    /\ resp = mkResponse 201
                (BOrder (new_Order E db user (fst built) (snd built)
                           (get_field "shippingAddress" (body req))
                           (get_field "paymentMethod" (body req)))).
Proof.
  unfold create_order, Cart_findOne, writes, run_handler, bind, lift, ret, query.
  intros H H201.
  destruct (truthy _); simpl in H; [|inversion H; subst; discriminate].
  destruct (read_fault E Carts); [inversion H; subst; discriminate|].
  destruct (find_cart db (u_id user)) as [cart|] eqn:Hc;
    [|inversion H; subst; discriminate].
  destruct (read_fault E Products); [inversion H; subst; discriminate|].
  simpl in H.
  destruct (length _ =? 0)%nat; [inversion H; subst; discriminate|].
  destruct (orderItems _ _) as [built|] eqn:Hb;
    [|inversion H; subst; discriminate].
  destruct (Order_save E true _ db) as [db1 [[]|e]] eqn:Ho;
    [|inversion H; subst; discriminate].
  apply Order_save_new in Ho. subst db1.
  destruct (Cart_save E false _ _) as [db2 [[]|e]] eqn:Hs;
    [|inversion H; subst; discriminate].
  apply Cart_save_old in Hs as (l & Hl & ->).
  inversion H; subst. exists cart, built, l. auto.
Qed.

(** The cart document that was emptied is the one the user's next lookup
    finds. *)
Lemma emptied_cart_found (uid : ObjectId) (cart : Cart) (l l' : list Cart) :
  List.find (fun c => String.eqb (c_user c) uid) l = Some cart ->
  replace_first (same_cart (mkCart (c_id cart) (c_user cart) []))
                (mkCart (c_id cart) (c_user cart) []) l = Some l' ->
  List.find (fun c => String.eqb (c_user c) uid) l'
  = Some (mkCart (c_id cart) (c_user cart) [])
  /\ length l' = length l.
Proof.
  revert l'. induction l as [|y l IH]; intros l' Hf Hr; simpl in *; [discriminate|].
  assert (Hu : String.eqb (c_user cart) uid = true).
  { destruct (String.eqb (c_user y) uid) eqn:Hy.
    - now inversion Hf; subst.
    - now apply find_some in Hf as [_ Hf]. }
  unfold same_cart in Hr at 1. simpl in Hr.
  destruct (String.eqb (c_id y) (c_id cart)) eqn:Hid.
  - inversion Hr; subst. simpl. now rewrite Hu.
  - destruct (String.eqb (c_user y) uid) eqn:Hy.
    + inversion Hf; subst. now rewrite String.eqb_refl in Hid.
    + destruct (replace_first _ _ l) as [r|] eqn:Hrl; [|discriminate].
      inversion Hr; subst. simpl. rewrite Hy.
      destruct (IH r Hf eq_refl) as [H1 H2]. now rewrite H1, H2.
Qed.

Lemma create_order_outcome (E : Env) (user : User) (req : Request)
  (db db' : Db) (resp : Response) :
  create_order E user req db = (db', resp) ->
  (db' = db /\ status resp = 400)
  \/ (exists order,
        db' = set_orders db (orders db ++ [order]) /\ status resp = 400)
  \/ (exists order l,
        db' = mkDb (users db) (products db) l (orders db ++ [order])
        /\ resp = mkResponse 201 (BOrder order)).
Proof.
  unfold create_order, Cart_findOne, writes, run_handler, bind, lift, ret, query.
  intros H.
  destruct (truthy _); simpl in H; [|inversion H; subst; auto].
  destruct (read_fault E Carts); [inversion H; subst; auto|].
  destruct (find_cart db (u_id user)) as [cart|]; [|inversion H; subst; auto].
  destruct (read_fault E Products); [inversion H; subst; auto|].
  simpl in H.
  destruct (length _ =? 0)%nat; [inversion H; subst; auto|].
  destruct (orderItems _ _) as [built|]; [|inversion H; subst; auto].
  destruct (Order_save E true _ db) as [db1 [[]|e]] eqn:Ho.
  2:{ apply Order_save_throw in Ho. inversion H; subst; auto. }
  apply Order_save_new in Ho. subst db1.
  destruct (Cart_save E false _ _) as [db2 [[]|e]] eqn:Hs.
  2:{ apply Cart_save_throw in Hs. inversion H; subst. right; left. eauto. }
  apply Cart_save_old in Hs as (l & Hl & ->).
  inversion H; subst. right; right. eauto.
Qed.

(** C1. When a checkout succeeds (201), the order it answers with is
    stored, belongs to the requester, has one line item per entry of the
    requester's cart, each the snapshot of that entry against the catalog,
    and its [totalAmount] is the sum over the entries, in their order, of
    the catalog's current unit price times the quantity. A [totalAmount]
    field in the request body changes nothing: the checkout reads the body
    only for the shipping address and the payment method. *)
Theorem checkout_total_is_server_computed (E : Env) (user : User)
  (req : Request) (db db' : Db) (resp : Response) :
  create_order E user req db = (db', resp) -> status resp = 201 ->
  (exists cart order,
      find_cart db (u_id user) = Some cart
      /\ resp = mkResponse 201 (BOrder order)
      /\ orders db' = (orders db ++ [order])%list
      /\ o_user order = u_id user
      /\ length (o_items order) = length (c_items cart)
      /\ Forall2 (snapshot_of db) (c_items cart) (o_items order)
      /\ totalAmount order = cart_total db (c_items cart))
  /\ (forall v,
         create_order E user (with_body req (("totalAmount", v) :: body req)) db
         = (db', resp))
  /\ (forall req',
         get_field "shippingAddress" (body req')
         = get_field "shippingAddress" (body req) ->
         get_field "paymentMethod" (body req')
         = get_field "paymentMethod" (body req) ->
         create_order E user req' db = (db', resp)).
Proof.
  intros H H201. split; [|split].
  - apply create_order_created in H as (cart & built & l & Hc & Hb & _ & -> & ->);
      [|assumption].
    destruct built as [items total].
    apply orderItems_spec in Hb as [Hall Ht].
    exists cart. eexists. repeat (split; [reflexivity || eassumption|]).
    simpl. split; [|split; [assumption|exact Ht]].
    symmetry. eapply List.Forall2_length; eassumption.
  - intros v. rewrite <- H. reflexivity.
  - intros req' Ha Hm. rewrite <- H. unfold create_order. now rewrite Ha, Hm.
Qed.

Lemma checkout_total_is_server_computed_witness :
  find_cart Sample.db "u1" = Some Sample.alice_cart
  /\ snd (create_order Sample.env Sample.alice Sample.checkout Sample.db)
     = mkResponse 201 (BOrder Sample.alice_order)
  /\ length (o_items Sample.alice_order) = 2%nat
  /\ totalAmount Sample.alice_order = 25%float
  /\ exists cart order,
      find_cart Sample.db "u1" = Some cart
      /\ snd (create_order Sample.env Sample.alice Sample.checkout Sample.db)
         = mkResponse 201 (BOrder order)
      /\ length (o_items order) = length (c_items cart)
      /\ totalAmount order = cart_total Sample.db (c_items cart).
Proof.
  split; [reflexivity|split; [reflexivity|split; [reflexivity|split; [reflexivity|]]]].
  destruct (checkout_total_is_server_computed Sample.env Sample.alice
              Sample.checkout Sample.db
              (fst (create_order Sample.env Sample.alice Sample.checkout Sample.db))
              (snd (create_order Sample.env Sample.alice Sample.checkout Sample.db))
              eq_refl eq_refl)
    as [(cart & order & Hc & Hr & _ & _ & Hlen & _ & Ht) _].
  exists cart, order. auto.
Defined.

(** The claim C2 fails where the cart write is refused after the order
    was stored: a successful order write is not always followed by an
    emptied cart. In the sample shop the order is stored and the cart
    keeps its two entries. *)
Lemma checkout_cart_write_refused_counterexample :
  ~ (forall E user req db db' resp,
        create_order E user req db = (db', resp) ->
        (exists order, orders db' = (orders db ++ [order])%list) ->
        exists cart, find_cart db' (u_id user) = Some cart /\ c_items cart = []).
Proof.
  intros claim.
  destruct (claim Sample.env_cart_fails Sample.alice Sample.checkout Sample.db
              _ _ eq_refl)
    as (cart & Hc & Hi).
  - exists Sample.alice_order. reflexivity.
  - vm_compute in Hc. inversion Hc; subst. discriminate.
Qed.

(** C2, amended. The checkout never touches users or products, and it
    writes the cart only after the order is stored. Once the guards are
    passed: if the order write fails the checkout answers 400 with the
    error's message and the database is as before (no order stored, cart
    untouched); if the order write succeeds the order is the last of the
    collection, and then either the cart write succeeds, the answer is 201
    and the user's cart is still there with no entries, or the cart write
    fails, the answer is 400 with the error's message, and the order stays
    stored next to the untouched cart. *)
Theorem checkout_writes_order_then_cart (E : Env) (user : User)
  (req : Request) (db : Db) :
  (forall db' resp,
      create_order E user req db = (db', resp) ->
      users db' = users db /\ products db' = products db
      /\ (carts db' = carts db
          \/ exists order, orders db' = (orders db ++ [order])%list)
      /\ (orders db' = orders db -> carts db' = carts db))
  /\ (forall cart built,
         truthy (get_field "shippingAddress" (body req)) = true ->
         reads_ok E ->
         find_cart db (u_id user) = Some cart ->
         c_items cart <> [] ->
         orderItems (map (populate_item db) (c_items cart)) 0%float = Ok built ->
         let order := new_Order E db user (fst built) (snd built)
                                (get_field "shippingAddress" (body req))
                                (get_field "paymentMethod" (body req)) in
         (forall e dbx,
             Order_save E true order db = (dbx, Throw e) ->
             create_order E user req db = (db, mkResponse 400 (BMessage e)))
         /\ (forall db1,
                Order_save E true order db = (db1, Ok tt) ->
                orders db1 = (orders db ++ [order])%list
                /\ carts db1 = carts db
                /\ (forall e dbx,
                       Cart_save E false (emptied (populate_cart db cart)) db1
                       = (dbx, Throw e) ->
                       create_order E user req db
                       = (db1, mkResponse 400 (BMessage e)))
                /\ (forall db2,
                       Cart_save E false (emptied (populate_cart db cart)) db1
                       = (db2, Ok tt) ->
                       create_order E user req db
                       = (db2, mkResponse 201 (BOrder order))
                       /\ orders db2 = (orders db ++ [order])%list
                       /\ find_cart db2 (u_id user)
                          = Some (mkCart (c_id cart) (c_user cart) [])
                       /\ length (carts db2) = length (carts db)))).
Proof.
  split.
  - intros db' resp H.
    apply create_order_outcome in H
      as [[-> _]|[(order & -> & _)|(order & l & -> & _)]]; simpl.
    + auto.
    + repeat split; auto.
    + repeat split; eauto.
      intros Habs. exfalso.
      apply (f_equal (@length Order)) in Habs.
      rewrite length_app in Habs. simpl in Habs. lia.
  - intros cart built Ha Hr Hc Hne Hb order.
    rewrite (create_order_ready E user req db cart built Ha Hr Hc Hne Hb).
    fold order. unfold run_handler, writes, bind, ret. split.
    + intros e dbx Ho. rewrite Ho.
      apply Order_save_throw in Ho. now subst.
    + intros db1 Ho. rewrite Ho.
      apply Order_save_new in Ho. subst db1. simpl.
      split; [reflexivity|split; [reflexivity|split]].
      * intros e dbx Hs. rewrite Hs.
        apply Cart_save_throw in Hs. now subst.
      * intros db2 Hs. rewrite Hs.
        apply Cart_save_old in Hs as (l & Hl & ->). simpl in *.
        split; [reflexivity|split; [reflexivity|]].
        unfold find_cart in *. simpl.
        eapply emptied_cart_found; eassumption.
Qed.

Lemma checkout_writes_order_then_cart_witness :
  Order_save Sample.env_order_fails true
    (new_Order Sample.env_order_fails Sample.db Sample.alice
       (o_items Sample.alice_order) 25%float Sample.address JUndefined)
    Sample.db
  = (Sample.db, Throw "Order validation failed")
  /\ create_order Sample.env_order_fails Sample.alice Sample.checkout Sample.db
     = (Sample.db, mkResponse 400 (BMessage "Order validation failed")).
Proof.
  split; [reflexivity|].
  refine (proj1 (proj2 (checkout_writes_order_then_cart
                          Sample.env_order_fails Sample.alice Sample.checkout
                          Sample.db)
                   Sample.alice_cart (o_items Sample.alice_order, 25%float)
                   eq_refl _ eq_refl _ eq_refl)
            "Order validation failed" Sample.db eq_refl).
  - intros c. reflexivity.
  - discriminate.
Defined.




(** ** Cart aggregate *)

Section CartInvariant.

Import CartAggregate.

Lemma cart_of_positive (cs : gmap ObjectId (gmap ObjectId Z)) (user product : ObjectId) (q : Z) :
  quantities_positive cs -> cart_of cs user !! product = Some q -> 1 <= q.
Proof.
  unfold cart_of. intros Hinv.
  destruct (cs !! user) as [c|] eqn:Hc; simpl.
  - eauto.
  - rewrite lookup_empty. discriminate.
Qed.

Lemma insert_cart_positive (cs : gmap ObjectId (gmap ObjectId Z)) (user : ObjectId)
  (c : gmap ObjectId Z) :
  quantities_positive cs ->
  (forall product q, c !! product = Some q -> 1 <= q) ->
  quantities_positive (<[user := c]> cs).
Proof.
  intros Hinv Hc u c' product q Hu Hq.
  rewrite lookup_insert in Hu. destruct (decide (user = u)).
  - inversion Hu; subst. eauto.
  - eauto.
Qed.

Lemma apply_positive (cs : gmap ObjectId (gmap ObjectId Z)) (user : ObjectId) (op : Op) :
  requires op -> quantities_positive cs -> quantities_positive (apply cs user op).
Proof.
  intros Hreq Hinv.
  pose proof (fun p q => cart_of_positive cs user p q Hinv) as Hc.
  destruct op as [product qty|product qty|product| |]; simpl in *.
  - unfold addItem.
    destruct (cart_of cs user !! product) as [n|] eqn:Hn;
      apply insert_cart_positive; auto; intros p q Hq;
      rewrite lookup_insert in Hq; destruct (decide (product = p)); eauto.
    + inversion Hq; subst. apply Hc in Hn. lia.
    + inversion Hq; subst. lia.
  - unfold updateItem. destruct (1 <=? qty) eqn:Hqty;
      apply insert_cart_positive; auto; intros p q Hq.
    + rewrite lookup_alter in Hq. destruct (decide (product = p)); eauto.
      destruct (cart_of cs user !! product); inversion Hq; subst. lia.
    + rewrite lookup_delete in Hq. destruct (decide (product = p)); eauto.
      discriminate.
  - unfold removeItem. apply insert_cart_positive; auto. intros p q Hq.
    rewrite lookup_delete in Hq. destruct (decide (product = p)); eauto.
    discriminate.
  - unfold clear. apply insert_cart_positive; auto. intros p q Hq.
    rewrite lookup_empty in Hq. discriminate.
  - apply insert_cart_positive; auto.
Qed.

Lemma cart_of_insert (cs : gmap ObjectId (gmap ObjectId Z)) (user : ObjectId)
  (c : gmap ObjectId Z) :
  cart_of (<[user := c]> cs) user = c.
Proof. unfold cart_of. now rewrite lookup_insert_eq. Qed.

(** C8. Every cart operation, used as the specification requires
    ([addItem] with a quantity of at least 1), preserves the invariant that
    every stored entry has a quantity of at least 1, so every state reached
    from no carts by such operations satisfies it. [updateItem] with a
    quantity of 0 or less removes the entry of the product: afterwards the
    product is absent from the user's cart. *)
Theorem cart_quantities_stay_positive (cs : gmap ObjectId (gmap ObjectId Z))
  (user : ObjectId) :
  (forall op,
      requires op -> quantities_positive cs ->
      quantities_positive (apply cs user op))
  /\ (forall product qty,
         qty <= 0 ->
         cart_of (updateItem cs user product qty) user !! product = None)
  /\ (forall product,
         cart_of (updateItem cs user product 0) user !! product = None)
  /\ (forall product qty q,
         1 <= qty -> cart_of cs user !! product = Some q ->
         cart_of (updateItem cs user product qty) user !! product = Some qty)
  /\ (forall ops,
         Forall (fun uo => requires (snd uo)) ops ->
         quantities_positive (run ∅ ops)).
Proof.
  assert (Hdel : forall product qty,
             qty <= 0 ->
             cart_of (updateItem cs user product qty) user !! product = None).
  { intros product qty Hq. unfold updateItem.
    destruct (1 <=? qty) eqn:Hle; [apply Z.leb_le in Hle; lia|].
    rewrite cart_of_insert. apply lookup_delete_eq. }
  split; [|split; [|split; [|split]]].
  - intros op. apply apply_positive.
  - exact Hdel.
  - intros product. apply Hdel. lia.
  - intros product qty q Hq Hp. unfold updateItem.
    apply Z.leb_le in Hq. rewrite Hq.
    rewrite cart_of_insert, lookup_alter_eq, Hp. reflexivity.
  - intros ops Hops. unfold run.
    assert (Hgen : forall start,
               quantities_positive start ->
               quantities_positive
                 (fold_left (fun acc uo => apply acc (fst uo) (snd uo)) ops start)).
    { induction Hops as [|[u op] ops Hreq _ IH]; intros start Hs; simpl;
        [assumption|].
      apply IH. now apply apply_positive. }
    apply Hgen. intros u c product q Hu. rewrite lookup_empty in Hu. discriminate.
Qed.

End CartInvariant.

Lemma cart_quantities_stay_positive_witness :
  CartAggregate.requires (CartAggregate.AddItem "p1" (Some 2))
  /\ CartAggregate.quantities_positive ∅
  /\ CartAggregate.quantities_positive
       (CartAggregate.apply ∅ "u1" (CartAggregate.AddItem "p1" (Some 2)))
  /\ CartAggregate.cart_of
       (CartAggregate.updateItem
          (CartAggregate.addItem ∅ "u1" "p1" (Some 2)) "u1" "p1" 0) "u1"
     !! "p1" = None.
Proof.
  assert (Hreq : CartAggregate.requires (CartAggregate.AddItem "p1" (Some 2)))
    by (simpl; lia).
  assert (Hinv : CartAggregate.quantities_positive ∅).
  { intros u c product q Hu. rewrite lookup_empty in Hu. discriminate. }
  split; [exact Hreq|split; [exact Hinv|split]].
  - exact (proj1 (cart_quantities_stay_positive ∅ "u1") _ Hreq Hinv).
  - exact (proj1 (proj2 (proj2 (cart_quantities_stay_positive
                                  (CartAggregate.addItem ∅ "u1" "p1" (Some 2)) "u1")))
             "p1").
Defined.

(** ** Tokens on the wire *)

Lemma split_space_free (s : string) :
  space_free s = true -> split " " s = [s].
Proof.
  induction s as [|c s IH]; simpl; [reflexivity|].
  intros H. apply andb_true_iff in H as [Hc Hs].
  apply negb_true_iff in Hc. rewrite Hc, (IH Hs). reflexivity.
Qed.

Lemma split_scheme (a r : string) :
  space_free a = true -> split " " (a ++ String " " r) = a :: split " " r.
Proof.
  induction a as [|c a IH]; simpl; [reflexivity|].
  intros H. apply andb_true_iff in H as [Hc Ha].
  apply negb_true_iff in Hc. rewrite Hc, (IH Ha). reflexivity.
Qed.

Lemma split_nonempty (s : string) : split " " s <> [].
Proof.
  destruct s as [|c s]; simpl; [discriminate|].
  destruct (Ascii.eqb c " "); [discriminate|].
  destruct (split " " s); discriminate.
Qed.

Lemma bearer_token_scheme (req : Request) (a r : string) :
  space_free a = true ->
  bearer_token (with_authorization req (Some (a ++ String " " r)))
  = Some (hd "" (split " " r)).
Proof.
  intros Ha. unfold bearer_token. simpl. rewrite (split_scheme a r Ha).
  pose proof (split_nonempty r). destruct (split " " r); [congruence|reflexivity].
Qed.

(** The middleware reads the request only through its token. *)
Lemma authenticate_by_token (E : Env) (req1 req2 : Request) (db : Db) :
  bearer_token req1 = bearer_token req2 ->
  authenticate E req1 db = authenticate E req2 db.
Proof. intros H. unfold authenticate. now rewrite H. Qed.

(** X1. The token is the second word of the Authorization header, up to
    the next space, whatever the first word is: the scheme is not looked
    at, so two headers that differ only in it are treated alike. A header
    without any space carries no token and is answered 401
    "Authentication required". *)
Theorem authenticate_reads_second_word (E : Env) (req : Request) (db : Db) :
  (forall a r,
      space_free a = true ->
      bearer_token (with_authorization req (Some (a ++ String " " r)))
      = Some (hd "" (split " " r)))
  /\ (forall a b r,
         space_free a = true -> space_free b = true ->
         authenticate E (with_authorization req (Some (a ++ String " " r))) db
         = authenticate E (with_authorization req (Some (b ++ String " " r))) db)
  /\ (forall h,
         space_free h = true ->
         authenticate E (with_authorization req (Some h)) db
         = (db, inl (unauthenticated "Authentication required"))).
Proof.
  split; [|split].
  - intros a r. apply bearer_token_scheme.
  - intros a b r Ha Hb. apply authenticate_by_token.
    now rewrite !bearer_token_scheme.
  - intros h Hh. unfold authenticate, bearer_token. simpl.
    now rewrite (split_space_free h Hh).
Qed.

Lemma authenticate_reads_second_word_witness :
  space_free "Basic" = true
  /\ bearer_token (with_authorization Sample.stale (Some "Basic jwt.u1 tail"))
     = Some "jwt.u1"
  /\ authenticate Sample.env (with_authorization Sample.stale (Some "Bearer")) Sample.db
     = (Sample.db, inl (unauthenticated "Authentication required")).
Proof.
  split; [reflexivity|split].
  - exact (proj1 (authenticate_reads_second_word Sample.env Sample.stale Sample.db)
             "Basic" "jwt.u1 tail" eq_refl).
  - exact (proj2 (proj2 (authenticate_reads_second_word
                           Sample.env Sample.stale Sample.db))
             "Bearer" eq_refl).
Defined.

(** X2. A token issued by [generateToken] for a stored user, kept by the
    client and sent back by [apiRequest], is accepted by [authenticate],
    which resolves it to that user, provided [jwt.verify] accepts what
    [jwt.sign] made and the token is not empty and has no space. Without a
    stored token (after logout) the request carries no Authorization
    header and is answered 401. *)
Theorem issued_token_authenticates (E : Env) (db : Db) (u : User)
  (id : string) (b : list (string * JSValue)) :
  jwt_verify E (generateToken E (u_id u)) (jwtSecret E)
  = Ok (mkJwtPayload (u_id u)) ->
  generateToken E (u_id u) <> "" ->
  space_free (generateToken E (u_id u)) = true ->
  read_fault E Users = None ->
  List.find (has_id (u_id u)) (users db) = Some u ->
  authenticate E (sent (Some (generateToken E (u_id u))) id b) db = (db, inr u)
  /\ authenticate E (sent None id b) db
     = (db, inl (unauthenticated "Authentication required"))
  /\ authenticate E (sent (Some "") id b) db
     = (db, inl (unauthenticated "Authentication required")).
Proof.
  intros Hv Hne Hsf Hr Hf.
  split; [|split; reflexivity].
  assert (Hh : apiRequest_headers (Some (generateToken E (u_id u))) ∅ !! "Authorization"
               = Some ("Bearer " ++ generateToken E (u_id u))).
  { unfold apiRequest_headers.
    destruct (generateToken E (u_id u)) as [|c t] eqn:Ht; [congruence|].
    rewrite (left_id_L ∅ (∪)).
    rewrite lookup_union_l'; [apply lookup_singleton_eq|].
    rewrite lookup_singleton_eq. eauto. }
  assert (Ht : bearer_token (sent (Some (generateToken E (u_id u))) id b)
               = Some (generateToken E (u_id u))).
  { unfold sent. rewrite Hh.
    change (bearer_token (with_authorization (mkRequest None id b)
                            (Some ("Bearer" ++ String " " (generateToken E (u_id u)))))
            = Some (generateToken E (u_id u))).
    rewrite bearer_token_scheme by reflexivity.
    now rewrite (split_space_free _ Hsf). }
  unfold authenticate, bind, lift, ret, User_findById, query.
  rewrite Ht.
  destruct (generateToken E (u_id u)) as [|c t] eqn:Hg; [congruence|].
  rewrite Hv. simpl. now rewrite Hr, Hf.
Qed.

Lemma issued_token_authenticates_witness :
  List.find (has_id "u1") (users Sample.db) = Some Sample.alice
  /\ authenticate Sample.env
       (sent (Some (generateToken Sample.env "u1")) "" []) Sample.db
     = (Sample.db, inr Sample.alice).
Proof.
  split; [reflexivity|].
  exact (proj1 (issued_token_authenticates Sample.env Sample.db Sample.alice "" []
                  eq_refl ltac:(discriminate) eq_refl eq_refl eq_refl)).
Defined.

(** ** Accounts: what signup and login do besides *)

Lemma signup_created (E : Env) (req : Request) (db db' : Db) (resp : Response) :
  signup E req db = (db', resp) -> status resp = 201 ->
  exists e,
    get_field "email" (body req) = JStr e
    /\ truthy (JStr e) = true
    /\ truthy (get_field "password" (body req)) = true
    /\ List.find (has_email (normalize e)) (users db) = None
    /\ existsb (has_id (fresh_id E db)) (users db) = false
    /\ let u := set_password
                  (new_User E db (get_field "name" (body req)) (normalize e)
                            (get_field "password" (body req)))
                  (JStr (hash_password E (get_field "password" (body req)))) in
       db' = set_users db (users db ++ [u])
       /\ resp = mkResponse 201 (BAuth "User created successfully"
                                      (generateToken E (u_id u)) (public u)).
Proof.
  unfold signup, run_handler, bind, lift, ret, User_findOne, query.
  intros H H201.
  destruct (truthy (get_field "name" (body req))) eqn:Hn; simpl in H;
    [|inversion H; subst; discriminate].
  destruct (truthy (get_field "email" (body req))) eqn:He; simpl in H;
    [|inversion H; subst; discriminate].
  destruct (truthy (get_field "password" (body req))) eqn:Hp; simpl in H;
    [|inversion H; subst; discriminate].
  destruct (get_field "email" (body req)) as [| | | |e| |]; simpl in H;
    try (inversion H; subst; discriminate).
  destruct (read_fault E Users); [inversion H; subst; discriminate|].
  destruct (List.find _ _) eqn:Hf; [inversion H; subst; discriminate|].
  unfold User_save in H.
  destruct (user_save_fault E _); [inversion H; subst; discriminate|].
  unfold store in H. simpl in H.
  destruct (existsb _ _) eqn:Hx; [inversion H; subst; discriminate|].
  inversion H; subst. exists e. repeat split; auto.
Qed.

Lemma find_app_new {A} (p : A -> bool) (l : list A) (x : A) :
  List.find p l = None -> p x = true -> List.find p (l ++ [x]) = Some x.
Proof.
  induction l as [|y l IH]; simpl; intros Hf Hx; [now rewrite Hx|].
  destruct (p y); [discriminate|auto].
Qed.

(** X3. After a signup that succeeded, a login with the same password and
    any e-mail of the same normalized form (a non-empty one) answers 200
    with a token issued for the id of the user the signup created, and the
    same public profile; this holds when bcrypt's comparison accepts the
    hash it made and the lookup goes through. *)
Theorem signup_then_login (E : Env) (req1 req2 : Request) (db db1 : Db)
  (resp1 : Response) (e2 : string) :
  read_fault E Users = None ->
  (forall u,
      u_password u = JStr (hash_password E (get_field "password" (body req1))) ->
      comparePassword E (get_field "password" (body req1)) u = Ok true) ->
  signup E req1 db = (db1, resp1) -> status resp1 = 201 ->
  get_field "email" (body req2) = JStr e2 -> e2 <> "" ->
  registers (normalize e2) req1 = true ->
  get_field "password" (body req2) = get_field "password" (body req1) ->
  exists user,
    resp1 = mkResponse 201 (BAuth "User created successfully"
                                  (generateToken E (pu_id user)) user)
    /\ login E req2 db1
       = (db1, mkResponse 200 (BAuth "Login successful"
                                     (generateToken E (pu_id user)) user)).
Proof.
  intros Hr Hbcrypt Hs H201 He2 Hne Hreg Hpw.
  apply signup_created in Hs as (e & He & _ & Htp & Hf & _ & -> & ->);
    [|assumption].
  unfold registers in Hreg. rewrite He in Hreg. apply String.eqb_eq in Hreg.
  match goal with
  | |- exists user, mkResponse 201 (BAuth _ _ (public ?u)) = _ /\ _ =>
      exists (public u)
  end.
  split; [reflexivity|].
  unfold login, run_handler, bind, lift, ret, User_findOne, query.
  rewrite He2, Hpw, Htp. simpl.
  apply String.eqb_neq in Hne. rewrite Hne. simpl. rewrite Hr.
  rewrite <- Hreg.
  erewrite find_app_new; [|eassumption|].
  2:{ unfold has_email. simpl. apply String.eqb_refl. }
  rewrite Hbcrypt by reflexivity. reflexivity.
Qed.

Lemma signup_then_login_witness :
  status (snd (signup Sample.env Demo.signup_upper Sample.db)) = 201
  /\ registers (normalize "mdsad6385@gmail.com") Demo.signup_upper = true
  /\ exists user,
      login Sample.env Demo.login_lower
            (fst (signup Sample.env Demo.signup_upper Sample.db))
      = (fst (signup Sample.env Demo.signup_upper Sample.db),
         mkResponse 200 (BAuth "Login successful"
                               (generateToken Sample.env (pu_id user)) user)).
Proof.
  split; [reflexivity|split; [reflexivity|]].
  destruct (signup_then_login Sample.env Demo.signup_upper Demo.login_lower
              Sample.db
              (fst (signup Sample.env Demo.signup_upper Sample.db))
              (snd (signup Sample.env Demo.signup_upper Sample.db))
              "mdsad6385@gmail.com" eq_refl)
    as (user & _ & Hl); try reflexivity; try discriminate.
  - intros u Hu. unfold comparePassword, Sample.env, Sample.compare.
    rewrite Hu. reflexivity.
  - exists user. exact Hl.
Defined.

(** X4. Login never writes. It answers 200 only for a string e-mail whose
    normalized form is the stored e-mail of a user for whom the password
    comparison returned true, and then with a token issued for that user's
    id and the user's public profile; every other answer is 400, 401 or
    500. *)
Theorem login_sound_and_read_only (E : Env) (req : Request) (db db' : Db)
  (resp : Response) :
  login E req db = (db', resp) ->
  db' = db
  /\ (status resp = 200 \/ status resp = 400 \/ status resp = 401
      \/ status resp = 500)
  /\ (status resp = 200 ->
      exists e u,
        get_field "email" (body req) = JStr e
        /\ List.find (has_email (normalize e)) (users db) = Some u
        /\ comparePassword E (get_field "password" (body req)) u = Ok true
        /\ resp = mkResponse 200 (BAuth "Login successful"
                                       (generateToken E (u_id u)) (public u))).
Proof.
  unfold login, run_handler, bind, lift, ret, User_findOne, query.
  intros H.
  destruct (negb (truthy (get_field "email" (body req))) || _);
    [inversion H; subst; simpl; intuition discriminate|].
  destruct (get_field "email" (body req)) as [| | | |e| |]; simpl in H;
    try (inversion H; subst; simpl; intuition discriminate).
  destruct (read_fault E Users);
    [inversion H; subst; simpl; intuition discriminate|].
  destruct (List.find _ _) as [u|] eqn:Hf;
    [|inversion H; subst; simpl; intuition discriminate].
  destruct (comparePassword E _ u) as [[|]|] eqn:Hc; simpl in H;
    inversion H; subst; simpl; try (intuition discriminate).
  split; [reflexivity|split; [auto|]]. intros _. exists e, u. auto.
Qed.

Lemma login_sound_and_read_only_witness :
  status (snd (login Sample.env Demo.login_lower Sample.db)) = 401
  /\ fst (login Sample.env Demo.login_lower Sample.db) = Sample.db.
Proof.
  split; [reflexivity|].
  exact (proj1 (login_sound_and_read_only Sample.env Demo.login_lower Sample.db
                  (fst (login Sample.env Demo.login_lower Sample.db))
                  (snd (login Sample.env Demo.login_lower Sample.db)) eq_refl)).
Defined.

(** X5. Signup answers 201 or 400. It never touches products, carts or
    orders, and never changes or removes a stored user; unless it answers
    201 it writes nothing. On 201 exactly one user is added, under an id
    no stored user had, and the token of the answer is issued for that id.
    A request without a name, an e-mail or a password is answered 400
    "Please provide all required fields"; an e-mail that is not a string
    (and is truthy) is answered 400 with the TypeError's message. *)
Theorem signup_adds_one_user_or_nothing (E : Env) (req : Request) (db : Db) :
  (forall db' resp,
      signup E req db = (db', resp) ->
      products db' = products db /\ carts db' = carts db /\ orders db' = orders db
      /\ (status resp = 201 \/ status resp = 400)
      /\ (status resp <> 201 -> db' = db)
      /\ (status resp = 201 ->
          exists u token profile,
            users db' = (users db ++ [u])%list
            /\ ~ In (u_id u) (map u_id (users db))
            /\ resp = mkResponse 201 (BAuth "User created successfully" token profile)
            /\ token = generateToken E (u_id u)
            /\ pu_id profile = u_id u
            /\ pu_email profile = u_email u))
  /\ (truthy (get_field "name" (body req)) = false
      \/ truthy (get_field "email" (body req)) = false
      \/ truthy (get_field "password" (body req)) = false ->
      signup E req db
      = (db, mkResponse 400 (BMessage "Please provide all required fields")))
  /\ (truthy (get_field "name" (body req)) = true ->
      truthy (get_field "email" (body req)) = true ->
      truthy (get_field "password" (body req)) = true ->
      (forall e, get_field "email" (body req) <> JStr e) ->
      signup E req db
      = (db, mkResponse 400 (BMessage "email.toLowerCase is not a function"))).
Proof.
  split; [|split].
  - intros db' resp H.
    destruct (signup_outcome E req db) as [(m & Hm)|(e & u & _ & _ & _ & Hs)].
    + rewrite H in Hm. inversion Hm; subst. simpl.
      repeat split; auto. intros; discriminate.
    + assert (H201 : status resp = 201).
      { rewrite H in Hs. now inversion Hs. }
      apply signup_created in H as (e' & _ & _ & _ & _ & Hx & -> & ->);
        [|assumption].
      simpl. repeat split; auto; [congruence|]. intros _.
      eexists. eexists. eexists. split; [reflexivity|].
      split; [|repeat split; reflexivity].
      simpl. intros Hin. apply in_map_iff in Hin as (w & Hw & Hin).
      assert (Hb : existsb (has_id (fresh_id E db)) (users db) = true).
      { apply existsb_exists. exists w. split; [assumption|].
        unfold has_id. now apply String.eqb_eq. }
      congruence.
  - intros H. unfold signup, run_handler, ret.
    destruct H as [H|[H|H]]; rewrite H; simpl;
      rewrite ?orb_true_r; reflexivity.
  - intros Hn He Hp Hns. unfold signup, run_handler, bind, lift, ret.
    rewrite Hn, He, Hp. simpl.
    destruct (get_field "email" (body req)) as [| | | |e| |]; simpl;
      try reflexivity.
    exfalso. now apply (Hns e).
Qed.

Lemma signup_adds_one_user_or_nothing_witness :
  truthy (get_field "email" (body Demo.signup_number)) = true
  /\ signup Sample.env Demo.signup_number Sample.db
     = (Sample.db, mkResponse 400 (BMessage "email.toLowerCase is not a function")).
Proof.
  split; [reflexivity|].
  refine (proj2 (proj2 (signup_adds_one_user_or_nothing
                          Sample.env Demo.signup_number Sample.db))
            eq_refl eq_refl eq_refl _).
  intros e. discriminate.
Defined.

(** X6. The status route names [authenticate] twice, once through
    [router.use] and once in the route; the second run finds what the
    first found, so the route behaves as behind a single one. *)
Theorem status_route_authenticates_once (E : Env) (req : Request) (db : Db) :
  put_order_status E req db = protected E (update_status E) req db.
Proof.
  unfold put_order_status, protected.
  destruct (authenticate E req db) as [db' [r|u]] eqn:Ha; [reflexivity|].
  pose proof (authenticate_inr E req db db' u Ha) as [-> _].
  now rewrite Ha.
Qed.

(** ** Orders: what the routes do besides *)

Lemma replace_first_find {A} (p : A -> bool) (x : A) (l l' : list A) :
  replace_first p x l = Some l' -> p x = true -> List.find p l' = Some x.
Proof.
  revert l'. induction l as [|y l IH]; intros l' H Hx; simpl in H; [discriminate|].
  destruct (p y) eqn:Hy.
  - inversion H; subst. simpl. now rewrite Hx.
  - destruct (replace_first p x l) as [r|]; [|discriminate].
    inversion H; subst. simpl. rewrite Hy. now apply IH.
Qed.

Lemma replace_first_same {A} (p : A -> bool) (x : A) (l : list A) :
  List.find p l = Some x -> replace_first p x l = Some l.
Proof.
  induction l as [|y l IH]; simpl; [discriminate|].
  destruct (p y).
  - now inversion 1.
  - intros H. now rewrite (IH H).
Qed.

Lemma with_statuses_frame (o : Order) (b : list (string * JSValue)) :
  order_frame (with_statuses o b) = order_frame o.
Proof.
  unfold with_statuses.
  destruct (truthy (get_field "orderStatus" b));
    destruct (truthy (get_field "paymentStatus" b)); reflexivity.
Qed.

Lemma update_status_found (E : Env) (user : User) (req : Request) (db : Db)
  (order : Order) :
  read_fault E Orders = None ->
  List.find (fun o => String.eqb (o_id o) (params_id req)) (orders db) = Some order ->
  passes_gate user order = true ->
  update_status E user req db
  = run_handler 400
      (do! Order_save E false (with_statuses order (body req)) in
       ret (mkResponse 200 (BOrder (with_statuses order (body req))))) db.
Proof.
  intros Hr Hf Hg. unfold passes_gate in Hg.
  unfold update_status, Order_findById, run_handler, bind, ret, query.
  rewrite Hr, Hf. rewrite <- negb_orb, Hg. reflexivity.
Qed.

(** X7. The status route changes nothing but the two status fields of the
    order it addresses: after any request the orders are as many as
    before and each keeps its id, owner, items, total, address, payment
    method and creation time, and users, products and carts are as they
    were. An unknown order id is answered 404. When the gate is passed and
    the write goes through, the answer is 200 with the order, whose status
    fields are the truthy ones of the body and otherwise the old ones, and
    that order is what the id now finds; with neither field in the body the
    database is as before. *)
Theorem status_update_sets_status_fields_only (E : Env) (user : User)
  (req : Request) (db : Db) :
  (forall db' resp,
      update_status E user req db = (db', resp) ->
      users db' = users db /\ products db' = products db /\ carts db' = carts db
      /\ map order_frame (orders db') = map order_frame (orders db))
  /\ (read_fault E Orders = None ->
      List.find (fun o => String.eqb (o_id o) (params_id req)) (orders db) = None ->
      update_status E user req db = (db, not_found))
  /\ (forall order db',
         read_fault E Orders = None ->
         List.find (fun o => String.eqb (o_id o) (params_id req)) (orders db)
         = Some order ->
         passes_gate user order = true ->
         Order_save E false (with_statuses order (body req)) db = (db', Ok tt) ->
         update_status E user req db
         = (db', mkResponse 200 (BOrder (with_statuses order (body req))))
         /\ List.find (fun o => String.eqb (o_id o) (params_id req)) (orders db')
            = Some (with_statuses order (body req))
         /\ orderStatus (with_statuses order (body req))
            = (if truthy (get_field "orderStatus" (body req))
               then get_field "orderStatus" (body req) else orderStatus order)
         /\ paymentStatus (with_statuses order (body req))
            = (if truthy (get_field "paymentStatus" (body req))
               then get_field "paymentStatus" (body req) else paymentStatus order)
         /\ (truthy (get_field "orderStatus" (body req)) = false ->
             truthy (get_field "paymentStatus" (body req)) = false ->
             db' = db)).
Proof.
  split; [|split].
  - intros db' resp.
    unfold update_status, Order_findById, run_handler, bind, ret, query.
    destruct (read_fault E Orders); [inversion 1; subst; auto|].
    destruct (List.find _ _) as [order|] eqn:Hf; [|inversion 1; subst; auto].
    destruct (negb (is_admin user) && _); [inversion 1; subst; auto|].
    fold (with_statuses order (body req)).
    unfold Order_save.
    destruct (order_save_fault E _); [inversion 1; subst; auto|].
    unfold store.
    pose proof (with_statuses_frame order (body req)) as Hfr.
    assert (Hid : o_id (with_statuses order (body req)) = params_id req).
    { inversion Hfr as [[H1 H2 H3 H4 H5 H6 H7]]. rewrite H1.
      apply find_some in Hf as [_ Hf]. now apply String.eqb_eq in Hf. }
    unfold same_order. rewrite Hid.
    destruct (replace_first_map order_frame
                (fun o => String.eqb (o_id o) (params_id req)) order
                (with_statuses order (body req)) (orders db) Hf Hfr)
      as (l & -> & Hm).
    inversion 1; subst. simpl. auto.
  - intros Hr Hf.
    unfold update_status, Order_findById, run_handler, bind, ret, query.
    now rewrite Hr, Hf.
  - intros order db' Hr Hf Hg Hs.
    rewrite (update_status_found E user req db order Hr Hf Hg).
    unfold run_handler, bind, ret. rewrite Hs.
    assert (Hid : o_id (with_statuses order (body req)) = params_id req).
    { pose proof (with_statuses_frame order (body req)) as Hfr.
      inversion Hfr as [[H1 H2 H3 H4 H5 H6 H7]]. rewrite H1.
      apply find_some in Hf as [_ Hf']. now apply String.eqb_eq in Hf'. }
    unfold Order_save in Hs.
    destruct (order_save_fault E _); [discriminate|].
    unfold store, same_order in Hs. rewrite Hid in Hs.
    destruct (replace_first _ _ _) as [l|] eqn:Hl; [|discriminate].
    inversion Hs; subst db'. simpl.
    split; [reflexivity|split; [|split; [|split]]].
    + eapply replace_first_find; [eassumption|]. rewrite Hid. apply String.eqb_refl.
    + unfold with_statuses.
      destruct (truthy (get_field "orderStatus" (body req)));
        destruct (truthy (get_field "paymentStatus" (body req))); reflexivity.
    + unfold with_statuses.
      destruct (truthy (get_field "orderStatus" (body req)));
        destruct (truthy (get_field "paymentStatus" (body req))); reflexivity.
    + intros H1 H2. unfold with_statuses in Hl. rewrite H1, H2 in Hl.
      rewrite (replace_first_same _ _ _ Hf) in Hl. inversion Hl; subst.
      now destruct db.
Qed.

Lemma status_update_sets_status_fields_only_witness :
  passes_gate Sample.root Sample.bob_order = true
  /\ exists db',
      update_status Sample.env Sample.root Sample.ship_as_admin Sample.db
      = (db', mkResponse 200 (BOrder (set_orderStatus Sample.bob_order (JStr "shipped"))))
      /\ List.find (fun o => String.eqb (o_id o) "o1") (orders db')
         = Some (set_orderStatus Sample.bob_order (JStr "shipped")).
Proof.
  split; [reflexivity|].
  eexists.
  destruct (proj2 (proj2 (status_update_sets_status_fields_only
                            Sample.env Sample.root Sample.ship_as_admin Sample.db))
              Sample.bob_order _ eq_refl eq_refl eq_refl eq_refl)
    as (H1 & H2 & _).
  split; [exact H1|exact H2].
Defined.

(** ** Checkout: what it does besides *)

Lemma orderItems_null (db : Db) (items : list CartItem) (it : CartItem) :
  In it items -> find_product db (ci_product it) = None ->
  forall total,
    orderItems (map (populate_item db) items) total
    = Throw "Cannot read properties of null (reading 'new_price')".
Proof.
  intros Hin Hnone. induction items as [|y items IH]; [contradiction|].
  intros total. simpl.
  destruct (find_product db (ci_product y)) as [p|] eqn:Hp; [|reflexivity].
  destruct Hin as [->|Hin]; [congruence|].
  now rewrite (IH Hin).
Qed.

(** X8. A cart entry whose product is no longer in the catalog makes the
    checkout fail: it answers 400 with the TypeError's message and writes
    nothing, so no order is created and the cart keeps its entries. *)
Theorem checkout_dangling_product (E : Env) (user : User) (req : Request)
  (db : Db) (cart : Cart) (it : CartItem) :
  reads_ok E ->
  truthy (get_field "shippingAddress" (body req)) = true ->
  find_cart db (u_id user) = Some cart ->
  In it (c_items cart) ->
  find_product db (ci_product it) = None ->
  create_order E user req db
  = (db, mkResponse 400
           (BMessage "Cannot read properties of null (reading 'new_price')")).
Proof.
  intros Hr Ha Hc Hin Hnone.
  unfold create_order, Cart_findOne, run_handler, bind, lift, ret, query.
  rewrite Ha, (Hr Carts). simpl. rewrite Hc, (Hr Products). simpl.
  rewrite length_map. destruct (c_items cart) as [|y items] eqn:Hi; [contradiction|].
  change (length (y :: items) =? 0)%nat with false. cbv beta iota.
  now rewrite (orderItems_null db (y :: items) it Hin Hnone).
Qed.

Lemma checkout_dangling_product_witness :
  find_cart Demo.db_without_p2 "u1" = Some Sample.alice_cart
  /\ find_product Demo.db_without_p2 "p2" = None
  /\ create_order Sample.env Sample.alice Sample.checkout Demo.db_without_p2
     = (Demo.db_without_p2,
        mkResponse 400
          (BMessage "Cannot read properties of null (reading 'new_price')")).
Proof.
  split; [reflexivity|split; [reflexivity|]].
  refine (checkout_dangling_product Sample.env Sample.alice Sample.checkout
            Demo.db_without_p2 Sample.alice_cart (mkCartItem "p2" 1)
            _ eq_refl eq_refl _ eq_refl).
  - intros c. reflexivity.
  - right. left. reflexivity.
Defined.

Lemma create_order_carts (E : Env) (user : User) (req : Request)
  (db db' : Db) (resp : Response) :
  create_order E user req db = (db', resp) ->
  carts db' = carts db
  \/ exists cart,
      find_cart db (u_id user) = Some cart
      /\ replace_first (same_cart (mkCart (c_id cart) (c_user cart) []))
                       (mkCart (c_id cart) (c_user cart) []) (carts db)
         = Some (carts db').
Proof.
  unfold create_order, Cart_findOne, writes, run_handler, bind, lift, ret, query.
  intros H.
  destruct (truthy _); simpl in H; [|inversion H; subst; auto].
  destruct (read_fault E Carts); [inversion H; subst; auto|].
  destruct (find_cart db (u_id user)) as [cart|] eqn:Hc;
    [|inversion H; subst; auto].
  destruct (read_fault E Products); [inversion H; subst; auto|].
  simpl in H.
  destruct (length _ =? 0)%nat; [inversion H; subst; auto|].
  destruct (orderItems _ _) as [built|]; [|inversion H; subst; auto].
  destruct (Order_save E true _ db) as [db1 [[]|e]] eqn:Ho.
  2:{ apply Order_save_throw in Ho. inversion H; subst; auto. }
  apply Order_save_new in Ho. subst db1.
  destruct (Cart_save E false _ _) as [db2 [[]|e]] eqn:Hs.
  2:{ apply Cart_save_throw in Hs. inversion H; subst. auto. }
  apply Cart_save_old in Hs as (l & Hl & ->).
  inversion H; subst. right. exists cart. split; [reflexivity|exact Hl].
Qed.

(** With unique ids, [replace_first] on the id of a stored document
    replaces that very document. *)
Lemma replace_first_unique (cart x : Cart) (l l' : list Cart) :
  List.NoDup (map c_id l) -> In cart l ->
  replace_first (fun c' => String.eqb (c_id c') (c_id cart)) x l = Some l' ->
  exists l1 l2, l = (l1 ++ cart :: l2)%list /\ l' = (l1 ++ x :: l2)%list.
Proof.
  revert l'. induction l as [|y l IH]; intros l' Hnd Hin Hr; [contradiction|].
  simpl in Hr. inversion Hnd as [|? ? Hny Hnd']; subst.
  destruct (String.eqb (c_id y) (c_id cart)) eqn:Hy.
  - apply String.eqb_eq in Hy. inversion Hr; subst.
    destruct Hin as [->|Hin].
    + exists [], l. auto.
    + exfalso. apply Hny. rewrite Hy. now apply in_map.
  - destruct Hin as [->|Hin]; [now rewrite String.eqb_refl in Hy|].
    destruct (replace_first _ x l) as [r|] eqn:Hrl; [|discriminate].
    inversion Hr; subst.
    destruct (IH r Hnd' Hin eq_refl) as (l1 & l2 & -> & ->).
    exists (y :: l1), l2. auto.
Qed.

Lemma find_middle {A} (p : A -> bool) (l1 l2 : list A) (x y : A) :
  p x = false -> p y = false ->
  List.find p (l1 ++ x :: l2) = List.find p (l1 ++ y :: l2).
Proof.
  intros Hx Hy. induction l1 as [|z l1 IH]; simpl.
  - now rewrite Hx, Hy.
  - now destruct (p z).
Qed.

(** X9. With unique cart ids, a checkout touches no cart but the
    requester's: whatever the outcome, every other user finds the same cart
    as before, every cart of another user is still stored, the carts are
    as many as before and their ids are the same. *)
Theorem checkout_leaves_other_carts (E : Env) (user : User) (req : Request)
  (db db' : Db) (resp : Response) :
  List.NoDup (map c_id (carts db)) ->
  create_order E user req db = (db', resp) ->
  (forall v, v <> u_id user -> find_cart db' v = find_cart db v)
  /\ (forall c, In c (carts db) -> c_user c <> u_id user -> In c (carts db'))
  /\ map c_id (carts db') = map c_id (carts db).
Proof.
  intros Hnd H.
  unfold find_cart.
  apply create_order_carts in H as [->|(cart & Hc & Hr)]; [auto|].
  unfold find_cart in Hc.
  apply find_some in Hc as [Hin Hu]. apply String.eqb_eq in Hu.
  unfold same_cart in Hr. simpl in Hr.
  destruct (replace_first_unique cart _ _ _ Hnd Hin Hr) as (l1 & l2 & Hl & Hl').
  rewrite Hl, Hl'. split; [|split].
  - intros v Hv. apply find_middle; simpl; apply String.eqb_neq; congruence.
  - intros c Hinc Hcu. apply in_app_or in Hinc as [Hinc|[<-|Hinc]].
    + apply in_or_app. now left.
    + congruence.
    + apply in_or_app. right. now right.
  - rewrite !map_app. reflexivity.
Qed.

Lemma checkout_leaves_other_carts_witness :
  List.NoDup (map c_id (carts Sample.db))
  /\ find_cart (fst (create_order Sample.env Sample.alice Sample.checkout Sample.db))
               "u2"
     = find_cart Sample.db "u2".
Proof.
  assert (Hnd : List.NoDup (map c_id (carts Sample.db))).
  { simpl. apply List.NoDup_cons; [|apply List.NoDup_cons; [|apply List.NoDup_nil]].
    - intros [H|[]]. discriminate.
    - intros []. }
  split; [exact Hnd|].
  refine (proj1 (checkout_leaves_other_carts Sample.env Sample.alice
                   Sample.checkout Sample.db _ _ Hnd eq_refl) "u2" _).
  discriminate.
Defined.

(** ** The order list *)

Lemma insert_desc_newest_first (o : Order) (l : list Order) :
  newest_first l -> newest_first (insert_desc o l).
Proof.
  induction l as [|y l IH]; simpl; [intros _; split; [intros ? []|exact I]|].
  intros [Hy Hl]. destruct (createdAt y <=? createdAt o) eqn:Hle; simpl.
  - apply Z.leb_le in Hle. split; [|split; assumption].
    intros o' [<-|Hin]; [assumption|]. specialize (Hy o' Hin). lia.
  - apply Z.leb_gt in Hle. split; [|now apply IH].
    intros o' Hin. apply In_insert_desc in Hin as [->|Hin]; [lia|auto].
Qed.

Lemma sort_desc_newest_first (l : list Order) : newest_first (sort_desc l).
Proof.
  induction l as [|y l IH]; simpl; [exact I|].
  now apply insert_desc_newest_first.
Qed.

Lemma insert_desc_Permutation (o : Order) (l : list Order) :
  Permutation (insert_desc o l) (o :: l).
Proof.
  induction l as [|y l IH]; simpl; [reflexivity|].
  destruct (createdAt y <=? createdAt o); [reflexivity|].
  rewrite IH. apply perm_swap.
Qed.

Lemma sort_desc_Permutation (l : list Order) : Permutation (sort_desc l) l.
Proof.
  induction l as [|y l IH]; simpl; [reflexivity|].
  rewrite insert_desc_Permutation. now constructor.
Qed.

(** X10. When its queries go through, the list route answers 200 with the
    requester's orders newest first: the documents are a rearrangement of
    the stored orders of the requester (none lost, none twice) in which no
    order is followed by a newer one, each with the products its items
    refer to as the catalog has them now. The documents themselves do not
    depend on the catalog. *)
Theorem order_list_newest_first (E : Env) (user : User) (req : Request) (db : Db) :
  read_fault E Orders = None -> read_fault E Products = None ->
  exists os,
    list_orders E user req db = (db, mkResponse 200 (BOrders os))
    /\ newest_first (map fst os)
    /\ Permutation (map fst os) (List.filter (owned_by (u_id user)) (orders db))
    /\ Forall (fun po => snd po
                         = map (fun it => find_product db (oi_product it))
                               (o_items (fst po))) os
    /\ forall db2,
        orders db2 = orders db ->
        order_documents (snd (list_orders E user req db2)) = map fst os.
Proof.
  intros Ho Hp.
  assert (Hfst : forall d l, map fst (map (populate_order d) l) = l).
  { intros d l. rewrite map_map. simpl. apply map_id. }
  unfold list_orders, Order_find, run_handler, bind, ret, query.
  rewrite Ho, Hp. eexists. split; [reflexivity|].
  rewrite Hfst. split; [apply sort_desc_newest_first|].
  split; [apply sort_desc_Permutation|]. split.
  - apply List.Forall_forall. intros po Hin.
    apply in_map_iff in Hin as (o & <- & _). reflexivity.
  - intros db2 Heq. unfold order_documents. simpl. now rewrite Hfst, Heq.
Qed.

Lemma order_list_newest_first_witness :
  order_documents (snd (list_orders Sample.env Sample.bob Sample.checkout_bob
                                    Demo.db_three_orders))
  = [Sample.bob_order; Demo.bob_old_order]
  /\ exists os,
      list_orders Sample.env Sample.bob Sample.checkout_bob Demo.db_three_orders
      = (Demo.db_three_orders, mkResponse 200 (BOrders os))
      /\ newest_first (map fst os).
Proof.
  split; [reflexivity|].
  destruct (order_list_newest_first Sample.env Sample.bob Sample.checkout_bob
              Demo.db_three_orders eq_refl eq_refl)
    as (os & H1 & H2 & _).
  exists os. split; assumption.
Defined.

(** ** Profile update: what a valid one writes *)

Lemma includes_cons (k k' : string) (l : list string) :
  includes (k' :: l) k = String.eqb k k' || includes l k.
Proof. reflexivity. Qed.

Lemma apply_updates_fields (b : list (string * JSValue)) (updates : list string) :
  forall u,
    forallb (includes allowedUpdates) updates = true ->
    let u' := apply_updates u b updates in
    u_name u' = (if includes updates "name" then get_field "name" b else u_name u)
    /\ u_phone u' = (if includes updates "phone" then get_field "phone" b else u_phone u)
    /\ u_address u'
       = (if includes updates "address" then get_field "address" b else u_address u)
    /\ u_password u' = u_password u.
Proof.
  unfold apply_updates.
  induction updates as [|k ks IH]; intros u H; simpl in H; [simpl; auto|].
  apply andb_true_iff in H as [Hk Hks].
  specialize (IH (set_field u k (get_field k b)) Hks).
  destruct IH as (Hn & Hp & Ha & Hw).
  change (fold_left (fun acc update => set_field acc update (get_field update b))
            (k :: ks) u)
    with (fold_left (fun acc update => set_field acc update (get_field update b))
            ks (set_field u k (get_field k b))).
  cbv zeta in *. rewrite Hn, Hp, Ha, Hw, !includes_cons.
  unfold includes, allowedUpdates in Hk. simpl in Hk.
  destruct (String.eqb k "name") eqn:H1.
  { apply String.eqb_eq in H1. subst k. simpl.
    repeat split;
      try match goal with
          | |- context [includes ks ?x] => destruct (includes ks x)
          end; reflexivity. }
  destruct (String.eqb k "phone") eqn:H2.
  { apply String.eqb_eq in H2. subst k. simpl.
    repeat split;
      try match goal with
          | |- context [includes ks ?x] => destruct (includes ks x)
          end; reflexivity. }
  destruct (String.eqb k "address") eqn:H3; [|discriminate].
  apply String.eqb_eq in H3. subst k. simpl.
  repeat split;
      try match goal with
          | |- context [includes ks ?x] => destruct (includes ks x)
          end; reflexivity.
Qed.

Lemma replace_first_others {A} (p : A -> bool) (x : A) (l l' : list A) (w : A) :
  replace_first p x l = Some l' -> In w l -> p w = false -> In w l'.
Proof.
  revert l'. induction l as [|y l IH]; intros l' H Hin Hw; [contradiction|].
  simpl in H. destruct (p y) eqn:Hy.
  - inversion H; subst. destruct Hin as [->|Hin]; [congruence|now right].
  - destruct (replace_first p x l) as [r|]; [|discriminate].
    inversion H; subst. destruct Hin as [->|Hin]; [now left|right; eauto].
Qed.

(** X11. A profile update whose keys are all among [name], [phone] and
    [address], for a principal that is stored and whose write goes
    through, answers 200 with the user as stored now: each of the three
    fields has the value of the body when the body has its key and its old
    value otherwise, the id, e-mail, role and password are the old ones,
    the id now finds that user, and every other user is still stored. An
    empty body is valid and leaves the database as it is. *)
Theorem profile_update_writes_given_fields (E : Env) (user : User)
  (req : Request) (db : Db) :
  forallb (includes allowedUpdates) (keys (body req)) = true ->
  List.find (has_id (u_id user)) (users db) = Some user ->
  user_save_fault E (apply_updates user (body req) (keys (body req))) = None ->
  exists db' user',
    profile_handler E user req db = (db', mkResponse 200 (BUser user'))
    /\ List.find (has_id (u_id user)) (users db') = Some user'
    /\ u_name user' = field_after "name" (u_name user) (body req)
    /\ u_phone user' = field_after "phone" (u_phone user) (body req)
    /\ u_address user' = field_after "address" (u_address user) (body req)
    /\ identity user' = identity user
    /\ u_password user' = u_password user
    /\ (forall w, In w (users db) -> u_id w <> u_id user -> In w (users db'))
    /\ (body req = [] -> db' = db /\ user' = user).
Proof.
  intros Hall Hf Hok.
  pose proof (apply_updates_identity (body req) (keys (body req)) user Hall) as Hid.
  pose proof (apply_updates_fields (body req) (keys (body req)) user Hall)
    as (Hn & Hp & Ha & Hw).
  assert (Hsame : u_id (apply_updates user (body req) (keys (body req))) = u_id user).
  { unfold identity in Hid. now inversion Hid. }
  destruct (replace_first_map identity (has_id (u_id user)) user
              (apply_updates user (body req) (keys (body req))) (users db) Hf Hid)
    as (l & Hl & Hm).
  exists (set_users db l), (apply_updates user (body req) (keys (body req))).
  split; [|split; [|split; [|split; [|split; [|split; [|split; [|split]]]]]]];
    auto.
  - unfold profile_handler, run_handler, bind, ret, User_save.
    rewrite Hall, Hok, Hsame. simpl. unfold store. now rewrite Hl.
  - simpl. eapply replace_first_find; [eassumption|].
    unfold has_id. rewrite Hsame. apply String.eqb_refl.
  - intros w Hin Hne. simpl. eapply replace_first_others; eauto.
    unfold has_id. now apply String.eqb_neq.
  - intros Hb. rewrite Hb in *. simpl in *.
    rewrite (replace_first_same _ _ _ Hf) in Hl. inversion Hl; subst.
    split; [now destruct db|reflexivity].
Qed.

Lemma profile_update_writes_given_fields_witness :
  List.find (has_id "u1") (users Sample.db) = Some Sample.alice
  /\ exists db' user',
      profile_handler Sample.env Sample.alice Demo.rename Sample.db
      = (db', mkResponse 200 (BUser user'))
      /\ u_name user' = JStr "Al"
      /\ u_phone user' = JStr "123"
      /\ u_address user' = u_address Sample.alice.
Proof.
  split; [reflexivity|].
  destruct (profile_update_writes_given_fields Sample.env Sample.alice
              Demo.rename Sample.db eq_refl eq_refl eq_refl)
    as (db' & user' & H & _ & Hn & Hp & Ha & _).
  exists db', user'. repeat split; assumption.
Defined.

(** ** The catalog routes *)

Lemma admin_only_cases (E : Env) (handler : User -> Request -> Db -> Db * Reply)
  (req : Request) (db db' : Db) (reply : Reply) :
  admin_only E handler req db = (db', reply) ->
  (exists r, authenticate E req db = (db, inl r)
             /\ db' = db /\ reply = Plain r /\ status r = 401)
  \/ (exists u, authenticate E req db = (db, inr u) /\ is_admin u = false
                /\ db' = db
                /\ reply = Plain (mkResponse 403 (BMessage "Admin access required")))
  \/ (exists u, authenticate E req db = (db, inr u) /\ is_admin u = true
                /\ handler u req db = (db', reply)).
Proof.
  unfold admin_only, isAdmin.
  destruct (authenticate E req db) as [db1 [r|u]] eqn:Ha.
  - apply authenticate_inl in Ha as [H401 ->]. inversion 1; subst.
    left. eauto.
  - apply authenticate_inr in Ha as [-> _].
    destruct (is_admin u) eqn:Hadm.
    + intros H. right. right. eauto.
    + inversion 1; subst. right. left. eauto.
Qed.

Lemma create_product_cases (E : Env) (C : CatalogEnv) (user : User)
  (req : Request) (db db' : Db) (reply : Reply) :
  create_product E C user req db = (db', reply) ->
  (db' = db /\ exists m, reply = Plain (mkResponse 400 (BMessage m)))
  \/ (existsb (has_product_id (p_id (new_Product C (fresh_id E db) (body req))))
              (products db) = false
      /\ db' = set_products db
                 (products db ++ [new_Product C (fresh_id E db) (body req)])
      /\ reply = Doc 201 (new_Product C (fresh_id E db) (body req))).
Proof.
  unfold create_product, run_catalog, bind, ret, Product_save, store.
  destruct (product_save_fault C _); [inversion 1; subst; eauto|].
  destruct (existsb _ _) eqn:Hx; inversion 1; subst; eauto.
Qed.

Lemma update_product_frame (E : Env) (C : CatalogEnv) (user : User)
  (req : Request) (db db' : Db) (reply : Reply) :
  update_product E C user req db = (db', reply) ->
  users db' = users db /\ carts db' = carts db /\ orders db' = orders db.
Proof.
  unfold update_product, run_catalog, bind, ret, Product_findByIdAndUpdate.
  destruct (read_fault E Products); [inversion 1; subst; auto|].
  destruct (List.find _ _); [|inversion 1; subst; auto].
  destruct (updated_Product C _ _); [|inversion 1; subst; auto].
  destruct (replace_first _ _ _); inversion 1; subst; auto.
Qed.

Lemma delete_product_cases (E : Env) (user : User) (req : Request)
  (db db' : Db) (reply : Reply) :
  delete_product E user req db = (db', reply) ->
  (db' = db /\ (reply = product_not_found
                \/ exists m, reply = Plain (mkResponse 500 (BMessage m))))
  \/ (exists p, List.find (has_product_id (params_id req)) (products db) = Some p
                /\ db' = set_products db
                           (remove_first (has_product_id (params_id req)) (products db))
                /\ reply = Plain (mkResponse 200
                                    (BMessage "Product deleted successfully"))).
Proof.
  unfold delete_product, run_catalog, bind, ret, Product_findByIdAndDelete.
  destruct (read_fault E Products); [inversion 1; subst; eauto|].
  destruct (List.find _ _) as [p|] eqn:Hf; inversion 1; subst; eauto.
Qed.

(** Users, carts and orders after a catalog route are those before it. *)
Lemma catalog_route_frame (E : Env) (C : CatalogEnv)
  (route : Request -> Db -> Db * Reply) (req : Request) (db db' : Db) (reply : Reply) :
  In route [post_product E C; put_product E C; delete_product_route E] ->
  route req db = (db', reply) ->
  users db' = users db /\ carts db' = carts db /\ orders db' = orders db.
Proof.
  intros Hin H.
  assert (Hadm : exists handler,
             route = admin_only E handler
             /\ forall u d d' r, handler u req d = (d', r) ->
                  users d' = users d /\ carts d' = carts d /\ orders d' = orders d).
  { destruct Hin as [<-|[<-|[<-|[]]]].
    - exists (create_product E C). split; [reflexivity|]. intros u d d' r Hh.
      apply create_product_cases in Hh as [[-> _]|(_ & -> & _)]; auto.
    - exists (update_product E C). split; [reflexivity|]. intros u d d' r Hh.
      eapply update_product_frame; eauto.
    - exists (delete_product E). split; [reflexivity|]. intros u d d' r Hh.
      apply delete_product_cases in Hh as [[-> _]|(p & _ & -> & _)]; auto. }
  destruct Hadm as (handler & -> & Hframe).
  apply admin_only_cases in H
    as [(r & _ & -> & _)|[(u & _ & _ & -> & _)|(u & _ & _ & Hh)]]; eauto.
Qed.

(** X12. The three routes that write the catalog (create, update, delete)
    sit behind [authenticate] and [isAdmin]: a request that fails
    authentication is answered 401, the request of a principal whose role
    is not admin is answered 403 "Admin access required", and in both
    cases nothing is written; so the products change only on the request
    of a principal whose stored role is admin. None of the routes touches
    users, carts or orders. *)
Theorem catalog_writes_need_admin (E : Env) (C : CatalogEnv)
  (route : Request -> Db -> Db * Reply) (req : Request) (db db' : Db)
  (reply : Reply) :
  In route [post_product E C; put_product E C; delete_product_route E] ->
  route req db = (db', reply) ->
  (users db' = users db /\ carts db' = carts db /\ orders db' = orders db)
  /\ (forall r, authenticate E req db = (db, inl r) ->
                db' = db /\ reply = Plain r /\ reply_status reply = 401)
  /\ (forall u, authenticate E req db = (db, inr u) -> is_admin u = false ->
                db' = db
                /\ reply = Plain (mkResponse 403 (BMessage "Admin access required")))
  /\ (products db' <> products db ->
      exists u, authenticate E req db = (db, inr u) /\ In u (users db)
                /\ u_role u = JStr "admin").
Proof.
  intros Hin H. split; [eapply catalog_route_frame; eauto|].
  assert (Hadm : exists handler, route = admin_only E handler).
  { destruct Hin as [<-|[<-|[<-|[]]]]; eauto. }
  destruct Hadm as (handler & ->).
  apply admin_only_cases in H
    as [(r & Ha & -> & -> & H401)|[(u & Ha & Hadm & -> & ->)|(u & Ha & Hadm & Hh)]].
  - split; [|split].
    + intros r' Ha'. rewrite Ha in Ha'. inversion Ha'; subst. auto.
    + intros u Ha'. rewrite Ha in Ha'. discriminate.
    + congruence.
  - split; [|split].
    + intros r Ha'. rewrite Ha in Ha'. discriminate.
    + auto.
    + congruence.
  - split; [|split].
    + intros r Ha'. rewrite Ha in Ha'. discriminate.
    + intros u' Ha'. rewrite Ha in Ha'. inversion Ha'; subst. congruence.
    + intros _. exists u. split; [assumption|].
      apply authenticate_inr in Ha as (_ & token & payload & _ & _ & _ & Hf).
      apply find_some in Hf as [Hinu _]. split; [assumption|].
      unfold is_admin in Hadm. destruct (u_role u) as [| | | |r| |];
        try discriminate.
      apply String.eqb_eq in Hadm. now subst.
Qed.

Lemma catalog_writes_need_admin_witness :
  authenticate Sample.env Demo.add_shirt_as_alice Sample.db
  = (Sample.db, inr Sample.alice)
  /\ is_admin Sample.alice = false
  /\ post_product Sample.env Demo.catalog Demo.add_shirt_as_alice Sample.db
     = (Sample.db, Plain (mkResponse 403 (BMessage "Admin access required")))
  /\ reply_status
       (snd (post_product Sample.env Demo.catalog Demo.add_shirt_as_admin Sample.db))
     = 201.
Proof.
  split; [reflexivity|split; [reflexivity|split; [|reflexivity]]].
  destruct (proj1 (proj2 (proj2
              (catalog_writes_need_admin Sample.env Demo.catalog
                 (post_product Sample.env Demo.catalog)
                 Demo.add_shirt_as_alice Sample.db
                 (fst (post_product Sample.env Demo.catalog
                                    Demo.add_shirt_as_alice Sample.db))
                 (snd (post_product Sample.env Demo.catalog
                                    Demo.add_shirt_as_alice Sample.db))
                 (or_introl eq_refl) eq_refl)))
              Sample.alice eq_refl eq_refl) as [H1 H2].
  rewrite <- H1 at 2. rewrite <- H2. reflexivity.
Defined.

Lemma find_remove_first {A} (p : A -> bool) (f : A -> ObjectId) (l : list A) :
  (forall x y, In x l -> In y l -> p x = true -> p y = true -> f x = f y) ->
  List.NoDup (map f l) ->
  List.find p (remove_first p l) = None.
Proof.
  induction l as [|y l IH]; intros Hsame Hnd; simpl; [reflexivity|].
  inversion Hnd as [|? ? Hny Hnd']; subst.
  destruct (p y) eqn:Hy.
  - destruct (List.find p l) as [z|] eqn:Hz; [exfalso|reflexivity].
    apply find_some in Hz as [Hin Hpz]. apply Hny.
    rewrite (Hsame y z); [now apply in_map|now left|now right|assumption|assumption].
  - simpl. rewrite Hy. apply IH; [|assumption].
    intros a b Ha Hb. apply Hsame; now right.
Qed.

Lemma In_remove_first {A} (p : A -> bool) (l : list A) (x : A) :
  p x = false -> (In x (remove_first p l) <-> In x l).
Proof.
  intros Hx. induction l as [|y l IH]; simpl; [tauto|].
  destruct (p y) eqn:Hy; simpl.
  - split; [auto|]. intros [->|H]; [congruence|assumption].
  - rewrite IH. tauto.
Qed.

(** X13. A product that the create route answered with (201) is what the
    read route finds under its id afterwards, and the products stored
    before are all still there. After the delete route answered 200 for an
    id, and with unique product ids, the read route answers 404 for that
    id, a second delete answers 404 too, and a product with another id is
    stored exactly when it was before. *)
Theorem catalog_create_read_delete (E : Env) (C : CatalogEnv) (user : User)
  (req : Request) (db db' : Db) :
  read_fault E Products = None ->
  (forall p req',
      create_product E C user req db = (db', Doc 201 p) ->
      params_id req' = p_id p ->
      get_product E req' db' = (db', Doc 200 p)
      /\ products db' = (products db ++ [p])%list)
  /\ (delete_product E user req db
      = (db', Plain (mkResponse 200 (BMessage "Product deleted successfully"))) ->
      List.NoDup (map p_id (products db)) ->
      get_product E req db' = (db', product_not_found)
      /\ delete_product E user req db' = (db', product_not_found)
      /\ (forall q, p_id q <> params_id req ->
                    (In q (products db') <-> In q (products db)))
      /\ length (products db) = S (length (products db'))).
Proof.
  intros Hr. split.
  - intros p req' H Hid.
    apply create_product_cases in H as [[_ (m & Hm)]|(Hx & -> & Hd)];
      [discriminate|].
    inversion Hd; subst p. split; [|reflexivity].
    unfold get_product, run_catalog, bind, ret, Product_findById, query.
    rewrite Hr, Hid. simpl.
    erewrite find_app_new; [reflexivity| |].
    + destruct (List.find _ (products db)) as [z|] eqn:Hz; [|reflexivity].
      apply find_some in Hz as [Hin Hz].
      assert (Hb : existsb (has_product_id
                              (p_id (new_Product C (fresh_id E db) (body req))))
                     (products db) = true).
      { apply existsb_exists. eauto. }
      congruence.
    + unfold has_product_id. apply String.eqb_refl.
  - intros H Hnd.
    apply delete_product_cases in H as [[_ [Hn|(m & Hm)]]|(p & Hf & -> & _)];
      try discriminate.
    assert (Hgone : List.find (has_product_id (params_id req))
                      (remove_first (has_product_id (params_id req)) (products db))
                    = None).
    { apply (find_remove_first _ p_id); [|assumption].
      intros x y _ _ Hx Hy. unfold has_product_id in *.
      apply String.eqb_eq in Hx. apply String.eqb_eq in Hy. congruence. }
    split; [|split; [|split]].
    + unfold get_product, run_catalog, bind, ret, Product_findById, query.
      rewrite Hr. simpl. now rewrite Hgone.
    + unfold delete_product, run_catalog, bind, ret, Product_findByIdAndDelete.
      rewrite Hr. simpl. now rewrite Hgone.
    + intros q Hq. simpl. apply In_remove_first.
      unfold has_product_id. now apply String.eqb_neq.
    + simpl. clear Hgone Hnd. revert Hf.
      induction (products db) as [|y l IH]; simpl; [discriminate|].
      destruct (has_product_id (params_id req) y); [reflexivity|].
      intros Hf. simpl. now rewrite (IH Hf).
Qed.

Lemma catalog_create_read_delete_witness :
  List.NoDup (map p_id (products Sample.db))
  /\ delete_product Sample.env Sample.root Demo.drop_p2 Sample.db
     = (Demo.db_without_p2,
        Plain (mkResponse 200 (BMessage "Product deleted successfully")))
  /\ get_product Sample.env Demo.drop_p2 Demo.db_without_p2
     = (Demo.db_without_p2, product_not_found).
Proof.
  assert (Hnd : List.NoDup (map p_id (products Sample.db))).
  { simpl. apply List.NoDup_cons; [|apply List.NoDup_cons; [|apply List.NoDup_nil]].
    - intros [H|[]]. discriminate.
    - intros []. }
  split; [exact Hnd|split; [reflexivity|]].
  exact (proj1 (proj2 (catalog_create_read_delete Sample.env Demo.catalog
                         Sample.root Demo.drop_p2 Sample.db Demo.db_without_p2
                         eq_refl)
                  eq_refl Hnd)).
Defined.

(** X14. A checkout keeps what was bought: after any request to a route
    that writes the catalog, whether it renames, reprices or deletes
    products, the list route returns the same order documents as before,
    with the items, prices and totals they were created with. *)
Theorem order_history_survives_catalog_writes (E : Env) (C : CatalogEnv)
  (route : Request -> Db -> Db * Reply) (req req' : Request) (user : User)
  (db db' : Db) (reply : Reply) :
  In route [post_product E C; put_product E C; delete_product_route E] ->
  route req db = (db', reply) ->
  order_documents (snd (list_orders E user req' db'))
  = order_documents (snd (list_orders E user req' db))
  /\ orders db' = orders db.
Proof.
  intros Hin H.
  destruct (catalog_route_frame E C route req db db' reply Hin H) as (_ & _ & Ho).
  split; [|assumption].
  unfold list_orders, Order_find, run_handler, bind, ret, query.
  destruct (read_fault E Orders); [reflexivity|].
  destruct (read_fault E Products); [reflexivity|].
  unfold order_documents. simpl.
  rewrite !map_map. simpl. now rewrite Ho.
Qed.

Lemma order_history_survives_catalog_writes_witness :
  fst (delete_product_route Sample.env Demo.drop_p2 Sample.db) = Demo.db_without_p2
  /\ order_documents (snd (list_orders Sample.env Sample.bob Sample.checkout_bob
                                      Demo.db_without_p2))
     = [Sample.bob_order].
Proof.
  split; [reflexivity|].
  rewrite (proj1 (order_history_survives_catalog_writes
                    Sample.env Demo.catalog (delete_product_route Sample.env)
                    Demo.drop_p2 Sample.checkout_bob Sample.bob Sample.db
                    Demo.db_without_p2
                    (snd (delete_product_route Sample.env Demo.drop_p2 Sample.db))
                    (or_intror (or_intror (or_introl eq_refl))) eq_refl)).
  reflexivity.
Defined.

(** ** The client: image paths *)

Lemma truthy_nonempty (c : ascii) (s : string) : truthy (JStr (String c s)) = true.
Proof. reflexivity. Qed.

(** X15. For a string, [getImageSrc] answers the empty string exactly for
    the empty string, and otherwise a string that starts with a slash or
    with [http://] or [https://]: never a relative path. Applying it twice
    is applying it once. Numbers and booleans yield the empty string, and
    so does an object with neither [default] nor [src]. *)
Theorem image_src_is_rooted (s : string) :
  (exists r,
      getImageSrc (JStr s) = JStr r
      /\ (r = "" <-> s = "")
      /\ (s <> "" ->
          String.prefix "/" r = true \/ String.prefix "http://" r = true
          \/ String.prefix "https://" r = true))
  /\ getImageSrc (getImageSrc (JStr s)) = getImageSrc (JStr s)
  /\ (forall x, getImageSrc (JNum x) = JStr "")
  /\ (forall b, getImageSrc (JBool b) = JStr "")
  /\ (forall fields,
         truthy (get_field "default" fields) = false ->
         truthy (get_field "src" fields) = false ->
         getImageSrc (JObj fields) = JStr "").
Proof.
  split; [|split; [|split; [|split]]].
  - destruct s as [|c s]; [exists ""; repeat split; auto; congruence|].
    unfold getImageSrc. rewrite truthy_nonempty. cbn [negb].
    destruct (String.prefix "http://" (String c s)) eqn:H1.
    { exists (String c s). split; [reflexivity|]. split; [tauto|auto]. }
    destruct (String.prefix "https://" (String c s)) eqn:H2.
    { exists (String c s). split; [reflexivity|]. split; [tauto|auto]. }
    cbn [orb].
    destruct (String.prefix "/" (String c s)) eqn:H3.
    { exists (String c s). split; [reflexivity|]. split; [tauto|auto]. }
    exists ("/" ++ String c s). split; [reflexivity|].
    split; [split; discriminate|]. intros _. left. reflexivity.
  - destruct s as [|c s]; [reflexivity|].
    unfold getImageSrc at 2. rewrite truthy_nonempty. cbn [negb].
    destruct (String.prefix "http://" (String c s) || String.prefix "https://" (String c s))
      eqn:H1.
    { unfold getImageSrc. rewrite truthy_nonempty. cbn [negb]. now rewrite H1. }
    destruct (String.prefix "/" (String c s)) eqn:H3.
    { unfold getImageSrc. rewrite truthy_nonempty. cbn [negb]. now rewrite H1, H3. }
    unfold getImageSrc at 2. rewrite truthy_nonempty. cbn [negb].
    rewrite H1, H3. reflexivity.
  - intros x. unfold getImageSrc. now destruct (negb (truthy (JNum x))).
  - intros b. unfold getImageSrc. now destruct (negb (truthy (JBool b))).
  - intros fields Hd Hs. unfold getImageSrc, js_or. simpl. now rewrite Hd, Hs.
Qed.

Lemma image_src_is_rooted_witness :
  getImageSrc (JStr "assets/men1.webp") = JStr "/assets/men1.webp"
  /\ getImageSrc (getImageSrc (JStr "assets/men1.webp"))
     = getImageSrc (JStr "assets/men1.webp")
  /\ getImageSrc (JObj []) = JStr "".
Proof.
  split; [reflexivity|split].
  - exact (proj1 (proj2 (image_src_is_rooted "assets/men1.webp"))).
  - exact (proj2 (proj2 (proj2 (proj2 (image_src_is_rooted ""))))
             [] eq_refl eq_refl).
Defined.

Lemma prefix_app (a b t : string) :
  String.prefix (a ++ b) t = true -> String.prefix a t = true.
Proof.
  revert t. induction a as [|c a IH]; intros t; [now destruct t|].
  destruct t as [|d t]; simpl; [discriminate|].
  destruct (Ascii.ascii_dec c d); [apply IH|discriminate].
Qed.

(** X16. On relative paths the two helpers undo each other: for a
    non-empty string that starts neither with a slash nor with [http],
    [getProductImage] gives back what [getImageSrc] was given, and
    [getImageSrc] gives back the rooted path [getProductImage] was given.
    A string that starts with [http://] or [https://] is left as it is by
    both, and a number or [true] makes [getProductImage] throw. *)
Theorem product_image_round_trip (s : string) :
  (s <> "" -> String.prefix "/" s = false -> String.prefix "http" s = false ->
   getImageSrc (JStr s) = JStr ("/" ++ s)
   /\ getProductImage (getImageSrc (JStr s)) = Ok (JStr s)
   /\ getProductImage (JStr ("/" ++ s)) = Ok (JStr s))
  /\ (String.prefix "http://" s = true \/ String.prefix "https://" s = true ->
      getImageSrc (JStr s) = JStr s /\ getProductImage (JStr s) = Ok (JStr s))
  /\ (forall x, truthy (JNum x) = true ->
                getProductImage (JNum x)
                = Throw "imagePath.startsWith is not a function")
  /\ getProductImage (JBool true) = Throw "imagePath.startsWith is not a function".
Proof.
  assert (Hhttp : forall t, String.prefix "http://" t = true \/ String.prefix "https://" t = true ->
                            String.prefix "http" t = true).
  { intros t [H|H].
    - now apply (prefix_app "http" "://").
    - now apply (prefix_app "http" "s://"). }
  split; [|split; [|split]].
  - intros Hne Hslash Hh.
    destruct s as [|c s]; [congruence|].
    assert (H1 : String.prefix "http://" (String c s) = false).
    { destruct (String.prefix "http://" (String c s)) eqn:H; [|reflexivity].
      rewrite Hhttp in Hh; [discriminate|auto]. }
    assert (H2 : String.prefix "https://" (String c s) = false).
    { destruct (String.prefix "https://" (String c s)) eqn:H; [|reflexivity].
      rewrite Hhttp in Hh; [discriminate|auto]. }
    assert (Hsrc : getImageSrc (JStr (String c s)) = JStr ("/" ++ String c s)).
    { unfold getImageSrc. rewrite truthy_nonempty. cbn [negb].
      now rewrite H1, H2, Hslash. }
    split; [exact Hsrc|]. rewrite Hsrc. split; reflexivity.
  - intros H. pose proof (Hhttp s H) as Hh.
    destruct s as [|c s]; [destruct H; discriminate|].
    assert (Hsrc : getImageSrc (JStr (String c s)) = JStr (String c s)).
    { unfold getImageSrc. rewrite truthy_nonempty. cbn [negb].
      destruct H as [H|H]; rewrite H; [reflexivity|].
      now rewrite orb_true_r. }
    split; [exact Hsrc|].
    unfold getProductImage. rewrite truthy_nonempty. cbn [negb].
    now rewrite Hh, Hsrc.
  - intros x Hx. unfold getProductImage. now rewrite Hx.
  - reflexivity.
Qed.

Lemma product_image_round_trip_witness :
  getProductImage (getImageSrc (JStr "assets/men1.webp"))
  = Ok (JStr "assets/men1.webp")
  /\ getProductImage (JStr "https://cdn.example/x.png")
     = Ok (JStr "https://cdn.example/x.png").
Proof.
  split.
  - refine (proj1 (proj2 (proj1 (product_image_round_trip "assets/men1.webp")
                            _ eq_refl eq_refl))).
    discriminate.
  - exact (proj2 (proj1 (proj2 (product_image_round_trip
                                  "https://cdn.example/x.png"))
                    (or_intror eq_refl))).
Defined.

(** ** The client: the e-mail check of the form *)

Lemma email_run_left (s : string) :
  forall q,
    in_tail (email_run q s)
    = (at_start q && left_at_start s) || (in_local q && left_in_local s)
      || (after_at q && left_after_at s) || (in_domain q && left_in_domain s)
      || (after_dot q && left_after_dot s) || (in_tail q && plain s).
Proof.
  induction s as [|c s IH]; intros [q0 q1 q2 q3 q4 q5]; simpl.
  - btauto.
  - rewrite IH. simpl.
    generalize (plain_char c) (Ascii.eqb c "@") (Ascii.eqb c ".")
               (left_in_local s) (left_after_at s) (left_in_domain s)
               (left_after_dot s) (plain s) (left_at_start s).
    intros. btauto.
Qed.

Lemma left_after_dot_spec (s : string) :
  left_after_dot s = true <-> s <> "" /\ plain s = true.
Proof.
  destruct s as [|c s]; simpl.
  - split; [discriminate|intros [H _]; congruence].
  - split; [intros H; split; [discriminate|assumption]|tauto].
Qed.

Lemma left_in_domain_spec (s : string) :
  left_in_domain s = true
  <-> exists b c, s = b ++ String "." c
                  /\ plain b = true /\ c <> "" /\ plain c = true.
Proof.
  split.
  - induction s as [|x s IH]; simpl; [discriminate|].
    intros H. apply orb_true_iff in H as [H|H]; apply andb_true_iff in H as [H1 H2].
    + apply Ascii.eqb_eq in H1. subst x.
      apply left_after_dot_spec in H2 as [Hne Hp].
      exists "", s. auto.
    + destruct (IH H2) as (b & c & -> & Hb & Hc & Hpc).
      exists (String x b), c. simpl. rewrite H1, Hb. auto.
  - intros (b & c & -> & Hb & Hc & Hpc). induction b as [|x b IH]; simpl.
    + rewrite (proj2 (left_after_dot_spec c)) by auto. reflexivity.
    + simpl in Hb. apply andb_true_iff in Hb as [Hx Hb].
      rewrite Hx, (IH Hb). simpl. apply orb_true_r.
Qed.

Lemma left_after_at_spec (s : string) :
  left_after_at s = true
  <-> exists b c, s = b ++ String "." c
                  /\ b <> "" /\ plain b = true /\ c <> "" /\ plain c = true.
Proof.
  split.
  - destruct s as [|x s]; simpl; [discriminate|].
    intros H. apply andb_true_iff in H as [H1 H2].
    apply left_in_domain_spec in H2 as (b & c & -> & Hb & Hc & Hpc).
    exists (String x b), c. simpl. rewrite H1, Hb.
    repeat split; auto; discriminate.
  - intros (b & c & -> & Hne & Hb & Hc & Hpc).
    destruct b as [|x b]; [congruence|]. simpl in *.
    apply andb_true_iff in Hb as [Hx Hb]. rewrite Hx. simpl.
    apply left_in_domain_spec. exists b, c. auto.
Qed.

Lemma left_in_local_spec (s : string) :
  left_in_local s = true
  <-> exists a b c, s = a ++ String "@" (b ++ String "." c)
                    /\ plain a = true
                    /\ b <> "" /\ plain b = true /\ c <> "" /\ plain c = true.
Proof.
  split.
  - induction s as [|x s IH]; simpl; [discriminate|].
    intros H. apply orb_true_iff in H as [H|H]; apply andb_true_iff in H as [H1 H2].
    + apply Ascii.eqb_eq in H1. subst x.
      apply left_after_at_spec in H2 as (b & c & -> & Hne & Hb & Hc & Hpc).
      exists "", b, c. auto 10.
    + destruct (IH H2) as (a & b & c & -> & Ha & Hrest).
      exists (String x a), b, c. simpl. rewrite H1, Ha. auto.
  - intros (a & b & c & -> & Ha & Hrest). induction a as [|x a IH]; simpl.
    + rewrite (proj2 (left_after_at_spec (b ++ String "." c))).
      * reflexivity.
      * exists b, c. tauto.
    + simpl in Ha. apply andb_true_iff in Ha as [Hx Ha].
      rewrite Hx, (IH Ha). simpl. apply orb_true_r.
Qed.

Lemma emailRegex_test_shape (s : string) :
  emailRegex_test s = true <-> email_shaped s.
Proof.
  unfold emailRegex_test, email_shaped. rewrite email_run_left. simpl.
  rewrite !orb_false_r. split.
  - destruct s as [|x s]; simpl; [discriminate|].
    intros H. apply andb_true_iff in H as [H1 H2].
    apply left_in_local_spec in H2 as (a & b & c & -> & Ha & Hrest).
    exists (String x a), b, c. simpl. rewrite H1, Ha.
    repeat split; try tauto; discriminate.
  - intros (a & b & c & -> & Hne & Hb & Hc & Ha & Hpb & Hpc).
    destruct a as [|x a]; [congruence|]. simpl in *.
    apply andb_true_iff in Ha as [Hx Ha]. rewrite Hx. simpl.
    apply left_in_local_spec. exists a, b, c. auto 10.
Qed.

Lemma plain_no_space (s : string) (c : ascii) :
  plain s = true -> In c (list_ascii_of_string s) ->
  is_space c = false /\ c <> "@"%char.
Proof.
  induction s as [|x s IH]; simpl; [tauto|].
  intros H [<-|Hin].
  - apply andb_true_iff in H as [H _]. unfold plain_char in H.
    apply andb_true_iff in H as [H1 H2].
    apply negb_true_iff in H1. apply negb_true_iff in H2.
    split; [assumption|]. now apply Ascii.eqb_neq.
  - apply andb_true_iff in H as [_ H]. auto.
Qed.

Lemma list_ascii_app (a b : string) :
  list_ascii_of_string (a ++ b)
  = (list_ascii_of_string a ++ list_ascii_of_string b)%list.
Proof. induction a as [|x a IH]; simpl; [reflexivity|now rewrite IH]. Qed.

(** X17. The e-mail check of the form,
    [/^[^\s@]+@[^\s@]+\.[^\s@]+$/.test], accepts exactly the strings
    [a@b.c] whose three parts are non-empty and free of white space and of
    [@]. So an accepted string has no white space and exactly one [@], and
    the empty string, a string without [@] or without a dot after it are
    refused. *)
Theorem email_check_accepts_shaped_strings (s : string) :
  (emailRegex_test s = true <-> email_shaped s)
  /\ (emailRegex_test s = true ->
      (forall c, In c (list_ascii_of_string s) -> is_space c = false)
      /\ count_occ Ascii.ascii_dec (list_ascii_of_string s) "@"%char = 1%nat)
  /\ (forall a, plain a = true -> emailRegex_test a = false).
Proof.
  split; [apply emailRegex_test_shape|split].
  - intros H. apply emailRegex_test_shape in H
      as (a & b & c & -> & _ & _ & _ & Ha & Hb & Hc).
    assert (Hnone : forall t, plain t = true ->
                              count_occ Ascii.ascii_dec (list_ascii_of_string t) "@"%char
                              = 0%nat).
    { intros t Ht. apply count_occ_not_In. intros Hin.
      now destruct (plain_no_space t _ Ht Hin). }
    split.
    + intros x Hin. rewrite list_ascii_app in Hin. simpl in Hin.
      rewrite list_ascii_app in Hin. simpl in Hin.
      apply in_app_or in Hin as [Hin|[<-|Hin]];
        [now apply (plain_no_space a)|reflexivity|].
      apply in_app_or in Hin as [Hin|[<-|Hin]];
        [now apply (plain_no_space b)|reflexivity|now apply (plain_no_space c)].
    + rewrite list_ascii_app, count_occ_app. simpl.
      rewrite list_ascii_app, count_occ_app. simpl.
      rewrite (Hnone a Ha), (Hnone b Hb), (Hnone c Hc). reflexivity.
  - intros a Ha. destruct (emailRegex_test a) eqn:H; [exfalso|reflexivity].
    apply emailRegex_test_shape in H as (x & y & z & -> & _ & _ & _ & _).
    assert (Hin : In "@"%char (list_ascii_of_string (x ++ String "@" (y ++ String "." z)))).
    { rewrite list_ascii_app. apply in_or_app. right. now left. }
    now destruct (plain_no_space _ _ Ha Hin).
Qed.

Lemma email_check_accepts_shaped_strings_witness :
  emailRegex_test "mdsad6385@gmail.com" = true
  /\ email_shaped "mdsad6385@gmail.com"
  /\ emailRegex_test "mdsad6385" = false.
Proof.
  split; [reflexivity|split].
  - exact (proj1 (proj1 (email_check_accepts_shaped_strings "mdsad6385@gmail.com"))
             eq_refl).
  - exact (proj2 (proj2 (email_check_accepts_shaped_strings "mdsad6385@gmail.com"))
             "mdsad6385" eq_refl).
Defined.

(** ** The client: what the form and the checkout button send *)

Lemma trim_toLowerCase (s : string) : trim (toLowerCase s) = toLowerCase (trim s).
Proof. unfold trim. now rewrite trimStart_toLowerCase, trimEnd_toLowerCase. Qed.

Lemma email_step_lower (q : EmailStates) (c : ascii) :
  email_step q (lower_char c) = email_step q c.
Proof.
  unfold email_step, plain_char. rewrite is_space_lower_char.
  assert (Hat : Ascii.eqb (lower_char c) "@" = Ascii.eqb c "@")
    by (destruct c as [[] [] [] [] [] [] [] []]; reflexivity).
  assert (Hdot : Ascii.eqb (lower_char c) "." = Ascii.eqb c ".")
    by (destruct c as [[] [] [] [] [] [] [] []]; reflexivity).
  now rewrite Hat, Hdot.
Qed.

Lemma emailRegex_test_lower (s : string) :
  emailRegex_test (toLowerCase s) = emailRegex_test s.
Proof.
  unfold emailRegex_test.
  generalize (mkEmailStates true false false false false false).
  induction s as [|c s IH]; intros q; simpl; [reflexivity|].
  now rewrite email_step_lower, IH.
Qed.

Lemma toLowerCase_empty (s : string) : toLowerCase s = "" -> s = "".
Proof. destruct s; [reflexivity|discriminate]. Qed.

(** X18. What the form calls [signup] with is already what the server
    will store and look up: the name is the trimmed name and is not empty,
    the e-mail is the normalized form of what was typed, passes the e-mail
    check itself and is left unchanged by the server's normalization, the
    password is the trimmed password and has at least 6 characters; so the
    three fields of the request are truthy. The same holds for the e-mail
    and the password of a login. A form whose trimmed name is not empty,
    whose trimmed e-mail passes the check and whose trimmed password has 6
    characters or more does call [signup]. *)
Theorem form_sends_normalized_fields (name email password : string) :
  (forall n e p,
      handleSubmit false name email password = CallSignup n e p ->
      n = trim name /\ n <> ""
      /\ e = normalize email /\ normalize e = e /\ emailRegex_test e = true
      /\ p = trim password /\ (6 <= String.length p)%nat
      /\ truthy (get_field "name" (signup_body n e p)) = true
      /\ truthy (get_field "email" (signup_body n e p)) = true
      /\ truthy (get_field "password" (signup_body n e p)) = true
      /\ normalizedEmail (get_field "email" (signup_body n e p)) = Ok e)
  /\ (forall e p,
         handleSubmit true name email password = CallLogin e p ->
         e = normalize email /\ normalize e = e /\ emailRegex_test e = true
         /\ p = trim password /\ p <> ""
         /\ truthy (get_field "email" (login_body e p)) = true
         /\ truthy (get_field "password" (login_body e p)) = true
         /\ normalizedEmail (get_field "email" (login_body e p)) = Ok e)
  /\ (trim name <> "" -> emailRegex_test (trim email) = true ->
      (6 <= String.length (trim password))%nat ->
      handleSubmit false name email password
      = CallSignup (trim name) (normalize email) (trim password)).
Proof.
  assert (Hnorm : toLowerCase (trim email) = normalize email).
  { unfold normalize. now rewrite trim_toLowerCase. }
  assert (Hnonempty : forall t, t <> "" -> truthy (JStr t) = true).
  { intros t Ht. simpl. apply String.eqb_neq in Ht. now rewrite Ht. }
  split; [|split].
  - intros n e p. unfold handleSubmit.
    destruct (String.eqb (trim name) "") eqn:Hn; [discriminate|].
    destruct (String.eqb (trim email) "") eqn:He; [discriminate|].
    destruct (String.eqb (trim password) "") eqn:Hp; [discriminate|].
    simpl.
    destruct (emailRegex_test (trim email)) eqn:Ht; [|discriminate]. simpl.
    destruct (String.length (trim password) <? 6)%nat eqn:Hl; [discriminate|].
    inversion 1; subst. apply Nat.ltb_ge in Hl.
    apply String.eqb_neq in Hn. apply String.eqb_neq in Hp.
    apply String.eqb_neq in He.
    assert (Hene : normalize email <> "").
    { rewrite <- Hnorm. intros H0. now apply toLowerCase_empty in H0. }
    rewrite Hnorm.
    repeat split; auto;
      try (apply negb_true_iff, String.eqb_neq; assumption);
      try (now rewrite normalize_idem);
      rewrite <- Hnorm; now rewrite emailRegex_test_lower.
  - intros e p. unfold handleSubmit.
    destruct (String.eqb (trim email) "") eqn:He; [discriminate|].
    destruct (String.eqb (trim password) "") eqn:Hp; [discriminate|].
    simpl.
    destruct (emailRegex_test (trim email)) eqn:Ht; [|discriminate]. simpl.
    inversion 1; subst.
    apply String.eqb_neq in Hp. apply String.eqb_neq in He.
    assert (Hene : normalize email <> "").
    { rewrite <- Hnorm. intros H0. now apply toLowerCase_empty in H0. }
    rewrite Hnorm.
    repeat split; auto;
      try (apply negb_true_iff, String.eqb_neq; assumption);
      try (now rewrite normalize_idem);
      rewrite <- Hnorm; now rewrite emailRegex_test_lower.
  - intros Hn Ht Hl. unfold handleSubmit.
    apply String.eqb_neq in Hn. rewrite Hn, Ht.
    assert (He : String.eqb (trim email) "" = false).
    { apply String.eqb_neq. intros H0. rewrite H0 in Ht. discriminate. }
    assert (Hp : String.eqb (trim password) "" = false).
    { apply String.eqb_neq. intros H0. rewrite H0 in Hl. simpl in Hl. lia. }
    rewrite He, Hp. simpl.
    apply Nat.ltb_ge in Hl. now rewrite Hl, Hnorm.
Qed.

Lemma form_sends_normalized_fields_witness :
  handleSubmit false " Sadique " "  MDSAD6385@GMAIL.COM " "secret1"
  = CallSignup "Sadique" "mdsad6385@gmail.com" "secret1"
  /\ normalizedEmail (get_field "email"
                        (signup_body "Sadique" "mdsad6385@gmail.com" "secret1"))
     = Ok "mdsad6385@gmail.com".
Proof.
  split; [reflexivity|].
  exact (proj2 (proj2 (proj2 (proj2 (proj2 (proj2 (proj2 (proj2 (proj2 (proj2
           (proj1 (form_sends_normalized_fields
                     " Sadique " "  MDSAD6385@GMAIL.COM " "secret1")
              "Sadique" "mdsad6385@gmail.com" "secret1" eq_refl))))))))))).
Defined.

Lemma cartItemCount_zero (l : list (string * float)) :
  cartItemCount l = 0%N
  <-> forall entry, In entry l -> PrimFloat.ltb 0 (snd entry) = false.
Proof.
  unfold cartItemCount.
  assert (Hgen : forall acc,
             fold_left (fun sum entry =>
                          (sum + (if PrimFloat.ltb 0 (snd entry) then 1 else 0))%N)
                       l acc = 0%N
             <-> acc = 0%N
                 /\ forall entry, In entry l -> PrimFloat.ltb 0 (snd entry) = false).
  { induction l as [|y l IH]; intros acc; simpl.
    - split; [intros ->; split; [reflexivity|tauto]|tauto].
    - rewrite IH. destruct (PrimFloat.ltb 0 (snd y)) eqn:Hy; split.
      + intros [H _]. lia.
      + intros [_ H]. specialize (H y (or_introl eq_refl)). congruence.
      + intros [H Hl]. split; [lia|]. intros e [<-|He]; auto.
      + intros [-> H]. split; [reflexivity|]. intros e He. apply H. now right. }
  rewrite Hgen. tauto.
Qed.

(** X19. The checkout button calls [orderAPI.create] exactly when a token
    is stored, the context has a user, some entry of the client's cart has
    a quantity above 0, the address form is open and all five address
    fields are filled in; the order data then carries that address, which
    the server's guard finds present, and the payment method
    [cash_on_delivery]. The server still decides on its own cart: when it
    holds none for the user, it answers "Cart is empty" whatever the
    client's cart shows. *)
Theorem checkout_button_sends_complete_address (isAuthenticated : bool)
  (user : option PublicUser) (cartItems : list (string * float))
  (showAddressForm : bool) (a : Address) :
  ((exists orderData,
       handleCheckout isAuthenticated user cartItems showAddressForm a
       = PlaceOrder orderData)
   <-> isAuthenticated = true /\ user <> None
       /\ (exists entry, In entry cartItems /\ PrimFloat.ltb 0 (snd entry) = true)
       /\ showAddressForm = true
       /\ street a <> "" /\ city a <> "" /\ state a <> ""
       /\ zipCode a <> "" /\ country a <> "")
  /\ (forall orderData,
         handleCheckout isAuthenticated user cartItems showAddressForm a
         = PlaceOrder orderData ->
         get_field "shippingAddress" orderData = address_value a
         /\ truthy (get_field "shippingAddress" orderData) = true
         /\ get_field "paymentMethod" orderData = JStr "cash_on_delivery"
         /\ forall E principal h id db,
             reads_ok E -> find_cart db (u_id principal) = None ->
             create_order E principal (mkRequest h id orderData) db
             = (db, empty_cart)).
Proof.
  assert (Hcount : (cartItemCount cartItems =? 0)%N = false
                   <-> exists entry, In entry cartItems
                                     /\ PrimFloat.ltb 0 (snd entry) = true).
  { rewrite N.eqb_neq, cartItemCount_zero. split.
    - intros Hn. induction cartItems as [|y l IH]; [exfalso; apply Hn; intros ? []|].
      destruct (PrimFloat.ltb 0 (snd y)) eqn:Hy; [exists y; split; [now left|auto]|].
      destruct IH as (e & He & Hpos).
      + intros Hall. apply Hn. intros e [<-|He]; auto.
      + exists e. split; [now right|assumption].
    - intros (e & He & Hpos) Hall. rewrite (Hall e He) in Hpos. discriminate. }
  split.
  - unfold handleCheckout. split.
    + intros (orderData & H).
      destruct isAuthenticated; [|discriminate].
      destruct user as [u|]; [|discriminate]. simpl in H.
      destruct (cartItemCount cartItems =? 0)%N eqn:Hc; [discriminate|].
      destruct showAddressForm; [|discriminate]. simpl in H.
      destruct (String.eqb (street a) "") eqn:H1; [discriminate|].
      destruct (String.eqb (city a) "") eqn:H2; [discriminate|].
      destruct (String.eqb (state a) "") eqn:H3; [discriminate|].
      destruct (String.eqb (zipCode a) "") eqn:H4; [discriminate|].
      destruct (String.eqb (country a) "") eqn:H5; [discriminate|].
      repeat split; try (now apply String.eqb_neq); try discriminate.
      now apply Hcount.
    + intros (-> & Hu & Hpos & -> & H1 & H2 & H3 & H4 & H5).
      destruct user as [u|]; [|congruence]. simpl.
      apply Hcount in Hpos. rewrite Hpos. simpl.
      apply String.eqb_neq in H1, H2, H3, H4, H5.
      rewrite H1, H2, H3, H4, H5. simpl. eauto.
  - intros orderData H. unfold handleCheckout in H.
    destruct (negb isAuthenticated || _); [discriminate|].
    destruct (cartItemCount cartItems =? 0)%N; [discriminate|].
    destruct (negb showAddressForm); [discriminate|].
    destruct (_ || _); [discriminate|].
    inversion H; subst. repeat split.
    intros E principal h id db Hr Hc.
    unfold create_order, Cart_findOne, run_handler, bind, lift, ret, query.
    simpl. rewrite (Hr Carts). simpl. now rewrite Hc.
Qed.

Lemma checkout_button_sends_complete_address_witness :
  handleCheckout true (Some Demo.visitor) [("p1", 2%float)] true Demo.home
  = PlaceOrder [("shippingAddress", address_value Demo.home);
                ("paymentMethod", JStr "cash_on_delivery")]
  /\ handleCheckout true (Some Demo.visitor) [("p1", 2%float)] true Demo.no_city
     = AddressIncomplete
  /\ truthy (get_field "shippingAddress"
               [("shippingAddress", address_value Demo.home);
                ("paymentMethod", JStr "cash_on_delivery")]) = true.
Proof.
  split; [reflexivity|split; [reflexivity|]].
  exact (proj1 (proj2 (proj2 (checkout_button_sends_complete_address
                                true (Some Demo.visitor) [("p1", 2%float)] true
                                Demo.home)
                         _ eq_refl))).
Defined.

(** ** The client: the total of the cart page *)

Lemma assign_new (key : string) (value : float) (obj : list (string * float)) :
  ~ In key (map fst obj) -> ordinary_key key = true ->
  assign key value obj = (obj ++ [(key, value)])%list.
Proof.
  intros Hn Hk. unfold ordinary_key in Hk. unfold assign.
  destruct (array_index key); [discriminate|].
  apply negb_true_iff in Hk. rewrite Hk.
  destruct (existsb _ obj) eqn:He; [|reflexivity].
  apply existsb_exists in He as ([k v] & Hin & Heq). simpl in Heq.
  apply String.eqb_eq in Heq. subst k.
  exfalso. apply Hn. now apply (in_map fst) in Hin.
Qed.

Lemma numeral_lower (s : string) :
  forall acc n,
    numeral s acc = Some n -> (acc * 10 ^ N.of_nat (String.length s) <= n)%N.
Proof.
  induction s as [|c s IH]; intros acc n H; simpl in H.
  - inversion H; subst. simpl. lia.
  - destruct (digit c) as [d|]; [|discriminate].
    apply IH in H. cbn [String.length].
    rewrite Nat2N.inj_succ, N.pow_succ_r'. nia.
Qed.

Lemma digit_positive (c : ascii) (d : N) :
  digit c = Some d -> Ascii.eqb c "0" = false -> (1 <= d)%N.
Proof.
  unfold digit. intros H Hc.
  destruct ((48 <=? N_of_ascii c) && (N_of_ascii c <=? 57))%N eqn:Hr; [|discriminate].
  inversion H; subst d. apply andb_prop in Hr as [Hlo _].
  apply N.leb_le in Hlo.
  assert (N_of_ascii c <> 48%N); [|lia].
  intros Heq. apply (f_equal ascii_of_N) in Heq.
  rewrite ascii_N_embedding in Heq. subst c. discriminate.
Qed.

(** An array index has at most 10 digits. *)
Lemma array_index_length (key : string) (i : N) :
  array_index key = Some i -> (String.length key <= 10)%nat.
Proof.
  destruct key as [|c rest]; [discriminate|]. unfold array_index.
  destruct (Ascii.eqb c "0") eqn:Hc.
  - destruct rest; [simpl; lia|discriminate].
  - destruct (numeral (String c rest) 0) as [n|] eqn:Hn; [|discriminate].
    destruct (n <? 4294967295)%N eqn:Hlt; [|discriminate]. intros _.
    apply N.ltb_lt in Hlt. simpl in Hn.
    destruct (digit c) as [d|] eqn:Hd; [|discriminate].
    apply digit_positive in Hd; [|assumption].
    apply numeral_lower in Hn.
    destruct (le_gt_dec (String.length rest) 9) as [Hle|Hgt]; [simpl; lia|].
    exfalso.
    assert (Hpow : (10 ^ 10 <= 10 ^ N.of_nat (String.length rest))%N)
      by (apply N.pow_le_mono_r; lia).
    change (10 ^ 10)%N with 10000000000%N in Hpow. nia.
Qed.

Lemma cartItemsObj_distinct (toString : JSValue -> string)
  (cart_items : list CartItem) :
  forall items obj,
    Forall2 (sent_item toString) cart_items items ->
    List.NoDup (map fst obj ++ map ci_product cart_items) ->
    Forall (fun it => ordinary_key (ci_product it) = true) cart_items ->
    cartItemsObj toString items obj
    = Ok (obj ++ map (fun it => (ci_product it, ci_quantity it)) cart_items)%list.
Proof.
  induction cart_items as [|it cart_items IH]; intros items obj Hall Hnd Hidx;
    inversion Hall as [|? item ? items' [Hk Hq] Hrest]; subst; simpl.
  - now rewrite app_nil_r.
  - destruct item as [product quantity]. simpl in Hk, Hq. rewrite Hk. subst quantity.
    inversion Hidx as [|? ? Hit Hidx']; subst.
    rewrite assign_new; [| |exact Hit].
    2:{ apply List.NoDup_remove_2 in Hnd. intros Hin. apply Hnd.
        apply in_or_app. now left. }
    rewrite (IH items' _ Hrest).
    + now rewrite <- app_assoc.
    + rewrite map_app. simpl. rewrite <- app_assoc. exact Hnd.
    + exact Hidx'.
Qed.

Lemma cartAmount_fold (db : Db) (cart_items : list CartItem) :
  Forall (fun it => PrimFloat.ltb 0 (ci_quantity it) = true
                    /\ find_product db (ci_product it) <> None) cart_items ->
  forall total,
    fold_left
      (fun totalAmount entry =>
         if PrimFloat.ltb 0 (snd entry) then
           match List.find (fun product => String.eqb (p_id product) (fst entry))
                           (products db) with
           | Some itemInfo =>
               PrimFloat.add totalAmount
                             (PrimFloat.mul (new_price itemInfo) (snd entry))
           | None => totalAmount
           end
         else totalAmount)
      (map (fun it => (ci_product it, ci_quantity it)) cart_items) total
    = fold_left
        (fun acc it =>
           PrimFloat.add acc (PrimFloat.mul (catalog_price db (ci_product it))
                                            (ci_quantity it)))
        cart_items total.
Proof.
  induction 1 as [|it cart_items [Hq Hp] _ IH]; intros total; simpl;
    [reflexivity|].
  rewrite Hq. unfold catalog_price at 2. unfold find_product in *.
  destruct (List.find _ (products db)) as [p|]; [apply IH|congruence].
Qed.

(** X20. The cart page shows the total the order will have. When the
    client's cart was fetched from a stored cart whose entries have
    distinct products, none with an id that is an array index or
    [__proto__], quantities above 0 and products of the catalog, and the
    client's product list is the catalog, the cart of the client has the
    entries in the order of the stored cart, the sum that
    [getTotalCartAmount] formats is the sum over the entries of price
    times quantity, and it is the [totalAmount] of the order a checkout of
    that cart creates; [getTotalCartItems] is the sum of the quantities.
    An id of 24 characters, as an ObjectId is written, is always such an
    id. A cart with an item whose product is [null]
    is shown as empty, as is any cart whose request failed. *)
Theorem cart_page_total_is_order_total (toString : JSValue -> string)
  (toFixed : float -> nat -> string) (db : Db) (cart : Cart)
  (items : list (JSValue * float)) :
  (Forall2 (sent_item toString) (c_items cart) items ->
   List.NoDup (map ci_product (c_items cart)) ->
   Forall (fun it => ordinary_key (ci_product it) = true) (c_items cart) ->
   Forall (fun it => PrimFloat.ltb 0 (ci_quantity it) = true
                     /\ find_product db (ci_product it) <> None) (c_items cart) ->
   fetchCart toString (Ok (Some items))
   = map (fun it => (ci_product it, ci_quantity it)) (c_items cart)
   /\ cartAmount (products db) (fetchCart toString (Ok (Some items)))
      = cart_total db (c_items cart)
   /\ getTotalCartAmount toFixed (products db) (fetchCart toString (Ok (Some items)))
      = toFixed (cart_total db (c_items cart)) 2%nat
   /\ getTotalCartItems (fetchCart toString (Ok (Some items)))
      = fold_left (fun n it => PrimFloat.add n (ci_quantity it)) (c_items cart) 0%float
   /\ forall E user req db' order,
       find_cart db (u_id user) = Some cart ->
       create_order E user req db = (db', mkResponse 201 (BOrder order)) ->
       totalAmount order
       = cartAmount (products db) (fetchCart toString (Ok (Some items))))
  /\ (forall id, String.length id = 24%nat -> ordinary_key id = true)
  /\ (In JNull (map fst items) ->
      fetchCart toString (Ok (Some items)) = []
      /\ cartAmount (products db) (fetchCart toString (Ok (Some items))) = 0%float)
  /\ (forall e, fetchCart toString (Throw e) = [])
  /\ fetchCart toString (Ok None) = [].
Proof.
  split; [|split; [|split; [|split; reflexivity]]].
  - intros Hsent Hnd Hidx Hall.
    assert (Hfetch : fetchCart toString (Ok (Some items))
                     = map (fun it => (ci_product it, ci_quantity it)) (c_items cart)).
    { pose proof (cartItemsObj_distinct toString (c_items cart) items
                    (@nil (string * float)) Hsent Hnd Hidx)
        as Hobj.
      unfold fetchCart. now rewrite Hobj. }
    assert (Hsum : cartAmount (products db) (fetchCart toString (Ok (Some items)))
                   = cart_total db (c_items cart)).
    { rewrite Hfetch. unfold cartAmount, cart_total. now apply cartAmount_fold. }
    split; [exact Hfetch|split; [exact Hsum|split; [|split]]].
    + unfold getTotalCartAmount. now rewrite Hsum.
    + rewrite Hfetch. unfold getTotalCartItems.
      assert (Hgen : forall n,
                 fold_left
                   (fun totalItems entry =>
                      if PrimFloat.ltb 0 (snd entry)
                      then PrimFloat.add totalItems (snd entry) else totalItems)
                   (map (fun it => (ci_product it, ci_quantity it)) (c_items cart)) n
                 = fold_left (fun m it => PrimFloat.add m (ci_quantity it))
                             (c_items cart) n).
      { clear -Hall. induction Hall as [|it l [Hq _] _ IH]; intros n; simpl;
          [reflexivity|].
        rewrite Hq. apply IH. }
      apply Hgen.
    + intros E user req db' order Hc H. rewrite Hsum.
      apply create_order_created in H
        as (cart' & built & l & Hc' & Hb & _ & _ & Hresp); [|reflexivity].
      rewrite Hc in Hc'. inversion Hc'; subst cart'.
      inversion Hresp; subst order. simpl.
      destruct built as [ois total]. simpl.
      now apply orderItems_spec in Hb as [_ Ht].
  - intros id Hlen. unfold ordinary_key.
    destruct (array_index id) as [i|] eqn:Hi.
    + apply array_index_length in Hi. lia.
    + destruct (String.eqb id "__proto__") eqn:Hp; [|reflexivity].
      apply String.eqb_eq in Hp. subst id. discriminate.
  - intros Hnull.
    assert (Hthrow : forall obj, exists e, cartItemsObj toString items obj = Throw e).
    { induction items as [|[product quantity] items IH]; [contradiction|].
      intros obj. simpl in *. destruct Hnull as [->|Hin]; [eauto|].
      destruct (productId toString product); [apply IH; assumption|eauto]. }
    unfold fetchCart. destruct (Hthrow []) as [e ->]. split; reflexivity.
Qed.

Lemma cart_page_total_is_order_total_witness :
  fetchCart Demo.show (Ok (Some Demo.alice_cart_data)) = [("p1", 2%float); ("p2", 1%float)]
  /\ cartAmount (products Sample.db)
                (fetchCart Demo.show (Ok (Some Demo.alice_cart_data)))
     = 25%float
  /\ totalAmount Sample.alice_order
     = cartAmount (products Sample.db)
                  (fetchCart Demo.show (Ok (Some Demo.alice_cart_data)))
  /\ fetchCart Demo.show (Ok (Some Demo.dangling_cart_data)) = []
  /\ fetchCart Demo.show (Ok (Some Demo.numbered_cart_data))
     = [("9", 1%float); ("10", 4%float); ("p1", 3%float)].
Proof.
  split; [reflexivity|split; [reflexivity|split; [|split; [|reflexivity]]]].
  - refine (proj2 (proj2 (proj2 (proj2 (proj1 (cart_page_total_is_order_total
                                                 Demo.show (fun _ _ => "") Sample.db
                                                 Sample.alice_cart
                                                 Demo.alice_cart_data)
                                          _ _ _ _))))
              Sample.env Sample.alice Sample.checkout _ Sample.alice_order
              eq_refl eq_refl).
    + repeat constructor.
    + simpl. apply List.NoDup_cons; [|apply List.NoDup_cons; [|apply List.NoDup_nil]].
      * intros [H|[]]. discriminate.
      * intros [].
    + repeat constructor.
    + repeat constructor; discriminate.
  - refine (proj1 (proj1 (proj2 (proj2 (cart_page_total_is_order_total
                                          Demo.show (fun _ _ => "") Sample.db
                                          Sample.alice_cart Demo.dangling_cart_data)))
                     _)).
    right. left. reflexivity.
Defined.
